(** * EduNavigator: the recommendation engine

    A shallow embedding of the recommendation code of the EduNavigator
    backend:

    - [services/recommendationService.js] (class [RecommendationService]):
      the rule-based, content-based, collaborative and hybrid generators
      and [calculateContentSimilarity];
    - [models/Recommendation.js]: the stored document and the static
      [updateInteraction];
    - [controllers/recommendationController.js]: the handlers
      [updateRecommendationInteraction] and [generateRecommendations].

    Conventions of the embedding.
    - A JavaScript Number is a [jsnum]: an exact rational, one of the two
      infinities, or NaN.  Rounding of IEEE doubles and the sign of zero are
      not modelled; every division is the JavaScript one (0/0 is NaN).
      Where a rounded result is compared with a threshold (the
      similarities of the content-based generator), the statements give a
      margin around the exact value instead of the exact value.
    - A MongoDB collection is the list of its documents in natural order;
      [find] is [filter], [limit] is [firstn].
    - [new Date()] is an explicit argument [now] (milliseconds, a [Z]).
    - An ObjectId is a string, compared by value where the code compares
      ids through Mongoose or MongoDB, and by identity (never equal) where
      it compares two ObjectId objects with a plain array method.
    - Of the timestamps that the schemas keep, the [createdAt] and
      [updatedAt] of a recommendation are modelled, those of a user are
      not. *)

From Stdlib Require Import QArith Qminmax Qround Lqa Lia ZArith.
From Stdlib Require Import List String Ascii Bool Arith Permutation.
From Stdlib Require Import DecimalString Sorted.
Import ListNotations.

Local Open Scope Q_scope.

(** ** JavaScript numbers *)

Module JsNum.

Inductive jsnum : Type :=
| Fin (q : Q)
| PInf
| NInf
| NaN.

Definition of_nat (n : nat) : jsnum := Fin (inject_Z (Z.of_nat n)).
Definition of_Z (z : Z) : jsnum := Fin (inject_Z z).

Definition Qpos (q : Q) : bool := negb (Qle_bool q 0).
Definition Qneg (q : Q) : bool := negb (Qle_bool 0 q).

(** [a + b] *)
Definition add (a b : jsnum) : jsnum :=
match a, b with
| NaN, _ | _, NaN => NaN
| PInf, NInf | NInf, PInf => NaN
| PInf, _ | _, PInf => PInf
| NInf, _ | _, NInf => NInf
| Fin x, Fin y => Fin (Qred (x + y))
end.

(** [-a] *)
Definition neg (a : jsnum) : jsnum :=
match a with
| Fin x => Fin (Qred (- x))
| PInf => NInf
| NInf => PInf
| NaN => NaN
end.

(** [a - b] *)
Definition sub (a b : jsnum) : jsnum := add a (neg b).

(** the infinity whose sign is that of [q] times positive, NaN at zero *)
Definition signed_inf (q : Q) : jsnum :=
if Qpos q then PInf else if Qneg q then NInf else NaN.

(** [a * b] *)
Definition mul (a b : jsnum) : jsnum :=
match a, b with
| NaN, _ | _, NaN => NaN
| Fin x, Fin y => Fin (Qred (x * y))
| Fin x, PInf | PInf, Fin x => signed_inf x
| Fin x, NInf | NInf, Fin x => signed_inf (- x)
| PInf, PInf | NInf, NInf => PInf
| PInf, NInf | NInf, PInf => NInf
end.

(** [a / b]: a finite number over zero is an infinity, 0/0 is NaN *)
Definition div (a b : jsnum) : jsnum :=
match a, b with
| NaN, _ | _, NaN => NaN
| Fin x, Fin y =>
    if Qeq_bool y 0 then signed_inf x else Fin (Qred (x / y))
| Fin _, PInf | Fin _, NInf => Fin 0
| PInf, Fin y => if Qneg y then NInf else PInf
| NInf, Fin y => if Qneg y then PInf else NInf
| PInf, _ | NInf, _ => NaN
end.

(** [a > b]: false as soon as one side is NaN *)
Definition gt (a b : jsnum) : bool :=
match a, b with
| NaN, _ | _, NaN => false
| Fin x, Fin y => negb (Qle_bool x y)
| PInf, PInf => false
| PInf, _ => true
| NInf, _ => false
| Fin _, NInf => true
| Fin _, PInf => false
end.

(** [Math.min(a, b)] *)
Definition min (a b : jsnum) : jsnum :=
match a, b with
| NaN, _ | _, NaN => NaN
| NInf, _ | _, NInf => NInf
| PInf, x | x, PInf => x
| Fin x, Fin y => if Qle_bool x y then Fin x else Fin y
end.

(** the number is a rational between [lo] and [hi] *)
Definition between (lo hi : Q) (a : jsnum) : Prop :=
match a with
| Fin q => lo <= q /\ q <= hi
| _ => False
end.

Definition is_finite (a : jsnum) : Prop :=
match a with Fin _ => True | _ => False end.

(** equality of numbers as values: rationals up to [Qeq] *)
Definition eqv (a b : jsnum) : Prop :=
match a, b with
| Fin x, Fin y => x == y
| PInf, PInf | NInf, NInf | NaN, NaN => True
| _, _ => False
end.

End JsNum.

Import JsNum.

(** ** JavaScript strings (ASCII) *)

Module JsString.

Definition lower_ascii (c : ascii) : ascii :=
let n := nat_of_ascii c in
if (65 <=? n)%nat && (n <=? 90)%nat then ascii_of_nat (n + 32) else c.

(** [s.toLowerCase()], on the ASCII letters *)
Fixpoint toLowerCase (s : string) : string :=
match s with
| EmptyString => EmptyString
| String c t => String (lower_ascii c) (toLowerCase t)
end.

(** [hay.includes(needle)]: [needle] occurs in [hay] as a substring *)
Fixpoint includes (hay needle : string) : bool :=
String.prefix needle hay
|| match hay with
   | EmptyString => false
   | String _ t => includes t needle
   end.

End JsString.

(** ** Arrays of primitive values *)

(** [arr.includes(x)] on an array of strings *)
Definition str_includes (arr : list string) (x : string) : bool :=
  existsb (String.eqb x) arr.

(** [arr.includes(x)] on an array of numbers *)
Definition Z_includes (arr : list Z) (x : Z) : bool :=
  existsb (Z.eqb x) arr.

(** ** Data model *)

Definition ObjectId : Type := string.
Bind Scope string_scope with ObjectId.

(** [arr.includes(id)] on a Mongoose array of ObjectIds, [$in] and [$nin] on
    ids: comparison of the ids' values *)
Definition oid_includes (arr : list ObjectId) (x : ObjectId) : bool :=
  existsb (String.eqb x) arr.

Inductive Role : Type := school | university.
Inductive OpportunityType : Type := hackathon | internship.
Inductive EntityType : Type := exam | opportunity.
Inductive Algorithm : Type :=
| rule_based | content_based | collaborative_filtering | hybrid.

Definition Role_eqb (a b : Role) : bool :=
  match a, b with
  | school, school | university, university => true
  | _, _ => false
  end.

Definition EntityType_eqb (a b : EntityType) : bool :=
  match a, b with
  | exam, exam | opportunity, opportunity => true
  | _, _ => false
  end.

(** the value stored in the [entity_type] field *)
Definition EntityType_str (t : EntityType) : string :=
  match t with
  | exam => "exam"
  | opportunity => "opportunity"
  end.

Module User.
(** [models/User.js]; [school_info] is absent for a university student,
    [degree] and [year] for a school student *)
Record t : Type := mk {
  _id : ObjectId;
  role : Role;
  degree : option string;            (* education.degree *)
  year : option Z;                   (* education.year *)
  stream : option string;            (* school_info && school_info.stream *)
  interests : list string;           (* preferences.interests *)
  saved_exams : list ObjectId;
  saved_hackathons : list ObjectId;
  saved_internships : list ObjectId;
  is_active : bool
}.
End User.

Module Exam.
(** [models/Exam.js]; the schema declares no [application_count], the
    rule-based generator reads one: [None] is [undefined] *)
Record t : Type := mk {
  _id : ObjectId;
  exam_name : string;
  exam_type : string;
  subjects : list string;
  events : list Z;                   (* events[i].date *)
  is_active : bool;
  application_count : option Z
}.
End Exam.

Module Opportunity.
(** [models/Opportunity.js] *)
Record t : Type := mk {
  _id : ObjectId;
  title : string;
  type : OpportunityType;
  organizer : option string;
  company : option string;
  domain : option (list string);
  degree_required : list string;
  year_of_study : list Z;
  skills_required : list string;
  deadline : Z;
  is_active : bool;
  application_count : Z
}.
End Opportunity.

Record Reason : Type := mkReason { reason : string; weight : Q }.

(** the plain objects the generators push, before they are stored *)
Module Rec.
Record t : Type := mk {
  user_id : ObjectId;
  entity_type : EntityType;
  entity_id : ObjectId;
  entity_type_ref : string;
  score : jsnum;
  algorithm_used : Algorithm;
  recommendation_reasons : list Reason
}.
End Rec.

Record Interaction : Type := mkInteraction {
  viewed : bool;
  saved : bool;
  applied : bool;
  viewed_at : option Z;
  saved_at : option Z;
  applied_at : option Z
}.

Module Recommendation.
(** a stored document of [models/Recommendation.js]; [createdAt] and
    [updatedAt] are the paths the schema option [timestamps: true]
    maintains *)
Record t : Type := mk {
  _id : ObjectId;
  user_id : ObjectId;
  entity_type : EntityType;
  entity_id : ObjectId;
  entity_type_ref : string;
  score : jsnum;
  algorithm_used : Algorithm;
  recommendation_reasons : list Reason;
  user_interaction : Interaction;
  expires_at : Z;
  is_active : bool;
  createdAt : Z;
  updatedAt : Z
}.
End Recommendation.

(** the collections, and how many ObjectIds the driver has generated *)
Record DB : Type := mkDB {
  users : list User.t;
  exams : list Exam.t;
  opportunities : list Opportunity.t;
  recommendations : list Recommendation.t;
  oid_seq : nat
}.

(** a truthy optional string: present and not empty *)
Definition truthy_str (s : option string) : option string :=
  match s with
  | Some EmptyString => None
  | other => other
  end.

(** the string of an ObjectId as [toString()] gives it: 24 digits of
    [0-9a-f].  These strings pass [isValidObjectId] of the validation
    helpers (lines 10-13, [/^[0-9a-fA-F]{24}$/]) and [isMongoId()] of the
    routes, cast to an ObjectId wherever the schema asks for one, and are
    the string of the ObjectId they cast to; a string is an [ObjectId]
    here as the id it casts to *)
Definition isHexDigit (c : ascii) : bool :=
  let n := nat_of_ascii c in
  ((48 <=? n) && (n <=? 57) || (97 <=? n) && (n <=? 102))%nat.

Definition isObjectIdHex (id : string) : bool :=
  (String.length id =? 24)%nat
  && forallb isHexDigit (list_ascii_of_string id).

(** [Model.findById(id)], for an [id] that casts to an ObjectId: the
    routes refuse every other path parameter, and the query throws on a
    string that does not cast *)
Definition findUserById (db : DB) (id : ObjectId) : option User.t :=
  find (fun u => String.eqb (User._id u) id) (users db).

(** ** [services/recommendationService.js] *)

(** [arr.push(x)] *)
Definition push {A : Type} (arr : list A) (x : A) : list A := arr ++ [x].

(** [hay.toLowerCase().includes(needle.toLowerCase())] *)
Definition lc_includes (hay needle : string) : bool :=
  JsString.includes (JsString.toLowerCase hay) (JsString.toLowerCase needle).

(** [x > n] for a field that may be [undefined] *)
Definition opt_gt (x : option Z) (n : Z) : bool :=
  match x with
  | Some v => (n <? v)%Z
  | None => false
  end.

Definition nonempty {A : Type} (l : list A) : bool := (0 <? List.length l)%nat.

Definition scienceSubjects : list string :=
  ["Physics"; "Chemistry"; "Maths"; "Biology"]%string.

(** [Exam.find({ is_active: true, 'events.date': { $gt: new Date() } })] *)
Definition upcomingExam (now : Z) (e : Exam.t) : bool :=
  Exam.is_active e && existsb (fun d => (now <? d)%Z) (Exam.events e).

(** [Opportunity.find({ is_active: true, deadline: { $gt: new Date() } })] *)
Definition openOpportunity (now : Z) (o : Opportunity.t) : bool :=
  Opportunity.is_active o && (now <? Opportunity.deadline o)%Z.

Module RuleBased.

(** the interests that match an exam (lines 79-82) *)
Definition examMatchingInterests (user : User.t) (e : Exam.t) : list string :=
  filter (fun interest =>
            lc_includes (Exam.exam_name e) interest
            || existsb (fun subject => lc_includes subject interest)
                 (Exam.subjects e))
         (User.interests user).

(** the interests that match an opportunity (lines 120-124) *)
Definition oppMatchingInterests (user : User.t) (o : Opportunity.t)
  : list string :=
  filter (fun interest =>
            lc_includes (Opportunity.title o) interest
            || existsb (fun skill => lc_includes skill interest)
                 (Opportunity.skills_required o)
            || match Opportunity.domain o with
               | Some ds => existsb (fun d => lc_includes d interest) ds
               | None => false
               end)
         (User.interests user).

(** lines 66-71: a Science stream and a subject that contains the name of
    a science subject *)
Definition scienceMatch (user : User.t) (e : Exam.t) : bool :=
  match User.stream user with
  | Some s =>
      String.eqb s "Science"
      && let matchingSubjects :=
           filter (fun subject =>
                     existsb (fun sci => lc_includes subject sci)
                       scienceSubjects)
                  (Exam.subjects e) in
         nonempty matchingSubjects
  | None => false
  end.

(** line 133 *)
Definition degreeMatch (user : User.t) (o : Opportunity.t) : bool :=
  match User.degree user with
  | Some d => str_includes (Opportunity.degree_required o) d
  | None => false
  end
  || str_includes (Opportunity.degree_required o) "Any".

(** line 137 *)
Definition yearMatch (user : User.t) (o : Opportunity.t) : bool :=
  match User.year user with
  | Some y => Z_includes (Opportunity.year_of_study o) y
  | None => false
  end
  || Z_includes (Opportunity.year_of_study o) 0%Z.

(** [if (cond) { score += w; reasons.push({ reason, weight }) }] *)
Definition bonus (cond : bool) (w : jsnum) (why : Reason)
  (st : jsnum * list Reason) : jsnum * list Reason :=
  if cond then (add (fst st) w, push (snd st) why) else st.

(** the interest term (lines 78-87 and 119-129): nothing is computed for
    a user without interests, nor when no interest matches *)
Definition interestBonus (interests matchingInterests : list string)
  (w : Q) (why : Reason) (st : jsnum * list Reason)
  : jsnum * list Reason :=
  if nonempty interests then
    bonus (nonempty matchingInterests)
      (mul (div (of_nat (List.length matchingInterests))
                (of_nat (List.length interests)))
           (Fin w))
      why st
  else st.

(** [score] and [reasons] of an exam when the loop body reaches its
    threshold test (lines 62-93) *)
Definition examScore (user : User.t) (e : Exam.t) : jsnum * list Reason :=
  let st := (Fin (1 # 2), []) in
  let st :=
    bonus (scienceMatch user e) (Fin (3 # 10))
      (mkReason "Matches your Science stream" (3 # 10)) st in
  let st :=
    interestBonus (User.interests user) (examMatchingInterests user e)
      (1 # 5) (mkReason "Aligns with your interests" (1 # 5)) st in
  bonus (opt_gt (Exam.application_count e) 100) (Fin (1 # 10))
    (mkReason "Popular among students" (1 # 10)) st.

(** the object pushed for an exam (lines 96-104) *)
Definition examRec (user : User.t) (e : Exam.t) : Rec.t :=
  let '(score, reasons) := examScore user e in
  Rec.mk (User._id user) exam (Exam._id e) "Exam"
    (min score (Fin 1)) rule_based reasons.

(** one iteration of the loop over the exams (lines 61-106) *)
Definition examStep (user : User.t) (recommendations : list Rec.t)
  (e : Exam.t) : list Rec.t :=
  if gt (fst (examScore user e)) (Fin (3 # 5)) then
    push recommendations (examRec user e)
  else recommendations.

(** [score] and [reasons] of an opportunity at the threshold test
    (lines 115-147) *)
Definition oppScore (user : User.t) (o : Opportunity.t)
  : jsnum * list Reason :=
  let st := (Fin (1 # 2), []) in
  let st :=
    interestBonus (User.interests user) (oppMatchingInterests user o)
      (3 # 10) (mkReason "Matches your interests" (3 # 10)) st in
  let st :=
    match Opportunity.type o with
    | internship =>
        let st :=
          bonus (degreeMatch user o) (Fin (1 # 5))
            (mkReason "Suitable for your degree" (1 # 5)) st in
        bonus (yearMatch user o) (Fin (1 # 5))
          (mkReason "Perfect for your year" (1 # 5)) st
    | hackathon => st
    end in
  bonus (50 <? Opportunity.application_count o)%Z (Fin (1 # 10))
    (mkReason "Popular opportunity" (1 # 10)) st.

(** the object pushed for an opportunity (lines 150-158) *)
Definition oppRec (user : User.t) (o : Opportunity.t) : Rec.t :=
  let '(score, reasons) := oppScore user o in
  Rec.mk (User._id user) opportunity (Opportunity._id o) "Opportunity"
    (min score (Fin 1)) rule_based reasons.

(** one iteration of the loop over the opportunities (lines 114-160) *)
Definition oppStep (user : User.t) (recommendations : list Rec.t)
  (o : Opportunity.t) : list Rec.t :=
  if gt (fst (oppScore user o)) (Fin (3 # 5)) then
    push recommendations (oppRec user o)
  else recommendations.

(** the loops, on the candidates the query has returned *)
Definition scoreExams (user : User.t) (pool : list Exam.t) : list Rec.t :=
  fold_left (examStep user) pool [].

Definition scoreOpportunities (user : User.t) (pool : list Opportunity.t)
  : list Rec.t :=
  fold_left (oppStep user) pool [].

(** [generateRuleBasedRecommendations(user)] (lines 51-164) *)
Definition generateRuleBasedRecommendations (db : DB) (now : Z)
  (user : User.t) : list Rec.t :=
  match User.role user with
  | school =>
      scoreExams user (firstn 50 (filter (upcomingExam now) (exams db)))
  | university =>
      scoreOpportunities user
        (firstn 100 (filter (openOpportunity now) (opportunities db)))
  end.

End RuleBased.

(** the arrays [analyzeUserPreferences] returns *)
Module Preferences.
Record t : Type := mk {
  subjects : list string;
  skills : list string;
  domains : list string;
  examTypes : list string;
  companies : list string;
  organizers : list string
}.
End Preferences.

(** what [calculateContentSimilarity] reads of its [item], an exam or an
    opportunity; [None] is a field the document does not have *)
Module Item.
Record t : Type := mk {
  subjects : option (list string);
  skills_required : option (list string);
  domain : option (list string);
  company : option string;
  organizer : option string
}.
End Item.

Module ContentBased.

Definition itemOfExam (e : Exam.t) : Item.t :=
  Item.mk (Some (Exam.subjects e)) None None None None.

(** [domain] is an array path of the schema: an opportunity stored
    without it is read with the empty array, never with [undefined] *)
Definition itemOfOpportunity (o : Opportunity.t) : Item.t :=
  Item.mk None (Some (Opportunity.skills_required o))
    (Some match Opportunity.domain o with
          | Some ds => ds
          | None => []
          end)
    (Opportunity.company o) (Opportunity.organizer o).

(** [set.add(x)] on a [Set] of strings, kept in insertion order *)
Definition set_add (s : list string) (x : string) : list string :=
  if str_includes s x then s else push s x.

(** [analyzeUserPreferences(user)] (lines 360-397) *)
Definition analyzeUserPreferences (db : DB) (user : User.t)
  : Preferences.t :=
  let preferences := Preferences.mk [] [] [] [] [] [] in
  let preferences :=
    if nonempty (User.saved_exams user) then
      let found :=
        filter (fun e => oid_includes (User.saved_exams user) (Exam._id e))
               (exams db) in
      fold_left
        (fun p e =>
           Preferences.mk
             (fold_left set_add (Exam.subjects e) (Preferences.subjects p))
             (Preferences.skills p) (Preferences.domains p)
             (set_add (Preferences.examTypes p) (Exam.exam_type e))
             (Preferences.companies p) (Preferences.organizers p))
        found preferences
    else preferences in
  let savedOpps :=
    User.saved_hackathons user ++ User.saved_internships user in
  if nonempty savedOpps then
    let found :=
      filter (fun o => oid_includes savedOpps (Opportunity._id o))
             (opportunities db) in
    fold_left
      (fun p o =>
         Preferences.mk
           (Preferences.subjects p)
           (fold_left set_add (Opportunity.skills_required o)
              (Preferences.skills p))
           (match Opportunity.domain o with
            | Some ds => fold_left set_add ds (Preferences.domains p)
            | None => Preferences.domains p
            end)
           (Preferences.examTypes p)
           (match truthy_str (Opportunity.company o) with
            | Some c => set_add (Preferences.companies p) c
            | None => Preferences.companies p
            end)
           (match truthy_str (Opportunity.organizer o) with
            | Some g => set_add (Preferences.organizers p) g
            | None => Preferences.organizers p
            end))
      found preferences
  else preferences.

(** [{ field: { $in: values } }] on an array field *)
Definition arr_in (field values : list string) : bool :=
  existsb (str_includes values) field.

(** [findSimilarExams(savedExams, preferences)] (lines 405-421) *)
Definition findSimilarExams (db : DB) (now : Z)
  (savedExams : list ObjectId) (preferences : Preferences.t)
  : list Exam.t :=
  firstn 20
    (filter (fun e =>
               upcomingExam now e
               && negb (oid_includes savedExams (Exam._id e))
               && (if nonempty (Preferences.subjects preferences)
                   then arr_in (Exam.subjects e)
                          (Preferences.subjects preferences)
                   else true)
               && (if nonempty (Preferences.examTypes preferences)
                   then str_includes (Preferences.examTypes preferences)
                          (Exam.exam_type e)
                   else true))
            (exams db)).

(** [findSimilarOpportunities(savedOpportunities, preferences)]
    (lines 429-445) *)
Definition findSimilarOpportunities (db : DB) (now : Z)
  (savedOpportunities : list ObjectId) (preferences : Preferences.t)
  : list Opportunity.t :=
  firstn 30
    (filter (fun o =>
               openOpportunity now o
               && negb (oid_includes savedOpportunities (Opportunity._id o))
               && (if nonempty (Preferences.skills preferences)
                   then arr_in (Opportunity.skills_required o)
                          (Preferences.skills preferences)
                   else true)
               && (if nonempty (Preferences.domains preferences)
                   then match Opportunity.domain o with
                        | Some ds =>
                            arr_in ds (Preferences.domains preferences)
                        | None => false
                        end
                   else true))
            (opportunities db)).

(** [(matching.length / facet.length) * w], [matching] the elements of
    the facet found in the preference array *)
Definition facetTerm (facet prefs : list string) (w : Q) : jsnum :=
  let matching := filter (fun x => str_includes prefs x) facet in
  mul (div (of_nat (List.length matching)) (of_nat (List.length facet)))
      (Fin w).

(** a facet that is an array: lines 458-464, 466-472 and 475-481 *)
Definition listFacet (facet : option (list string)) (prefs : list string)
  (w : Q) (st : jsnum * jsnum) : jsnum * jsnum :=
  let '(score, totalWeight) := st in
  match facet with
  | Some xs => (add score (facetTerm xs prefs w), add totalWeight (Fin w))
  | None => (score, totalWeight)
  end.

(** a facet that is one string: lines 484-487 and 489-492 *)
Definition nameFacet (name : option string) (prefs : list string)
  (st : jsnum * jsnum) : jsnum * jsnum :=
  let '(score, totalWeight) := st in
  match truthy_str name with
  | Some c =>
      if str_includes prefs c
      then (add score (Fin (1 # 10)), add totalWeight (Fin (1 # 10)))
      else (score, totalWeight)
  | None => (score, totalWeight)
  end.

(** [score] and [totalWeight] at the [return] (lines 454-492) *)
Definition similarityAcc (item : Item.t) (preferences : Preferences.t)
  : jsnum * jsnum :=
  let st := (Fin 0, Fin 0) in
  let st := listFacet (Item.subjects item)
              (Preferences.subjects preferences) (2 # 5) st in
  let st := listFacet (Item.skills_required item)
              (Preferences.skills preferences) (3 # 10) st in
  let st := listFacet (Item.domain item)
              (Preferences.domains preferences) (1 # 5) st in
  let st := nameFacet (Item.company item)
              (Preferences.companies preferences) st in
  nameFacet (Item.organizer item)
    (Preferences.organizers preferences) st.

(** [calculateContentSimilarity(item, preferences)] (lines 453-495), in
    exact arithmetic *)
Definition calculateContentSimilarity (item : Item.t)
  (preferences : Preferences.t) : jsnum :=
  let '(score, totalWeight) := similarityAcc item preferences in
  if gt totalWeight (Fin 0) then div score totalWeight else Fin 0.

Definition examReasons : list Reason :=
  [mkReason "Similar to your saved exams" (2 # 5);
   mkReason "Matches your preferences" (3 # 10)].

Definition oppReasons : list Reason :=
  [mkReason "Similar to your saved opportunities" (2 # 5);
   mkReason "Matches your preferences" (3 # 10)].

(** the object pushed for an exam (lines 188-199) *)
Definition examRec (user : User.t) (preferences : Preferences.t)
  (e : Exam.t) : Rec.t :=
  Rec.mk (User._id user) exam (Exam._id e) "Exam"
    (calculateContentSimilarity (itemOfExam e) preferences)
    content_based examReasons.

(** one iteration of the loop over the similar exams (lines 185-201) *)
Definition examStep (user : User.t) (preferences : Preferences.t)
  (recommendations : list Rec.t) (e : Exam.t) : list Rec.t :=
  let score := calculateContentSimilarity (itemOfExam e) preferences in
  if gt score (Fin (7 # 10)) then
    push recommendations (examRec user preferences e)
  else recommendations.

(** the object pushed for an opportunity (lines 209-220) *)
Definition oppRec (user : User.t) (preferences : Preferences.t)
  (o : Opportunity.t) : Rec.t :=
  Rec.mk (User._id user) opportunity (Opportunity._id o) "Opportunity"
    (calculateContentSimilarity (itemOfOpportunity o) preferences)
    content_based oppReasons.

(** one iteration of the loop over the similar opportunities
    (lines 206-222) *)
Definition oppStep (user : User.t) (preferences : Preferences.t)
  (recommendations : list Rec.t) (o : Opportunity.t) : list Rec.t :=
  let score :=
    calculateContentSimilarity (itemOfOpportunity o) preferences in
  if gt score (Fin (7 # 10)) then
    push recommendations (oppRec user preferences o)
  else recommendations.

Definition scoreExams (user : User.t) (preferences : Preferences.t)
  (pool : list Exam.t) : list Rec.t :=
  fold_left (examStep user preferences) pool [].

Definition scoreOpportunities (user : User.t)
  (preferences : Preferences.t) (pool : list Opportunity.t) : list Rec.t :=
  fold_left (oppStep user preferences) pool [].

(** [generateContentBasedRecommendations(user)] (lines 171-226) *)
Definition generateContentBasedRecommendations (db : DB) (now : Z)
  (user : User.t) : list Rec.t :=
  let savedExams := User.saved_exams user in
  let savedOpportunities :=
    User.saved_hackathons user ++ User.saved_internships user in
  let userPreferences := analyzeUserPreferences db user in
  if Role_eqb (User.role user) school && nonempty savedExams then
    scoreExams user userPreferences
      (findSimilarExams db now savedExams userPreferences)
  else if Role_eqb (User.role user) university
          && nonempty savedOpportunities then
    scoreOpportunities user userPreferences
      (findSimilarOpportunities db now savedOpportunities userPreferences)
  else [].

End ContentBased.

(** *** Collaborative filtering *)

(** a [Map], or a plain object used as a table: the entries in insertion
    order (the keys are strings that are never array indices) *)
Section OrderedMap.

Context {V : Type}.

Definition omap : Type := list (string * V).

(** [m.has(key)], [!!table[key]] *)
Definition om_has (m : omap) (key : string) : bool :=
  existsb (fun kv => String.eqb (fst kv) key) m.

(** [m.get(key)], [table[key]] *)
Definition om_get (m : omap) (key : string) : option V :=
  option_map snd (find (fun kv => String.eqb (fst kv) key) m).

(** an assignment to the fields of the value stored at [key] *)
Fixpoint om_modify (m : omap) (key : string) (f : V -> V) : omap :=
  match m with
  | [] => []
  | (k, v) :: rest =>
      if String.eqb k key then (k, f v) :: rest
      else (k, v) :: om_modify rest key f
  end.

(** [m.set(key, v)], [table[key] = v]: a new key goes last, a known key
    keeps its place *)
Definition om_set (m : omap) (key : string) (v : V) : omap :=
  if om_has m key then om_modify m key (fun _ => v) else push m (key, v).

End OrderedMap.

Arguments omap V : clear implicits.

(** the table of the collaborative generator: a count and a document *)
Definition Table (D : Type) : Type := omap (nat * D).

(** the body of the inner [forEach] (lines 255-260 and 287-292) *)
Definition tally {D : Type} (idOf : D -> ObjectId) (tbl : Table D) (doc : D)
  : Table D :=
  let tbl :=
    if negb (om_has tbl (idOf doc)) then om_set tbl (idOf doc) (0%nat, doc)
    else tbl in
  om_modify tbl (idOf doc) (fun entry => (S (fst entry), snd entry)).

(** [.populate(path)]: every id of the array replaced by its document,
    the ids without a document dropped *)
Definition populate {D : Type} (idOf : D -> ObjectId) (coll : list D)
  (ids : list ObjectId) : list D :=
  flat_map (fun id =>
              match find (fun d => String.eqb (idOf d) id) coll with
              | Some d => [d]
              | None => []
              end) ids.

(** [User.findByInterests(interests)] of [models/User.js] *)
Definition findByInterests (db : DB) (interests : list string)
  : list User.t :=
  filter (fun u =>
            existsb (str_includes interests) (User.interests u)
            && User.is_active u)
         (users db).

(** [User.findByInterests(...).find({ _id: { $ne: user._id } }).limit(20)] *)
Definition similarUsersOf (db : DB) (user : User.t) : list User.t :=
  firstn 20
    (filter (fun u => negb (String.eqb (User._id u) (User._id user)))
            (findByInterests db (User.interests user))).

(** [User.find({ _id: { $in: similarUserIds } })] *)
Definition similarUsersDataOf (db : DB) (similarUsers : list User.t)
  : list User.t :=
  let similarUserIds := map User._id similarUsers in
  filter (fun u => oid_includes similarUserIds (User._id u)) (users db).

(** the table [popularExams] after the two nested [forEach] *)
Definition popularExamsOf (db : DB) (similarUsersData : list User.t)
  : Table Exam.t :=
  fold_left
    (fun tbl similarUser =>
       fold_left (tally Exam._id)
         (populate Exam._id (exams db) (User.saved_exams similarUser)) tbl)
    similarUsersData [].

(** the table [popularOpportunities] after the two nested [forEach] *)
Definition popularOpportunitiesOf (db : DB) (similarUsersData : list User.t)
  : Table Opportunity.t :=
  fold_left
    (fun tbl similarUser =>
       fold_left (tally Opportunity._id)
         (populate Opportunity._id (opportunities db)
            (User.saved_hackathons similarUser)
          ++ populate Opportunity._id (opportunities db)
               (User.saved_internships similarUser)) tbl)
    similarUsersData [].

Definition collaborativeReasons : list Reason :=
  [mkReason "Popular among users like you" (1 # 2)].

Section Service.

(** [userSavedOpps.includes(opportunity._id)] (line 298) is
    [Array.prototype.includes] on a plain array, the spread copy of the
    two saved lists: it compares ObjectId objects with SameValueZero, by
    identity and not by the value of the id.  The generators take the test
    as a parameter; [sameObjectIncludes] below is the test of the code,
    and what is proved for every test holds for it. *)
Variable plainIncludes : list ObjectId -> ObjectId -> bool.

(** the callback of [Object.values(popularExams).forEach] (lines 264-279) *)
Definition collabExamStep (user : User.t) (nSimilar : nat)
  (recommendations : list Rec.t) (entry : ObjectId * (nat * Exam.t))
  : list Rec.t :=
  let '(_, (count, e)) := entry in
  if (2 <=? count)%nat
     && negb (oid_includes (User.saved_exams user) (Exam._id e)) then
    let score := min (div (of_nat count) (of_nat nSimilar)) (Fin 1) in
    push recommendations
      (Rec.mk (User._id user) exam (Exam._id e) "Exam" score
         collaborative_filtering collaborativeReasons)
  else recommendations.

(** the callback of [Object.values(popularOpportunities).forEach]
    (lines 296-312) *)
Definition collabOppStep (user : User.t) (nSimilar : nat)
  (recommendations : list Rec.t)
  (entry : ObjectId * (nat * Opportunity.t)) : list Rec.t :=
  let '(_, (count, o)) := entry in
  let userSavedOpps :=
    User.saved_hackathons user ++ User.saved_internships user in
  if (2 <=? count)%nat
     && negb (plainIncludes userSavedOpps (Opportunity._id o)) then
    let score := min (div (of_nat count) (of_nat nSimilar)) (Fin 1) in
    push recommendations
      (Rec.mk (User._id user) opportunity (Opportunity._id o)
         "Opportunity" score collaborative_filtering collaborativeReasons)
  else recommendations.

(** [generateCollaborativeFilteringRecommendations(user)]
    (lines 233-316) *)
Definition generateCollaborativeFilteringRecommendations (db : DB)
  (user : User.t) : list Rec.t :=
  let recommendations := [] in
  let similarUsers := similarUsersOf db user in
  if (List.length similarUsers =? 0)%nat then recommendations
  else
    let similarUsersData := similarUsersDataOf db similarUsers in
    match User.role user with
    | school =>
        fold_left (collabExamStep user (List.length similarUsers))
          (popularExamsOf db similarUsersData) recommendations
    | university =>
        fold_left (collabOppStep user (List.length similarUsers))
          (popularOpportunitiesOf db similarUsersData) recommendations
    end.

(** *** Hybrid *)

(** [`${rec.entity_type}_${rec.entity_id}`] *)
Definition recKey (rec : Rec.t) : string :=
  (EntityType_str (Rec.entity_type rec) ++ "_" ++ Rec.entity_id rec)%string.

(** the [else] branch of lines 339-346: the assignments to the fields of
    [existing] *)
Definition average (existing rec : Rec.t) : Rec.t :=
  Rec.mk (Rec.user_id existing) (Rec.entity_type existing)
    (Rec.entity_id existing) (Rec.entity_type_ref existing)
    (div (add (Rec.score existing) (Rec.score rec)) (Fin 2))
    hybrid
    (Rec.recommendation_reasons existing
     ++ Rec.recommendation_reasons rec).

(** the callback of [allRecommendations.forEach] (lines 334-348) *)
Definition mergeStep (uniqueRecommendations : omap Rec.t) (rec : Rec.t)
  : omap Rec.t :=
  let key := recKey rec in
  if negb (om_has uniqueRecommendations key) then
    om_set uniqueRecommendations key rec
  else om_modify uniqueRecommendations key
         (fun existing => average existing rec).

(** the comparator [(a, b) => b.score - a.score] *)
Definition byScoreDesc (a b : Rec.t) : jsnum :=
  sub (Rec.score b) (Rec.score a).

(** [Array.prototype.sort] is stable: modelled as the insertion sort that
    moves an element past the ones the comparator puts strictly before
    it *)
Fixpoint sort_insert (cmp : Rec.t -> Rec.t -> jsnum) (x : Rec.t)
  (l : list Rec.t) : list Rec.t :=
  match l with
  | [] => [x]
  | y :: ys =>
      if gt (cmp x y) (Fin 0) then y :: sort_insert cmp x ys
      else x :: y :: ys
  end.

Definition sort (cmp : Rec.t -> Rec.t -> jsnum) (l : list Rec.t)
  : list Rec.t :=
  fold_right (sort_insert cmp) [] l.

(** lines 332-352: the fold into the [Map], the sort and the slice *)
Definition mergeAll (allRecommendations : list Rec.t) : omap Rec.t :=
  fold_left mergeStep allRecommendations [].

Definition hybridMerge (allRecommendations : list Rec.t) : list Rec.t :=
  firstn 50 (sort byScoreDesc (map snd (mergeAll allRecommendations))).

(** [generateHybridRecommendations(user)] (lines 323-353) *)
Definition generateHybridRecommendations (db : DB) (now : Z)
  (user : User.t) : list Rec.t :=
  let ruleBased := RuleBased.generateRuleBasedRecommendations db now user in
  let contentBased :=
    ContentBased.generateContentBasedRecommendations db now user in
  let collaborative :=
    generateCollaborativeFilteringRecommendations db user in
  hybridMerge (ruleBased ++ contentBased ++ collaborative).

(** *** The store *)

(** the ObjectId number [n] of the driver *)
Definition oid_of_nat (n : nat) : ObjectId :=
  ("r" ++ NilEmpty.string_of_uint (Nat.to_uint n))%string.

Definition noInteraction : Interaction :=
  mkInteraction false false false None None None.

(** the schema default of [expires_at], [setDate(getDate() + 30)]: the
    same time of day thirty days later on the local clock, which is
    thirty days of 24 hours later where that clock is not changed in
    between *)
Definition thirtyDays : Z := (30 * 24 * 60 * 60 * 1000)%Z.

(** the document [insertMany] stores for a plain object, with the schema
    defaults and the timestamps *)
Definition docOf (now : Z) (id : ObjectId) (rec : Rec.t)
  : Recommendation.t :=
  Recommendation.mk id (Rec.user_id rec) (Rec.entity_type rec)
    (Rec.entity_id rec) (Rec.entity_type_ref rec) (Rec.score rec)
    (Rec.algorithm_used rec) (Rec.recommendation_reasons rec)
    noInteraction (now + thirtyDays)%Z true now now.

Fixpoint docsOf (now : Z) (n : nat) (recs : list Rec.t)
  : list Recommendation.t :=
  match recs with
  | [] => []
  | rec :: rest => docOf now (oid_of_nat n) rec :: docsOf now (S n) rest
  end.

(** [Recommendation.insertMany(recs)] *)
Definition insertMany (db : DB) (now : Z) (recs : list Rec.t) : DB :=
  mkDB (users db) (exams db) (opportunities db)
    (recommendations db ++ docsOf now (oid_seq db) recs)
    (oid_seq db + List.length recs).

(** [Recommendation.deleteMany({ user_id })] *)
Definition deleteMany (db : DB) (userId : ObjectId) : DB :=
  mkDB (users db) (exams db) (opportunities db)
    (filter (fun d => negb (String.eqb (Recommendation.user_id d) userId))
            (recommendations db))
    (oid_seq db).

(** a call that returns or throws *)
Inductive Outcome (A : Type) : Type :=
| Returns (a : A)
| Throws (message : string).
Arguments Returns {A} a.
Arguments Throws {A} message.

(** [RecommendationService.generateRecommendations(userId, algorithm)]
    (lines 13-44): the recommendations returned and the database after
    the call, for a [userId] that casts to an ObjectId *)
Definition generateRecommendations (db : DB) (now : Z) (userId : ObjectId)
  (algorithm : string) : Outcome (list Rec.t * DB) :=
  match findUserById db userId with
  | None => Throws "User not found"
  | Some user =>
      let chosen :=
        if String.eqb algorithm "rule_based" then
          Some (RuleBased.generateRuleBasedRecommendations db now user)
        else if String.eqb algorithm "content_based" then
          Some (ContentBased.generateContentBasedRecommendations db now user)
        else if String.eqb algorithm "collaborative_filtering" then
          Some (generateCollaborativeFilteringRecommendations db user)
        else if String.eqb algorithm "hybrid" then
          Some (generateHybridRecommendations db now user)
        else None in
      match chosen with
      | None => Throws "Invalid algorithm specified"
      | Some recommendations =>
          let db :=
            if nonempty recommendations then
              insertMany db now recommendations
            else db in
          Returns (recommendations, db)
      end
  end.

End Service.

Arguments Returns {A} a.
Arguments Throws {A} message.

(** the test [userSavedOpps.includes(opportunity._id)] as the code runs
    it: the [_id] of a populated document is an object of its own, none of
    the objects the learner's arrays hold, so the comparison by identity
    finds nothing, also when the learner has saved the opportunity; the
    school branch asks the Mongoose array [user.saved_exams], which
    compares by value ([oid_includes]) *)
Definition sameObjectIncludes (arr : list ObjectId) (x : ObjectId) : bool :=
  false.

(** ** [models/Recommendation.js] and the controller *)

(** the three values the handler accepts for [interactionType] *)
Inductive InteractionType : Type := on_viewed | on_saved | on_applied.

(** [['viewed', 'saved', 'applied'].includes(interactionType)] *)
Definition parseInteractionType (s : string) : option InteractionType :=
  if String.eqb s "viewed" then Some on_viewed
  else if String.eqb s "saved" then Some on_saved
  else if String.eqb s "applied" then Some on_applied
  else None.

(** the [$set] of [updateInteraction] (lines 139-141):
    [user_interaction.<type> = true] and
    [user_interaction.<type>_at = new Date()] *)
Definition setInteraction (kind : InteractionType) (now : Z)
  (i : Interaction) : Interaction :=
  match kind with
  | on_viewed =>
      mkInteraction true (saved i) (applied i)
        (Some now) (saved_at i) (applied_at i)
  | on_saved =>
      mkInteraction (viewed i) true (applied i)
        (viewed_at i) (Some now) (applied_at i)
  | on_applied =>
      mkInteraction (viewed i) (saved i) true
        (viewed_at i) (saved_at i) (Some now)
  end.

Definition withInteraction (d : Recommendation.t) (i : Interaction)
  : Recommendation.t :=
  Recommendation.mk (Recommendation._id d) (Recommendation.user_id d)
    (Recommendation.entity_type d) (Recommendation.entity_id d)
    (Recommendation.entity_type_ref d) (Recommendation.score d)
    (Recommendation.algorithm_used d)
    (Recommendation.recommendation_reasons d) i
    (Recommendation.expires_at d) (Recommendation.is_active d)
    (Recommendation.createdAt d) (Recommendation.updatedAt d).

(** the [updatedAt] that the timestamps option adds to the [$set] of an
    update *)
Definition withUpdatedAt (d : Recommendation.t) (now : Z)
  : Recommendation.t :=
  Recommendation.mk (Recommendation._id d) (Recommendation.user_id d)
    (Recommendation.entity_type d) (Recommendation.entity_id d)
    (Recommendation.entity_type_ref d) (Recommendation.score d)
    (Recommendation.algorithm_used d)
    (Recommendation.recommendation_reasons d)
    (Recommendation.user_interaction d)
    (Recommendation.expires_at d) (Recommendation.is_active d)
    (Recommendation.createdAt d) now.

(** [this.findByIdAndUpdate(id, update, { new: true })]: the first document
    with this [_id] is updated and returned, [None] is [null] *)
Fixpoint findByIdAndUpdate (id : ObjectId)
  (update : Recommendation.t -> Recommendation.t)
  (docs : list Recommendation.t)
  : option Recommendation.t * list Recommendation.t :=
  match docs with
  | [] => (None, [])
  | d :: rest =>
      if String.eqb (Recommendation._id d) id then
        (Some (update d), update d :: rest)
      else
        let '(found, rest') := findByIdAndUpdate id update rest in
        (found, d :: rest')
  end.

(** [Recommendation.updateInteraction(recommendationId, interactionType)]
    (lines 138-148) *)
Definition updateInteraction (db : DB) (now : Z)
  (recommendationId : ObjectId) (interactionType : InteractionType)
  : option Recommendation.t * DB :=
  let '(found, docs) :=
    findByIdAndUpdate recommendationId
      (fun d =>
         withUpdatedAt
           (withInteraction d
              (setInteraction interactionType now
                 (Recommendation.user_interaction d)))
           now)
      (recommendations db) in
  (found,
   mkDB (users db) (exams db) (opportunities db) docs (oid_seq db)).

(** what a handler sends *)
Inductive Payload : Type :=
| NoData
| Document (d : Recommendation.t)
| Generated (recommendations_generated : nat).

Record Response : Type := mkResponse {
  status : nat;
  message : string;
  data : Payload
}.

Module Controller.

(** [updateRecommendationInteraction] (lines 379-393), on
    [req.params.id] and [req.body.interactionType] *)
Definition updateRecommendationInteraction (db : DB) (now : Z)
  (id : ObjectId) (interactionType : string) : Response * DB :=
  match parseInteractionType interactionType with
  | None => (mkResponse 400 "Invalid interaction type" NoData, db)
  | Some kind =>
      let '(recommendation, db') := updateInteraction db now id kind in
      match recommendation with
      | None => (mkResponse 404 "Recommendation not found" NoData, db')
      | Some d =>
          (mkResponse 200
             "Recommendation interaction updated successfully"
             (Document d), db')
      end
  end.

(** the score of an exam in the handler's own loop (lines 417-433) *)
Definition examScore (user : User.t) (e : Exam.t) : jsnum :=
  let score := Fin (1 # 2) in
  let score :=
    match User.stream user with
    | Some s =>
        if String.eqb s "Science"
           && (str_includes (Exam.subjects e) "Physics"
               || str_includes (Exam.subjects e) "Chemistry"
               || str_includes (Exam.subjects e) "Maths")
        then add score (Fin (3 # 10))
        else score
    | None => score
    end in
  if nonempty (User.interests user) then
    add score
      (mul (div (of_nat
                   (List.length (RuleBased.examMatchingInterests user e)))
                (of_nat (List.length (User.interests user))))
           (Fin (1 # 5)))
  else score.

Definition examReasons : list Reason :=
  [mkReason "Matches your academic stream" (3 # 10);
   mkReason "Aligns with your interests" (1 # 5)].

Definition examStep (user : User.t) (newRecommendations : list Rec.t)
  (e : Exam.t) : list Rec.t :=
  let score := examScore user e in
  if gt score (Fin (3 # 5)) then
    push newRecommendations
      (Rec.mk (User._id user) exam (Exam._id e) "Exam"
         (min score (Fin 1)) rule_based examReasons)
  else newRecommendations.

(** the score of an opportunity in the handler's own loop
    (lines 458-478) *)
Definition oppScore (user : User.t) (o : Opportunity.t) : jsnum :=
  let score := Fin (1 # 2) in
  let score :=
    if nonempty (User.interests user) then
      add score
        (mul (div (of_nat
                     (List.length (RuleBased.oppMatchingInterests user o)))
                  (of_nat (List.length (User.interests user))))
             (Fin (3 # 10)))
    else score in
  match Opportunity.type o with
  | internship =>
      let score :=
        if match User.degree user with
           | Some d => str_includes (Opportunity.degree_required o) d
           | None => false
           end
           || str_includes (Opportunity.degree_required o) "Any"
        then add score (Fin (1 # 5)) else score in
      if match User.year user with
         | Some y => Z_includes (Opportunity.year_of_study o) y
         | None => false
         end
         || Z_includes (Opportunity.year_of_study o) 0%Z
      then add score (Fin (1 # 5)) else score
  | hackathon => score
  end.

Definition oppReasons : list Reason :=
  [mkReason "Matches your interests" (3 # 10);
   mkReason "Suitable for your degree and year" (1 # 5)].

Definition oppStep (user : User.t) (newRecommendations : list Rec.t)
  (o : Opportunity.t) : list Rec.t :=
  let score := oppScore user o in
  if gt score (Fin (3 # 5)) then
    push newRecommendations
      (Rec.mk (User._id user) opportunity (Opportunity._id o)
         "Opportunity" (min score (Fin 1)) rule_based oppReasons)
  else newRecommendations.

(** the batch the handler builds for [user] (lines 407-495) *)
Definition newRecommendationsOf (db : DB) (now : Z) (user : User.t)
  : list Rec.t :=
  match User.role user with
  | school =>
      fold_left (examStep user)
        (firstn 20 (filter (upcomingExam now) (exams db))) []
  | university =>
      fold_left (oppStep user)
        (firstn 30 (filter (openOpportunity now) (opportunities db))) []
  end.

(** [generateRecommendations] (lines 398-510), on [req.params.userId] *)
Definition generateRecommendations (db : DB) (now : Z)
  (userId : ObjectId) : Response * DB :=
  match findUserById db userId with
  | None => (mkResponse 404 "User not found" NoData, db)
  | Some user =>
      let db := deleteMany db userId in
      let newRecommendations := newRecommendationsOf db now user in
      let db :=
        if nonempty newRecommendations then
          insertMany db now newRecommendations
        else db in
      (mkResponse 200 "Recommendations generated successfully"
         (Generated (List.length newRecommendations)), db)
  end.

End Controller.

(** ** Properties of the stored recommendations *)

(** the triple a live recommendation is about *)
Definition triple (d : Recommendation.t)
  : ObjectId * EntityType * ObjectId :=
  (Recommendation.user_id d, Recommendation.entity_type d,
   Recommendation.entity_id d).

Definition triple_eqb (a b : ObjectId * EntityType * ObjectId) : bool :=
  let '(u1, t1, e1) := a in
  let '(u2, t2, e2) := b in
  String.eqb u1 u2 && EntityType_eqb t1 t2 && String.eqb e1 e2.

(** the documents with [is_active = true] *)
Definition activeDocs (db : DB) : list Recommendation.t :=
  filter Recommendation.is_active (recommendations db).

(** how many active documents carry the triple [k] *)
Definition activeCount (db : DB) (k : ObjectId * EntityType * ObjectId)
  : nat :=
  List.length (filter (fun d => triple_eqb (triple d) k) (activeDocs db)).

(** no two active documents of [userId] share a triple *)
Definition uniqueActive (db : DB) (userId : ObjectId) : Prop :=
  NoDup (map triple
           (filter (fun d => String.eqb (Recommendation.user_id d) userId)
                   (activeDocs db))).

(** [Recommendation.findById(id)] *)
Definition findRecommendation (db : DB) (id : ObjectId)
  : option Recommendation.t :=
  find (fun d => String.eqb (Recommendation._id d) id) (recommendations db).

(** the flag and the timestamp of one kind of interaction *)
Definition flagOf (kind : InteractionType) (d : Recommendation.t) : bool :=
  match kind with
  | on_viewed => viewed (Recommendation.user_interaction d)
  | on_saved => saved (Recommendation.user_interaction d)
  | on_applied => applied (Recommendation.user_interaction d)
  end.

Definition stampOf (kind : InteractionType) (d : Recommendation.t)
  : option Z :=
  match kind with
  | on_viewed => viewed_at (Recommendation.user_interaction d)
  | on_saved => saved_at (Recommendation.user_interaction d)
  | on_applied => applied_at (Recommendation.user_interaction d)
  end.

(** the document [updateInteraction] writes back for [d] *)
Definition touched (kind : InteractionType) (now : Z) (d : Recommendation.t)
  : Recommendation.t :=
  withUpdatedAt
    (withInteraction d
       (setInteraction kind now (Recommendation.user_interaction d)))
    now.

(** ** Sample data *)

Module Sample.

Local Open Scope string_scope.

Definition rec0 (active : bool) : Recommendation.t :=
  Recommendation.mk "r0" "u1" exam "e1" "Exam" (Fin (4 # 5)) rule_based []
    noInteraction 5000%Z active 0%Z 0%Z.

Definition store (active : bool) : DB :=
  mkDB [] [] [] [rec0 active] 1.

Definition physicsExam : Exam.t :=
  Exam.mk "e1" "Joint Entrance" "government" ["Physics"; "Chemistry"]
    [9000%Z] true None.

(** a school student with no stream bonus, one interest in two matching *)
Definition halfUser : User.t :=
  User.mk "u2" school None None (Some "Commerce") ["Physics"; "History"]
    [] [] [] true.

(** the same student with the one matching interest only *)
Definition keenUser : User.t :=
  User.mk "u3" school None None (Some "Commerce") ["Physics"]
    [] [] [] true.

(** a Science student with no interests and nothing saved *)
Definition scienceUser : User.t :=
  User.mk "u1" school None None (Some "Science") [] [] [] [] true.

(** a university student with no interests and nothing saved *)
Definition plainUser : User.t :=
  User.mk "u4" university (Some "BTech") (Some 2%Z) None [] [] [] [] true.

Definition popularHackathon : Opportunity.t :=
  Opportunity.mk "o1" "Code Sprint" hackathon (Some "ACM") None
    (Some ["Web"]) [] [] ["Go"] 9000%Z true 51%Z.

(** a saved internship, and the preferences it yields *)
Definition savedInternship : Opportunity.t :=
  Opportunity.mk "o0" "Backend Intern" internship None (Some "Initech")
    (Some ["Web"]) ["Any"] [0%Z] ["Go"; "Rust"] 9000%Z true 3%Z.

Definition goPrefs : Preferences.t :=
  Preferences.mk [] ["Go"; "Rust"] ["Web"] [] ["Initech"] [].

(** two skills in three and the domain match, neither the company nor
    the organizer does *)
Definition sprint : Opportunity.t :=
  Opportunity.mk "o2" "Systems Sprint" hackathon (Some "ACM")
    (Some "Acme") (Some ["Web"]) [] [] ["Go"; "Rust"; "C"] 9000%Z true 7%Z.

(** all the skills match, the domain list is empty *)
Definition noDomain : Opportunity.t :=
  Opportunity.mk "o3" "Go Internship" internship None (Some "Initech")
    (Some []) ["Any"] [0%Z] ["Go"] 9000%Z true 7%Z.

Definition dev : User.t :=
  User.mk "u5" university (Some "BTech") (Some 3%Z) None ["Go"]
    [] [] ["o0"] true.

Definition market : DB :=
  mkDB [dev] [] [savedInternship; sprint; noDomain] [] 0.

(** the same examination from two generators *)
Definition e1Rule : Rec.t :=
  Rec.mk "u1" exam "E1" "Exam" (Fin (4 # 5)) rule_based
    [mkReason "Matches your Science stream" (3 # 10)].

Definition e1Collab : Rec.t :=
  Rec.mk "u1" exam "E1" "Exam" (Fin (3 # 5)) collaborative_filtering
    collaborativeReasons.

(** a learner and her one neighbour, who has saved the same opportunity
    as a hackathon and as an internship *)
Definition ada : User.t :=
  User.mk "u6" university (Some "BSc") (Some 1%Z) None ["AI"]
    [] [] [] true.

Definition bob : User.t :=
  User.mk "u7" university (Some "BSc") (Some 2%Z) None ["AI"; "Chess"]
    [] ["o1"] ["o1"] true.

Definition campus : DB :=
  mkDB [ada; bob] [] [popularHackathon] [] 0.

(** the scenario of a Science student interested in Physics and a popular
    exam in Physics and Chemistry *)
Definition physicist : User.t :=
  User.mk "u8" school None None (Some "Science") ["Physics"] [] [] [] true.

Definition popularExam : Exam.t :=
  Exam.mk "e2" "Physics Olympiad" "government" ["Physics"; "Chemistry"]
    [9000%Z] true (Some 150%Z).

Definition catalog : DB :=
  mkDB [scienceUser; halfUser; keenUser; plainUser] [physicsExam]
    [popularHackathon] [] 0.

End Sample.

(** ** Vocabulary of the statements *)

(** the database a call leaves, [db] itself when the call throws before
    writing *)
Definition storeAfter {A : Type} (o : Outcome (A * DB)) (db : DB) : DB :=
  match o with
  | Returns (_, db') => db'
  | Throws _ => db
  end.

Definition returned {A : Type} (o : Outcome A) : bool :=
  match o with
  | Returns _ => true
  | Throws _ => false
  end.

(** the bonuses that do not depend on the interests *)
Definition examFixedBonuses (user : User.t) (e : Exam.t) : Q :=
  (if RuleBased.scienceMatch user e then 3 # 10 else 0)
  + (if opt_gt (Exam.application_count e) 100 then 1 # 10 else 0).

Definition oppFixedBonuses (user : User.t) (o : Opportunity.t) : Q :=
  match Opportunity.type o with
  | internship =>
      (if RuleBased.degreeMatch user o then 1 # 5 else 0)
      + (if RuleBased.yearMatch user o then 1 # 5 else 0)
  | hackathon => 0
  end
  + (if (50 <? Opportunity.application_count o)%Z then 1 # 10 else 0).

(** the invariant of [score] and [totalWeight] in
    [calculateContentSimilarity]: the weight is a rational [t >= 0], the
    score is NaN or a rational between 0 and [t] *)
Definition accInv (st : jsnum * jsnum) : Prop :=
  exists t, snd st = Fin t /\ 0 <= t
            /\ (fst st = NaN
                \/ exists s, fst st = Fin s /\ 0 <= s /\ s <= t).

Definition emptyFacet (facet : option (list string)) : bool :=
  match facet with
  | Some [] => true
  | _ => false
  end.

(** the item carries an empty [subjects], [skills_required] or [domain] *)
Definition hasEmptyFacet (item : Item.t) : bool :=
  emptyFacet (Item.subjects item)
  || emptyFacet (Item.skills_required item)
  || emptyFacet (Item.domain item).

(** the score is lost and the weight is positive *)
Definition nanInv (st : jsnum * jsnum) : Prop :=
  fst st = NaN /\ exists t, snd st = Fin t /\ 0 < t.

(** the share of the elements of [facet] that are in [prefs] *)
Definition overlapRatio (facet prefs : list string) : Q :=
  inject_Z (Z.of_nat
              (List.length (filter (fun x => str_includes prefs x) facet)))
  / inject_Z (Z.of_nat (List.length facet)).

(** the weighted ratio and the weight of an array facet; nothing for a
    facet the item lacks *)
Definition listPart (facet : option (list string)) (prefs : list string)
  (w : Q) : Q * Q :=
  match facet with
  | Some xs => (overlapRatio xs prefs * w, w)
  | None => (0, 0)
  end.

(** a company or organizer as the claim words it: a facet of one element,
    whose weight counts as soon as the item has it *)
Definition namePartClaimed (name : option string) (prefs : list string)
  : Q * Q :=
  match truthy_str name with
  | Some c => ((if str_includes prefs c then 1 else 0) * (1 # 10), 1 # 10)
  | None => (0, 0)
  end.

(** a company or organizer as the code treats it: it counts, in the sum and
    in the weights, only when it is one of the preferred names *)
Definition namePartMatched (name : option string) (prefs : list string)
  : Q * Q :=
  match truthy_str name with
  | Some c => if str_includes prefs c then (1 # 10, 1 # 10) else (0, 0)
  | None => (0, 0)
  end.

Definition sumQ (l : list Q) : Q := fold_right Qplus 0 l.

(** weighted sum over the sum of the weights used, 0 when no weight is *)
Definition weightedAverage (parts : list (Q * Q)) : Q :=
  let num := sumQ (map fst parts) in
  let den := sumQ (map snd parts) in
  if Qle_bool den 0 then 0 else num / den.

Definition listParts (item : Item.t) (preferences : Preferences.t)
  : list (Q * Q) :=
  [listPart (Item.subjects item) (Preferences.subjects preferences) (2 # 5);
   listPart (Item.skills_required item) (Preferences.skills preferences)
     (3 # 10);
   listPart (Item.domain item) (Preferences.domains preferences) (1 # 5)].

(** the similarity of the claim *)
Definition claimedSimilarity (item : Item.t) (preferences : Preferences.t)
  : Q :=
  weightedAverage
    (listParts item preferences
     ++ [namePartClaimed (Item.company item)
           (Preferences.companies preferences);
         namePartClaimed (Item.organizer item)
           (Preferences.organizers preferences)]).

(** the similarity with the names counted when they match *)
Definition matchedSimilarity (item : Item.t) (preferences : Preferences.t)
  : Q :=
  weightedAverage
    (listParts item preferences
     ++ [namePartMatched (Item.company item)
           (Preferences.companies preferences);
         namePartMatched (Item.organizer item)
           (Preferences.organizers preferences)]).

(** [score] and [totalWeight] are the rationals [s] and [t] *)
Definition accIs (st : jsnum * jsnum) (s t : Q) : Prop :=
  exists s' t', st = (Fin s', Fin t') /\ s' == s /\ t' == t.

Definition nameMatches (name : option string) (prefs : list string) : bool :=
  match truthy_str name with
  | Some c => str_includes prefs c
  | None => false
  end.

(** the item has no empty facet and its weighted average exceeds 0.7 *)
Definition aboveThreshold (item : Item.t) (preferences : Preferences.t)
  : bool :=
  negb (hasEmptyFacet item)
  && negb (Qle_bool (matchedSimilarity item preferences) (7 # 10)).

(** the weighted averages are stated in exact arithmetic, the code
    computes them in doubles: a margin, with room to spare, for what the
    rounding of the few operations of a similarity can change *)
Definition roundingMargin : Q := 1 # 1000000000.

(** the records of [l] with the key [key], in order *)
Definition occurrences (key : string) (l : list Rec.t) : list Rec.t :=
  filter (fun r => String.eqb (recKey r) key) l.

(** the first occurrence, averaged with each later one in turn *)
Definition merged (occ : list Rec.t) : option Rec.t :=
  match occ with
  | [] => None
  | first :: rest => Some (fold_left average rest first)
  end.

(** the keys of [l] without repetition, each at its first occurrence *)
Fixpoint firstSeen (l : list string) : list string :=
  match l with
  | [] => []
  | k :: rest => k :: filter (fun k' => negb (String.eqb k' k)) (firstSeen rest)
  end.

(** the score of a record as a rational *)
Definition scoreQ (r : Rec.t) : Q :=
  match Rec.score r with
  | Fin q => q
  | _ => 0
  end.

Definition finiteScore (r : Rec.t) : Prop := is_finite (Rec.score r).

(** the keys that are not in [seen] *)
Definition unseen (seen : list string) (k : string) : bool :=
  negb (existsb (fun k' => String.eqb k' k) seen).

(** [a] may stand before [b] in a descending order *)
Definition scoreGe (a b : Rec.t) : Prop := scoreQ b <= scoreQ a.

(** the records whose score is [q] *)
Definition hasScore (q : Q) (r : Rec.t) : bool := Qeq_bool (scoreQ r) q.

(** how many times [id] occurs in [ids] *)
Definition occ (id : ObjectId) (ids : list ObjectId) : nat :=
  List.length (filter (String.eqb id) ids).

(** the saved exams of a neighbour, as the populated documents *)
Definition neighborExams (db : DB) (u : User.t) : list Exam.t :=
  populate Exam._id (exams db) (User.saved_exams u).

(** the saved hackathons, then the saved internships of a neighbour *)
Definition neighborOpps (db : DB) (u : User.t) : list Opportunity.t :=
  populate Opportunity._id (opportunities db) (User.saved_hackathons u)
  ++ populate Opportunity._id (opportunities db) (User.saved_internships u).

(** the ids the two nested loops visit, in order *)
Definition visitedExamIds (db : DB) (neighbors : list User.t)
  : list ObjectId :=
  map Exam._id (flat_map (neighborExams db) neighbors).

Definition visitedOppIds (db : DB) (neighbors : list User.t)
  : list ObjectId :=
  map Opportunity._id (flat_map (neighborOpps db) neighbors).

(** the record pushed for an offering counted [count] times among
    [nSimilar] neighbours *)
Definition collabRec (user : User.t) (type : EntityType) (ref : string)
  (nSimilar : nat) (ids : list ObjectId) (id : ObjectId) : Rec.t :=
  Rec.mk (User._id user) type id ref
    (min (div (of_nat (occ id ids)) (of_nat nSimilar)) (Fin 1))
    collaborative_filtering collaborativeReasons.

(** the learner and [u] declare a common interest *)
Definition sharesInterest (user u : User.t) : Prop :=
  exists i, In i (User.interests user) /\ In i (User.interests u).

(** the collection has a document with this id *)
Definition hasDoc {D : Type} (idOf : D -> ObjectId) (coll : list D)
  (id : ObjectId) : bool :=
  existsb (fun d => String.eqb (idOf d) id) coll.

(** the neighbours that have saved the exam [id] of the catalogue *)
Definition examSavers (db : DB) (id : ObjectId) (neighbors : list User.t)
  : list User.t :=
  filter (fun u =>
            oid_includes (User.saved_exams u) id
            && hasDoc Exam._id (exams db) id)
         neighbors.

(** the neighbours that have saved the opportunity [id] of the catalogue *)
Definition oppSavers (db : DB) (id : ObjectId) (neighbors : list User.t)
  : list User.t :=
  filter (fun u =>
            oid_includes (User.saved_hackathons u
                          ++ User.saved_internships u) id
            && hasDoc Opportunity._id (opportunities db) id)
         neighbors.

(** the neighbours that have [id] in one of their saved lists *)
Definition saversOf (id : ObjectId) (neighbors : list User.t) : list User.t :=
  filter (fun u =>
            oid_includes (User.saved_exams u ++ User.saved_hackathons u
                          ++ User.saved_internships u) id)
         neighbors.

(** the score is a rational between 0 and 1 *)
Definition scoreInRange (r : Rec.t) : Prop := between 0 1 (Rec.score r).

(** the triple of a record before it is stored *)
Definition recTriple (r : Rec.t) : ObjectId * EntityType * ObjectId :=
  (Rec.user_id r, Rec.entity_type r, Rec.entity_id r).

From Stdlib Require Import DecimalNat.

(** ** The rest of [models/Recommendation.js] *)

(** [Math.floor(a)] *)
Definition js_floor (a : jsnum) : jsnum :=
  match a with
  | Fin q => Fin (inject_Z (Qfloor q))
  | other => other
  end.

(** [a <= b]: false as soon as one side is NaN *)
Definition js_le (a b : jsnum) : bool :=
  match a, b with
  | NaN, _ | _, NaN => false
  | Fin x, Fin y => Qle_bool x y
  | NInf, _ => true
  | _, PInf => true
  | _, _ => false
  end.

Definition msPerDay : Z := (1000 * 60 * 60 * 24)%Z.

(** the virtual [age_days] (lines 91-95); [created_at] is [None] when the
    document has no such path, and [now - undefined] is NaN *)
Definition age_days (now : Z) (created_at : option Z) : jsnum :=
  let diffTime :=
    match created_at with
    | Some c => sub (of_Z now) (of_Z c)
    | None => NaN
    end in
  js_floor (div diffTime (of_Z msPerDay)).

(** the virtual [freshness] (lines 98-104) *)
Definition freshness (now : Z) (created_at : option Z) : string :=
  let age := age_days now created_at in
  if js_le age (Fin 1) then "fresh"
  else if js_le age (Fin 7) then "recent"
  else if js_le age (Fin 30) then "stale"
  else "expired".

(** what [populate('entity_id')] puts in the place of the id *)
Inductive Entity : Type :=
| AnExam (e : Exam.t)
| AnOpportunity (o : Opportunity.t).

(** [.populate('entity_id')] through [refPath: 'entity_type_ref'] (the
    schema admits the two model names only); [None] is [null] *)
Definition populateEntity (db : DB) (d : Recommendation.t) : option Entity :=
  if String.eqb (Recommendation.entity_type_ref d) "Exam" then
    option_map AnExam
      (find (fun e => String.eqb (Exam._id e) (Recommendation.entity_id d))
            (exams db))
  else if String.eqb (Recommendation.entity_type_ref d) "Opportunity" then
    option_map AnOpportunity
      (find (fun o =>
               String.eqb (Opportunity._id o) (Recommendation.entity_id d))
            (opportunities db))
  else None.

(** [.limit(n)]: 0 is no limit *)
Definition applyLimit {A : Type} (limit : nat) (l : list A) : list A :=
  if (limit =? 0)%nat then l else firstn limit l.

(** the conditions common to the two queries: the learner's record, active
    and not expired *)
Definition servable (now : Z) (userId : ObjectId) (d : Recommendation.t)
  : bool :=
  String.eqb (Recommendation.user_id d) userId
  && Recommendation.is_active d
  && (now <? Recommendation.expires_at d)%Z.

(** the query of [findForUser] (lines 108-116); [entityType] is the query
    parameter, used when it is truthy *)
Definition forUserQuery (now : Z) (userId : ObjectId)
  (entityType : option string) (d : Recommendation.t) : bool :=
  servable now userId d
  && match truthy_str entityType with
     | Some t => String.eqb (EntityType_str (Recommendation.entity_type d)) t
     | None => true
     end.

(** the query of [findTopRecommendations] (lines 126-131) *)
Definition topQuery (now : Z) (userId : ObjectId) (d : Recommendation.t)
  : bool :=
  servable now userId d
  && negb (viewed (Recommendation.user_interaction d)).

(** the order of the server on the values of a number field, NaN below
    every number *)
Definition rankLeb (a b : jsnum) : bool :=
  match a, b with
  | NaN, _ => true
  | _, NaN => false
  | NInf, _ => true
  | _, NInf => false
  | Fin x, Fin y => Qle_bool x y
  | _, PInf => true
  | PInf, Fin _ => false
  end.

(** [a] may come before [b] under [.sort({ score: -1 })] *)
Definition servedBefore (a b : Recommendation.t) : Prop :=
  rankLeb (Recommendation.score b) (Recommendation.score a) = true.

Section Queries.

(** [.sort({ score: -1, created_at: -1 })] and [.sort({ score: -1 })] are
    the server's: the result is the matched documents by descending score;
    the order among documents of equal score is the server's choice (the
    schema declares no [created_at] path).  The sort is a parameter, what
    is known of it is stated where it is used. *)
Variable sortByScore : list Recommendation.t -> list Recommendation.t.

(** [Recommendation.findForUser(userId, entityType, limit)]
    (lines 107-122) *)
Definition findForUser (db : DB) (now : Z) (userId : ObjectId)
  (entityType : option string) (limit : nat)
  : list (Recommendation.t * option Entity) :=
  map (fun d => (d, populateEntity db d))
    (applyLimit limit
       (sortByScore
          (filter (forUserQuery now userId entityType)
                  (recommendations db)))).

(** [Recommendation.findTopRecommendations(userId, limit)]
    (lines 125-135) *)
Definition findTopRecommendations (db : DB) (now : Z) (userId : ObjectId)
  (limit : nat) : list (Recommendation.t * option Entity) :=
  map (fun d => (d, populateEntity db d))
    (applyLimit limit
       (sortByScore (filter (topQuery now userId) (recommendations db)))).

End Queries.

(** a descending insertion sort, one of the orders the server may return *)
Fixpoint insertByScore (d : Recommendation.t) (l : list Recommendation.t)
  : list Recommendation.t :=
  match l with
  | [] => [d]
  | x :: rest =>
      if rankLeb (Recommendation.score d) (Recommendation.score x)
      then x :: insertByScore d rest
      else d :: l
  end.

Definition sortByScoreDesc (l : list Recommendation.t)
  : list Recommendation.t :=
  fold_right insertByScore [] l.

(** *** The aggregations *)

(** the accumulators of one [$group] *)
Record Stats : Type := mkStats {
  total : nat;
  score_sum : jsnum;
  viewed_count : nat;
  saved_count : nat;
  applied_count : nat
}.

(** [{ $avg: '$score' }] *)
Definition avg_score (s : Stats) : jsnum :=
  div (score_sum s) (of_nat (total s)).

Definition noStats : Stats := mkStats 0 (Fin 0) 0 0 0.

(** [{ $sum: { $cond: [flag, 1, 0] } }] *)
Definition cond1 (flag : bool) : nat := if flag then 1%nat else 0%nat.

(** one document added to its group *)
Definition accumulate (d : Recommendation.t) (s : Stats) : Stats :=
  mkStats (S (total s))
    (add (score_sum s) (Recommendation.score d))
    (viewed_count s + cond1 (viewed (Recommendation.user_interaction d)))
    (saved_count s + cond1 (saved (Recommendation.user_interaction d)))
    (applied_count s + cond1 (applied (Recommendation.user_interaction d))).

(** the [$group] stage over the documents in turn, the groups keyed by
    [_id] *)
Definition groupStep (keyOf : Recommendation.t -> string)
  (groups : omap Stats) (d : Recommendation.t) : omap Stats :=
  let groups :=
    if negb (om_has groups (keyOf d)) then om_set groups (keyOf d) noStats
    else groups in
  om_modify groups (keyOf d) (accumulate d).

Definition groupBy (keyOf : Recommendation.t -> string)
  (docs : list Recommendation.t) : omap Stats :=
  fold_left (groupStep keyOf) docs [].

(** the value stored in the [algorithm_used] field *)
Definition Algorithm_str (a : Algorithm) : string :=
  match a with
  | rule_based => "rule_based"
  | content_based => "content_based"
  | collaborative_filtering => "collaborative_filtering"
  | hybrid => "hybrid"
  end.

(** [Recommendation.getAnalytics(userId)] (lines 151-165).  The pipeline
    is built from [mongoose.Types.ObjectId(userId)], a call without [new]:
    [objectIdCall] is what that call does in the library loaded.  Where
    ObjectId is a class the call throws for every argument
    ([classObjectId]); where it is a function it returns the id that a
    string of 24 hexadecimal digits denotes.  Nothing is read from the
    store when it throws. *)
Definition getAnalytics (objectIdCall : string -> Outcome ObjectId)
  (db : DB) (userId : string) : Outcome (omap Stats) :=
  match objectIdCall userId with
  | Throws message => Throws message
  | Returns oid =>
      Returns
        (groupBy (fun d => EntityType_str (Recommendation.entity_type d))
           (filter (fun d => String.eqb (Recommendation.user_id d) oid)
                   (recommendations db)))
  end.

(** the call [ObjectId(id)] where ObjectId is a class *)
Definition classObjectId (id : string) : Outcome ObjectId :=
  Throws "Class constructor ObjectId cannot be invoked without 'new'".

(** what [getRecommendationMetrics] returns *)
Record Metrics : Type := mkMetrics {
  total_recommendations : nat;
  active_recommendations : nat;
  by_algorithm : omap Stats
}.

(** [getRecommendationMetrics()] of the service (lines 501-526) and of the
    controller (lines 607-632) *)
Definition getRecommendationMetrics (db : DB) (now : Z) : Metrics :=
  mkMetrics
    (List.length (recommendations db))
    (List.length
       (filter (fun d =>
                  Recommendation.is_active d
                  && (now <? Recommendation.expires_at d)%Z)
               (recommendations db)))
    (groupBy (fun d => Algorithm_str (Recommendation.algorithm_used d))
       (recommendations db)).

(** ** [controllers/userController.js]: the saved lists *)

Module UserController.

(** [user.save()]: the stored document of this [_id] replaced, in the
    fields modelled here; the schema keeps an [updatedAt] as well, which
    a save that changes the document sets to the time of the call *)
Fixpoint replaceUser (user : User.t) (l : list User.t) : list User.t :=
  match l with
  | [] => []
  | u :: rest =>
      if String.eqb (User._id u) (User._id user) then user :: rest
      else u :: replaceUser user rest
  end.

Definition saveUser (db : DB) (user : User.t) : DB :=
  mkDB (replaceUser user (users db)) (exams db) (opportunities db)
    (recommendations db) (oid_seq db).

Definition withSavedExams (u : User.t) (l : list ObjectId) : User.t :=
  User.mk (User._id u) (User.role u) (User.degree u) (User.year u)
    (User.stream u) (User.interests u) l (User.saved_hackathons u)
    (User.saved_internships u) (User.is_active u).

Definition withSavedHackathons (u : User.t) (l : list ObjectId) : User.t :=
  User.mk (User._id u) (User.role u) (User.degree u) (User.year u)
    (User.stream u) (User.interests u) (User.saved_exams u) l
    (User.saved_internships u) (User.is_active u).

Definition withSavedInternships (u : User.t) (l : list ObjectId) : User.t :=
  User.mk (User._id u) (User.role u) (User.degree u) (User.year u)
    (User.stream u) (User.interests u) (User.saved_exams u)
    (User.saved_hackathons u) l (User.is_active u).

(** [unsaveExam] (lines 152-164), on [req.params.id] and
    [req.params.examId] *)
Definition unsaveExam (db : DB) (id examId : ObjectId) : Response * DB :=
  match findUserById db id with
  | None => (mkResponse 404 "User not found" NoData, db)
  | Some user =>
      let user :=
        withSavedExams user
          (filter (fun e => negb (String.eqb e examId))
                  (User.saved_exams user)) in
      (mkResponse 200 "Exam removed from saved list" NoData,
       saveUser db user)
  end.

(** [saveHackathon] (lines 169-189), on [req.params.id] and
    [req.body.hackathonId]; the route checks the first only, and the
    [push] of a body id that does not cast to an ObjectId throws: the
    branch that saves is that of a body id that casts *)
Definition saveHackathon (db : DB) (id hackathonId : ObjectId)
  : Response * DB :=
  match findUserById db id with
  | None => (mkResponse 404 "User not found" NoData, db)
  | Some user =>
      if negb (Role_eqb (User.role user) university) then
        (mkResponse 400 "Only university students can save hackathons"
           NoData, db)
      else if oid_includes (User.saved_hackathons user) hackathonId then
        (mkResponse 400 "Hackathon already saved" NoData, db)
      else
        let user :=
          withSavedHackathons user
            (push (User.saved_hackathons user) hackathonId) in
        (mkResponse 200 "Hackathon saved successfully" NoData,
         saveUser db user)
  end.

(** [saveInternship] (lines 194-214), on [req.params.id] and
    [req.body.internshipId], as for [saveHackathon] *)
Definition saveInternship (db : DB) (id internshipId : ObjectId)
  : Response * DB :=
  match findUserById db id with
  | None => (mkResponse 404 "User not found" NoData, db)
  | Some user =>
      if negb (Role_eqb (User.role user) university) then
        (mkResponse 400 "Only university students can save internships"
           NoData, db)
      else if oid_includes (User.saved_internships user) internshipId then
        (mkResponse 400 "Internship already saved" NoData, db)
      else
        let user :=
          withSavedInternships user
            (push (User.saved_internships user) internshipId) in
        (mkResponse 200 "Internship saved successfully" NoData,
         saveUser db user)
  end.

End UserController.

(** ** More sample data *)

Module Sample2.

Local Open Scope string_scope.

(** the examination of [Sample.e1Rule], from the content-based generator *)
Definition e1Content : Rec.t :=
  Rec.mk "u1" exam "E1" "Exam" (Fin 1) content_based
    ContentBased.examReasons.

(** a pupil who has saved one board examination, and a second one on the
    same subjects *)
Definition savedBoard : Exam.t :=
  Exam.mk "e3" "Board Physics" "board" ["Physics"; "Maths"]
    [9000%Z] true None.

Definition nextBoard : Exam.t :=
  Exam.mk "e4" "Board Physics II" "board" ["Physics"; "Maths"]
    [9000%Z] true None.

Definition pupil : User.t :=
  User.mk "u9" school None None (Some "Science") [] ["e3"] [] [] true.

Definition classroom : DB :=
  mkDB [pupil] [savedBoard; nextBoard] [] [] 0.

(** what the content-based generator returns for the pupil *)
Definition nextBoardRec : Rec.t :=
  Rec.mk "u9" exam "e4" "Exam" (Fin 1) content_based
    ContentBased.examReasons.

End Sample2.

(** ** More vocabulary *)

(** the model name the pre-save middleware of the schema sets for an
    entity type (lines 168-175) *)
Definition entityRefOf (t : EntityType) : string :=
  match t with
  | exam => "Exam"
  | opportunity => "Opportunity"
  end.

(** what the generators offer to a role *)
Definition offeredTo (role : Role) : EntityType :=
  match role with
  | school => exam
  | university => opportunity
  end.

(** the record is addressed to [user], is of the kind offered to the
    user's role, and names the model of its kind *)
Definition madeFor (user : User.t) (r : Rec.t) : Prop :=
  Rec.user_id r = User._id user
  /\ Rec.entity_type r = offeredTo (User.role user)
  /\ Rec.entity_type_ref r = entityRefOf (Rec.entity_type r).

(** the saved list of the kind offered to the user's role *)
Definition savedOfferings (user : User.t) : list ObjectId :=
  match User.role user with
  | school => User.saved_exams user
  | university => User.saved_hackathons user ++ User.saved_internships user
  end.

(** the catalogue holds an offering with this id, of the kind offered to
    the role, that is active and still open at [now] *)
Definition openInCatalogue (db : DB) (now : Z) (role : Role)
  (id : ObjectId) : Prop :=
  match role with
  | school =>
      exists e, In e (exams db) /\ Exam._id e = id
                /\ upcomingExam now e = true
  | university =>
      exists o, In o (opportunities db) /\ Opportunity._id o = id
                /\ openOpportunity now o = true
  end.

(** the sum of the weights of a list of reasons *)
Definition sumWeights (reasons : list Reason) : Q :=
  sumQ (map weight reasons).

(** [score] is a rational that the base and the weights of [reasons]
    account for, [reasons] has at most [n] entries and is empty only at the
    base score *)
Definition reasoned (n : nat) (st : jsnum * list Reason) : Prop :=
  exists q, fst st = Fin q
            /\ q <= (1 # 2) + sumWeights (snd st)
            /\ (snd st = [] -> q == 1 # 2)
            /\ (List.length (snd st) <= n)%nat.

(** the documents [Exam.find({ _id: { $in: user.saved_exams } })] and
    [Opportunity.find({ _id: { $in: savedOpps } })] return *)
Definition savedExamDocs (db : DB) (user : User.t) : list Exam.t :=
  filter (fun e => oid_includes (User.saved_exams user) (Exam._id e))
         (exams db).

Definition savedOppDocs (db : DB) (user : User.t) : list Opportunity.t :=
  filter (fun o =>
            oid_includes
              (User.saved_hackathons user ++ User.saved_internships user)
              (Opportunity._id o))
         (opportunities db).

(** the values of an optional array field, of an optional name *)
Definition valuesOf (field : option (list string)) : list string :=
  match field with
  | Some l => l
  | None => []
  end.

Definition nameOf (field : option string) : list string :=
  match truthy_str field with
  | Some s => [s]
  | None => []
  end.

(** the four values of [algorithm] the service accepts *)
Definition knownAlgorithms : list string :=
  ["rule_based"; "content_based"; "collaborative_filtering"; "hybrid"]%string.

(** the document [d] is the one stored for the record [r]: it has the
    fields of [r], is active and has no interaction yet *)
Definition storedAs (r : Rec.t) (d : Recommendation.t) : Prop :=
  Recommendation.user_id d = Rec.user_id r
  /\ Recommendation.entity_type d = Rec.entity_type r
  /\ Recommendation.entity_id d = Rec.entity_id r
  /\ Recommendation.entity_type_ref d = Rec.entity_type_ref r
  /\ Recommendation.score d = Rec.score r
  /\ Recommendation.algorithm_used d = Rec.algorithm_used r
  /\ Recommendation.recommendation_reasons d
     = Rec.recommendation_reasons r
  /\ Recommendation.is_active d = true
  /\ Recommendation.user_interaction d = noInteraction.

(** an active document of [userId] *)
Definition liveOf (userId : ObjectId) (d : Recommendation.t) : Prop :=
  Recommendation.user_id d = userId /\ Recommendation.is_active d = true.

(** the two databases differ in their recommendations at most *)
Definition sameCatalogue (db db' : DB) : Prop :=
  users db' = users db /\ exams db' = exams db
  /\ opportunities db' = opportunities db.

(** the stored recommendations of a learner, and those of everybody else *)
Definition docsOfLearner (db : DB) (userId : ObjectId)
  : list Recommendation.t :=
  filter (fun d => String.eqb (Recommendation.user_id d) userId)
         (recommendations db).

Definition docsOfOthers (db : DB) (userId : ObjectId)
  : list Recommendation.t :=
  filter (fun d => negb (String.eqb (Recommendation.user_id d) userId))
         (recommendations db).



(** the populated entity is a stored offering with the id the record
    names *)
Definition entityOf (db : DB) (d : Recommendation.t) (e : Entity) : Prop :=
  match e with
  | AnExam x =>
      In x (exams db) /\ Exam._id x = Recommendation.entity_id d
      /\ Recommendation.entity_type_ref d = "Exam"%string
  | AnOpportunity o =>
      In o (opportunities db)
      /\ Opportunity._id o = Recommendation.entity_id d
      /\ Recommendation.entity_type_ref d = "Opportunity"%string
  end.

(** [res] is what a query for the stored recommendations that satisfy [q],
    by descending score and cut at [limit], may return: each result is a
    stored record that satisfies [q], with its offering when it is stored;
    the results are in descending order of score; their number is that of
    the matching records, or [limit] if that is smaller and not 0; the
    matching records left out rank no higher than any result *)
Definition servedSpec (db : DB) (limit : nat) (q : Recommendation.t -> bool)
  (res : list (Recommendation.t * option Entity)) : Prop :=
  let matched := filter q (recommendations db) in
  Forall (fun p =>
            In (fst p) (recommendations db) /\ q (fst p) = true
            /\ forall e, snd p = Some e -> entityOf db (fst p) e) res
  /\ List.length res
     = (if (limit =? 0)%nat then List.length matched
        else Nat.min limit (List.length matched))
  /\ StronglySorted servedBefore (map fst res)
  /\ exists rest,
       Permutation (map fst res ++ rest) matched
       /\ forall d d', In d (map fst res) -> In d' rest -> servedBefore d d'.

(** the ids of the stored recommendations are pairwise distinct, and each
    is one the driver has generated so far *)
Definition idsInSequence (db : DB) : Prop :=
  NoDup (map Recommendation._id (recommendations db))
  /\ Forall (fun i => exists k, (k < oid_seq db)%nat /\ i = oid_of_nat k)
       (map Recommendation._id (recommendations db)).

(** the accumulators of a group over the documents [sel] of the group *)
Definition statsOf (sel : list Recommendation.t) : Stats :=
  fold_left (fun s d => accumulate d s) sel noStats.

(** the counts of a group are those of the documents [sel]; a group has at
    least one document *)
Definition groupCounts (sel : list Recommendation.t) (s : Stats) : Prop :=
  sel <> []
  /\ total s = List.length sel
  /\ viewed_count s
     = List.length
         (filter (fun d => viewed (Recommendation.user_interaction d)) sel)
  /\ saved_count s
     = List.length
         (filter (fun d => saved (Recommendation.user_interaction d)) sel)
  /\ applied_count s
     = List.length
         (filter (fun d => applied (Recommendation.user_interaction d)) sel).

(** the sum of the [total] of the groups *)
Definition sumTotals (groups : omap Stats) : nat :=
  fold_right (fun kv n => (total (snd kv) + n)%nat) 0%nat groups.

(** the stored score is a rational between 0 and 1 *)
Definition storedInRange (d : Recommendation.t) : Prop :=
  between 0 1 (Recommendation.score d).

(** the two databases differ in their users at most *)
Definition sameOfferings (db db' : DB) : Prop :=
  exams db' = exams db /\ opportunities db' = opportunities db
  /\ recommendations db' = recommendations db /\ oid_seq db' = oid_seq db.

(** [u'] has the profile of [u]: the fields that the handlers of the
    saved lists never write *)
Definition sameProfile (u u' : User.t) : Prop :=
  User._id u' = User._id u
  /\ User.role u' = User.role u
  /\ User.degree u' = User.degree u
  /\ User.year u' = User.year u
  /\ User.stream u' = User.stream u
  /\ User.interests u' = User.interests u
  /\ User.is_active u' = User.is_active u.

(** the other users are stored as before *)
Definition othersKept (db db' : DB) (id : ObjectId) : Prop :=
  List.length (users db') = List.length (users db)
  /\ forall id', id' <> id -> findUserById db' id' = findUserById db id'.

(** the interest term of the rule-based scores: the share of the
    learner's interests that match, times the weight; nothing for a
    learner without interests *)
Definition interestTerm (interests matching : list string) (w : Q) : Q :=
  if nonempty interests then
    inject_Z (Z.of_nat (List.length matching))
    / inject_Z (Z.of_nat (List.length interests)) * w
  else 0.

(** the stream test of the handler's loop (lines 421-425 of the
    controller): a Science stream and a subject that is Physics,
    Chemistry or Maths *)
Definition handlerScienceMatch (user : User.t) (e : Exam.t) : bool :=
  match User.stream user with
  | Some s =>
      String.eqb s "Science"
      && (str_includes (Exam.subjects e) "Physics"
          || str_includes (Exam.subjects e) "Chemistry"
          || str_includes (Exam.subjects e) "Maths")
  | None => false
  end.

(** the popularity bonus of the service, which the handler has not *)
Definition examPopularity (e : Exam.t) : Q :=
  if opt_gt (Exam.application_count e) 100 then 1 # 10 else 0.

Definition oppPopularity (o : Opportunity.t) : Q :=
  if (50 <? Opportunity.application_count o)%Z then 1 # 10 else 0.

(** the degree and year bonuses, the same in the handler and the
    service *)
Definition internshipBonuses (user : User.t) (o : Opportunity.t) : Q :=
  match Opportunity.type o with
  | internship =>
      (if RuleBased.degreeMatch user o then 1 # 5 else 0)
      + (if RuleBased.yearMatch user o then 1 # 5 else 0)
  | hackathon => 0
  end.

(** the subjects the learner's saved exams have *)
Definition savedSubjects (db : DB) (user : User.t) : list string :=
  Preferences.subjects (ContentBased.analyzeUserPreferences db user).

(** [getSimilarUsers] of the recommendation controller (lines 536-556), on
    [req.params.userId]: [Returns None] is the 404 answer, a list is the
    [similar_users] of the 200 answer.  The query selects name, email,
    interests and role; the answer is written with the virtuals of the
    user schema, and [saved_opportunities_count] reads the length of a
    saved list, of which a document of this query has none: writing the
    answer throws as soon as the list holds a user *)
Definition getSimilarUsers (db : DB) (userId : ObjectId)
  : Outcome (option (list User.t)) :=
  match findUserById db userId with
  | None => Returns None
  | Some user =>
      let similarUsers :=
        firstn 10
          (filter (fun u =>
                     negb (String.eqb (User._id u) (User._id user)))
                  (findByInterests db (User.interests user))) in
      if nonempty similarUsers then
        Throws "Cannot read properties of undefined (reading 'length')"
      else Returns (Some similarUsers)
  end.

(** * Proofs *)

#[local] Arguments Qred : simpl never.
#[local] Arguments Qplus : simpl never.
#[local] Arguments Qmult : simpl never.
#[local] Arguments Qdiv : simpl never.
#[local] Arguments Qopp : simpl never.

(** ** Interactions *)

Lemma parseInteractionType_Some (s : string) (kind : InteractionType) :
  parseInteractionType s = Some kind <->
  s = match kind with
      | on_viewed => "viewed"
      | on_saved => "saved"
      | on_applied => "applied"
      end%string.
Proof.
  unfold parseInteractionType. split.
  - destruct (String.eqb_spec s "viewed"); [intros [= <-]; auto|].
    destruct (String.eqb_spec s "saved"); [intros [= <-]; auto|].
    destruct (String.eqb_spec s "applied"); [intros [= <-]; auto|].
    discriminate.
  - intros ->. destruct kind; reflexivity.
Qed.

Lemma touched_id kind now d :
  Recommendation._id (touched kind now d) = Recommendation._id d.
Proof. reflexivity. Qed.

Lemma flagOf_touched kind now d : flagOf kind (touched kind now d) = true.
Proof. destruct kind; reflexivity. Qed.

Lemma stampOf_touched kind now d :
  stampOf kind (touched kind now d) = Some now.
Proof. destruct kind; reflexivity. Qed.

Lemma flagOf_touched_mono kind k' now d :
  flagOf k' d = true -> flagOf k' (touched kind now d) = true.
Proof. destruct kind, k'; simpl; auto. Qed.

Section FindByIdAndUpdate.

Variable id : ObjectId.
Variable update : Recommendation.t -> Recommendation.t.
Hypothesis update_id :
  forall d, Recommendation._id (update d) = Recommendation._id d.

Let hasId (d : Recommendation.t) : bool :=
  String.eqb (Recommendation._id d) id.

Lemma findByIdAndUpdate_found docs :
  fst (findByIdAndUpdate id update docs) = option_map update (find hasId docs).
Proof.
  induction docs as [|d rest IH]; simpl; [reflexivity|].
  unfold hasId in *. destruct (String.eqb (Recommendation._id d) id).
  - reflexivity.
  - destruct (findByIdAndUpdate id update rest); simpl in *. exact IH.
Qed.

Lemma findByIdAndUpdate_missing docs :
  find hasId docs = None ->
  findByIdAndUpdate id update docs = (None, docs).
Proof.
  induction docs as [|d rest IH]; simpl; [reflexivity|].
  unfold hasId in *. destruct (String.eqb (Recommendation._id d) id).
  - discriminate.
  - intros H. rewrite (IH H). reflexivity.
Qed.

Lemma findByIdAndUpdate_stored docs :
  find hasId (snd (findByIdAndUpdate id update docs))
  = option_map update (find hasId docs).
Proof.
  induction docs as [|d rest IH]; simpl; [reflexivity|].
  unfold hasId in *.
  destruct (String.eqb (Recommendation._id d) id) eqn:E; simpl.
  - rewrite update_id, E. reflexivity.
  - destruct (findByIdAndUpdate id update rest); simpl in *.
    rewrite E. exact IH.
Qed.

Lemma findByIdAndUpdate_length docs :
  List.length (snd (findByIdAndUpdate id update docs)) = List.length docs.
Proof.
  induction docs as [|d rest IH]; simpl; [reflexivity|].
  destruct (String.eqb (Recommendation._id d) id); simpl; [reflexivity|].
  destruct (findByIdAndUpdate id update rest); simpl in *. now rewrite IH.
Qed.

End FindByIdAndUpdate.

Lemma updateInteraction_found db now id kind :
  fst (updateInteraction db now id kind)
  = option_map (touched kind now) (findRecommendation db id).
Proof.
  unfold updateInteraction, findRecommendation.
  pose proof (findByIdAndUpdate_found id (touched kind now)
                (recommendations db)) as H.
  unfold touched in *.
  destruct (findByIdAndUpdate _ _ _); simpl in *. exact H.
Qed.

Lemma updateInteraction_stored db now id kind :
  findRecommendation (snd (updateInteraction db now id kind)) id
  = option_map (touched kind now) (findRecommendation db id).
Proof.
  unfold updateInteraction, findRecommendation.
  pose proof (findByIdAndUpdate_stored id (touched kind now)
                (touched_id kind now) (recommendations db)) as H.
  unfold touched in *.
  destruct (findByIdAndUpdate _ _ _); simpl in *. exact H.
Qed.

Lemma updateInteraction_missing db now id kind :
  findRecommendation db id = None ->
  updateInteraction db now id kind = (None, db).
Proof.
  unfold updateInteraction, findRecommendation. intros H.
  rewrite (findByIdAndUpdate_missing _ _ _ H). destruct db; reflexivity.
Qed.

Lemma handler_store db now id s kind :
  parseInteractionType s = Some kind ->
  snd (Controller.updateRecommendationInteraction db now id s)
  = snd (updateInteraction db now id kind).
Proof.
  intros P. unfold Controller.updateRecommendationInteraction. rewrite P.
  destruct (updateInteraction db now id kind) as [[d|] db']; reflexivity.
Qed.

(** C3, as amended: two calls of the interaction handler with the same kind
    on an existing record leave the flag true and the timestamp equal to
    the time of the second call (each call overwrites it with the current
    time); a flag that is true stays true. *)
Theorem interaction_twice_keeps_latest_time
  (db : DB) (now1 now2 : Z) (id : ObjectId) (s : string)
  (kind : InteractionType) (d : Recommendation.t) :
  parseInteractionType s = Some kind ->
  findRecommendation db id = Some d ->
  let db1 := snd (Controller.updateRecommendationInteraction db now1 id s) in
  let db2 := snd (Controller.updateRecommendationInteraction db1 now2 id s) in
  exists d1 d2,
    findRecommendation db1 id = Some d1
    /\ findRecommendation db2 id = Some d2
    /\ stampOf kind d1 = Some now1
    /\ stampOf kind d2 = Some now2
    /\ flagOf kind d1 = true
    /\ flagOf kind d2 = true
    /\ (forall k', flagOf k' d = true ->
                   flagOf k' d1 = true /\ flagOf k' d2 = true).
Proof.
  intros P F db1 db2.
  exists (touched kind now1 d), (touched kind now2 (touched kind now1 d)).
  assert (F1 : findRecommendation db1 id = Some (touched kind now1 d)).
  { unfold db1. rewrite (handler_store _ _ _ _ _ P).
    rewrite updateInteraction_stored, F. reflexivity. }
  assert (F2 : findRecommendation db2 id
               = Some (touched kind now2 (touched kind now1 d))).
  { unfold db2. rewrite (handler_store _ _ _ _ _ P).
    rewrite updateInteraction_stored, F1. reflexivity. }
  repeat split; auto using stampOf_touched, flagOf_touched,
    flagOf_touched_mono.
Qed.

Lemma interaction_twice_keeps_latest_time_witness :
  exists d1 d2,
    findRecommendation
      (snd (Controller.updateRecommendationInteraction
              (Sample.store true) 1000 "r0" "viewed")) "r0" = Some d1
    /\ findRecommendation
         (snd (Controller.updateRecommendationInteraction
                 (snd (Controller.updateRecommendationInteraction
                         (Sample.store true) 1000 "r0" "viewed"))
                 2000 "r0" "viewed")) "r0" = Some d2
    /\ stampOf on_viewed d1 = Some 1000%Z
    /\ stampOf on_viewed d2 = Some 2000%Z
    /\ flagOf on_viewed d1 = true
    /\ flagOf on_viewed d2 = true
    /\ (forall k', flagOf k' (Sample.rec0 true) = true ->
                   flagOf k' d1 = true /\ flagOf k' d2 = true).
Proof.
  apply (interaction_twice_keeps_latest_time (Sample.store true) 1000 2000
           "r0" "viewed" on_viewed (Sample.rec0 true));
    reflexivity.
Defined.

(** C3 as stated fails: after a second [viewed] call at a later time the
    record's [viewed_at] is the time of the second call, not the value the
    first call had set. *)
Lemma interaction_timestamp_overwritten :
  let db1 :=
    snd (Controller.updateRecommendationInteraction
           (Sample.store true) 1000 "r0" "viewed") in
  let db2 :=
    snd (Controller.updateRecommendationInteraction db1 2000 "r0" "viewed") in
  option_map (stampOf on_viewed) (findRecommendation db1 "r0")
  = Some (Some 1000%Z)
  /\ option_map (stampOf on_viewed) (findRecommendation db2 "r0")
     = Some (Some 2000%Z)
  /\ option_map (stampOf on_viewed) (findRecommendation db2 "r0")
     <> option_map (stampOf on_viewed) (findRecommendation db1 "r0").
Proof. repeat split. discriminate. Qed.

Lemma updateInteraction_others db now id kind id' :
  id' <> id ->
  findRecommendation (snd (updateInteraction db now id kind)) id'
  = findRecommendation db id'.
Proof.
  intros N. unfold updateInteraction, findRecommendation.
  destruct (findByIdAndUpdate _ _ _) as [found docs] eqn:E. simpl.
  revert found docs E.
  induction (recommendations db) as [|d rest IH]; simpl; intros found docs.
  - intros [= <- <-]. reflexivity.
  - destruct (String.eqb_spec (Recommendation._id d) id) as [Hid|Hid].
    + intros [= <- <-]. simpl.
      destruct (String.eqb_spec (Recommendation._id d) id'); [congruence|].
      reflexivity.
    + destruct (findByIdAndUpdate _ _ rest) as [f r].
      intros [= <- <-]. simpl.
      destruct (String.eqb (Recommendation._id d) id'); [reflexivity|].
      apply (IH f r eq_refl).
Qed.

(** C4, as amended: the handler answers 400 and leaves the store alone for
    a kind other than viewed, saved, applied; it answers 404 and leaves the
    store alone exactly when the kind is valid and no record has the id;
    otherwise it answers 200 with the record, whose flag of that kind is
    true and whose timestamp of that kind is the current time, whether the
    record is active or not, and no other record changes. *)
Theorem updateRecommendationInteraction_cases
  (db : DB) (now : Z) (id : ObjectId) (s : string) :
  Controller.updateRecommendationInteraction db now id s
  = match parseInteractionType s, findRecommendation db id with
    | None, _ => (mkResponse 400 "Invalid interaction type" NoData, db)
    | Some _, None => (mkResponse 404 "Recommendation not found" NoData, db)
    | Some kind, Some d =>
        (mkResponse 200 "Recommendation interaction updated successfully"
           (Document (touched kind now d)),
         snd (updateInteraction db now id kind))
    end
  /\ (forall kind,
        findRecommendation (snd (updateInteraction db now id kind)) id
        = option_map (touched kind now) (findRecommendation db id))
  /\ (forall kind id',
        id' <> id ->
        findRecommendation (snd (updateInteraction db now id kind)) id'
        = findRecommendation db id')
  /\ (forall kind d,
        flagOf kind (touched kind now d) = true
        /\ stampOf kind (touched kind now d) = Some now
        /\ Recommendation.is_active (touched kind now d)
           = Recommendation.is_active d).
Proof.
  split; [|split; [|split]].
  - unfold Controller.updateRecommendationInteraction.
    destruct (parseInteractionType s) as [kind|]; [|reflexivity].
    pose proof (updateInteraction_found db now id kind) as Hf.
    destruct (findRecommendation db id) as [d|] eqn:F.
    + destruct (updateInteraction db now id kind) as [found db'].
      simpl in *. subst found. reflexivity.
    + rewrite (updateInteraction_missing _ _ _ _ F). reflexivity.
  - intros kind. apply updateInteraction_stored.
  - intros kind id' N. now apply updateInteraction_others.
  - intros kind d. repeat split.
    + apply flagOf_touched.
    + apply stampOf_touched.
Qed.

Lemma updateRecommendationInteraction_cases_witness :
  findRecommendation
    (snd (updateInteraction (Sample.store false) 1000 "r0" on_saved)) "r1"
  = findRecommendation (Sample.store false) "r1".
Proof.
  apply (updateRecommendationInteraction_cases (Sample.store false) 1000
           "r0" "saved").
  discriminate.
Defined.

(** C4 as stated fails: a record that is not active is not reported as
    missing; the call succeeds and the stored record changes. *)
Lemma inactive_record_is_updated :
  Recommendation.is_active (Sample.rec0 false) = false
  /\ findRecommendation (Sample.store false) "r0" = Some (Sample.rec0 false)
  /\ status (fst (Controller.updateRecommendationInteraction
                    (Sample.store false) 1000 "r0" "viewed")) = 200%nat
  /\ snd (Controller.updateRecommendationInteraction
            (Sample.store false) 1000 "r0" "viewed")
     <> Sample.store false.
Proof. repeat split. discriminate. Qed.

(** ** Arithmetic of [jsnum] *)

Lemma gt_Fin (x y : Q) : gt (Fin x) (Fin y) = true <-> y < x.
Proof.
  simpl. rewrite negb_true_iff. split.
  - intros H. apply Qnot_le_lt. intros L.
    apply Qle_bool_iff in L. congruence.
  - intros H. destruct (Qle_bool x y) eqn:E; [|reflexivity].
    apply Qle_bool_iff in E. exfalso. apply (Qlt_not_le _ _ H E).
Qed.

Lemma gt_true_cases (a : jsnum) (y : Q) :
  gt a (Fin y) = true <-> (exists x, a = Fin x /\ y < x) \/ a = PInf.
Proof.
  destruct a as [x| | |].
  - rewrite gt_Fin. split.
    + intros H. left. exists x. auto.
    + intros [[x' [[= <-] H]]|[=]]. exact H.
  - simpl. split; auto.
  - simpl. split; [discriminate|]. intros [[x [[=] _]]|[=]].
  - simpl. split; [discriminate|]. intros [[x [[=] _]]|[=]].
Qed.

Lemma gt_NaN (b : jsnum) : gt NaN b = false.
Proof. reflexivity. Qed.

Lemma of_nat_nonzero (n : nat) :
  (0 < n)%nat -> Qeq_bool (inject_Z (Z.of_nat n)) 0 = false.
Proof.
  intros H. destruct (Qeq_bool _ _) eqn:E; [|reflexivity].
  apply Qeq_bool_eq in E. unfold Qeq in E. simpl in E. lia.
Qed.

Lemma div_of_nat (m n : nat) :
  (0 < n)%nat ->
  div (of_nat m) (of_nat n)
  = Fin (Qred (inject_Z (Z.of_nat m) / inject_Z (Z.of_nat n))).
Proof.
  intros H. unfold div, of_nat. now rewrite of_nat_nonzero.
Qed.

Lemma div_zero_zero : div (of_nat 0) (of_nat 0) = NaN.
Proof. reflexivity. Qed.

Lemma ratio_bounds (m n : nat) :
  (m <= n)%nat -> (0 < n)%nat ->
  0 <= inject_Z (Z.of_nat m) / inject_Z (Z.of_nat n) <= 1.
Proof.
  intros L P.
  assert (Pn : 0 < inject_Z (Z.of_nat n)).
  { change 0 with (inject_Z 0). rewrite <- Zlt_Qlt. lia. }
  split.
  - apply Qle_shift_div_l; [exact Pn|]. rewrite Qmult_0_l.
    change 0 with (inject_Z 0). rewrite <- Zle_Qle. lia.
  - apply Qle_shift_div_r; [exact Pn|]. rewrite Qmult_1_l.
    rewrite <- Zle_Qle. lia.
Qed.

Lemma ratio_pos (m n : nat) :
  (0 < m)%nat -> (0 < n)%nat ->
  0 < inject_Z (Z.of_nat m) / inject_Z (Z.of_nat n).
Proof.
  intros Pm P.
  assert (Pn : 0 < inject_Z (Z.of_nat n)).
  { change 0 with (inject_Z 0). rewrite <- Zlt_Qlt. lia. }
  apply Qlt_shift_div_l; [exact Pn|]. rewrite Qmult_0_l.
  change 0 with (inject_Z 0). rewrite <- Zlt_Qlt. lia.
Qed.

Lemma min_one (q : Q) :
  exists q', min (Fin q) (Fin 1) = Fin q' /\ q' == Qmin q 1.
Proof.
  simpl. destruct (Qle_bool q 1) eqn:E.
  - exists q. split; [reflexivity|]. apply Qle_bool_iff in E.
    symmetry. now apply Q.min_l.
  - exists 1. split; [reflexivity|].
    assert (1 < q).
    { apply Qnot_le_lt. intros L. apply Qle_bool_iff in L. congruence. }
    symmetry. apply Q.min_r. now apply Qlt_le_weak.
Qed.

Lemma min_one_between (lo q : Q) :
  lo <= q -> lo <= 1 -> between lo 1 (min (Fin q) (Fin 1)).
Proof.
  intros L1 L2. simpl. destruct (Qle_bool q 1) eqn:E; simpl.
  - apply Qle_bool_iff in E. auto.
  - split; [exact L2|apply Qle_refl].
Qed.

Lemma between_weaken (lo lo' hi : Q) (a : jsnum) :
  lo' <= lo -> between lo hi a -> between lo' hi a.
Proof.
  intros L. destruct a; simpl; auto. intros [A B]. split; [|exact B].
  eapply Qle_trans; eauto.
Qed.

(** ** Lists *)

Lemma fold_left_push_flat_map {A B : Type} (step : list B -> A -> list B)
  (emit : A -> list B) :
  (forall acc a, step acc a = acc ++ emit a) ->
  forall l acc, fold_left step l acc = acc ++ flat_map emit l.
Proof.
  intros H l. induction l as [|a l IH]; intros acc; simpl.
  - now rewrite app_nil_r.
  - rewrite IH, H, <- app_assoc. reflexivity.
Qed.

Lemma filter_length_le {A : Type} (f : A -> bool) (l : list A) :
  (List.length (filter f l) <= List.length l)%nat.
Proof.
  induction l as [|a l IH]; simpl; [lia|]. destruct (f a); simpl; lia.
Qed.

Lemma nonempty_true {A : Type} (l : list A) :
  nonempty l = true <-> (0 < List.length l)%nat.
Proof. unfold nonempty. apply Nat.ltb_lt. Qed.

(** ** The rule-based generator *)

Lemma bonus_value (c : bool) (w : Q) (why : Reason)
  (st : jsnum * list Reason) (q : Q) :
  fst st = Fin q ->
  exists q', fst (RuleBased.bonus c (Fin w) why st) = Fin q'
             /\ q' == q + (if c then w else 0).
Proof.
  intros H. unfold RuleBased.bonus. destruct c; simpl.
  - rewrite H. simpl. eexists. split; [reflexivity|]. apply Qred_correct.
  - exists q. split; [exact H|]. ring.
Qed.

Lemma interestBonus_nil (matching : list string) (w : Q) (why : Reason)
  (st : jsnum * list Reason) :
  RuleBased.interestBonus [] matching w why st = st.
Proof. reflexivity. Qed.

Lemma interestBonus_value (interests matching : list string) (w : Q)
  (why : Reason) (st : jsnum * list Reason) (q : Q) :
  (List.length matching <= List.length interests)%nat ->
  0 <= w ->
  fst st = Fin q ->
  exists q', fst (RuleBased.interestBonus interests matching w why st) = Fin q'
             /\ q <= q' /\ q' <= q + w.
Proof.
  intros L W H. unfold RuleBased.interestBonus, RuleBased.bonus.
  destruct (nonempty interests) eqn:NI.
  - apply nonempty_true in NI. destruct (nonempty matching) eqn:NM.
    + rewrite (div_of_nat _ _ NI), H. simpl.
      eexists. split; [reflexivity|].
      destruct (ratio_bounds _ _ L NI) as [R0 R1].
      set (r := inject_Z (Z.of_nat (List.length matching))
                / inject_Z (Z.of_nat (List.length interests))) in *.
      rewrite !Qred_correct.
      assert (0 <= r * w) by (apply Qmult_le_0_compat; assumption).
      assert (r * w <= 1 * w) by (apply Qmult_le_compat_r; assumption).
      split; lra.
    + exists q. split; [exact H|]. split; lra.
  - exists q. split; [exact H|]. split; lra.
Qed.

Lemma examMatching_le user e :
  (List.length (RuleBased.examMatchingInterests user e)
   <= List.length (User.interests user))%nat.
Proof. apply filter_length_le. Qed.

Lemma oppMatching_le user o :
  (List.length (RuleBased.oppMatchingInterests user o)
   <= List.length (User.interests user))%nat.
Proof. apply filter_length_le. Qed.

(** the score of an exam is a rational: no step divides by zero *)
Lemma examScore_value (user : User.t) (e : Exam.t) :
  exists q, fst (RuleBased.examScore user e) = Fin q
            /\ 1 # 2 <= q /\ q <= 11 # 10.
Proof.
  unfold RuleBased.examScore.
  destruct (bonus_value (RuleBased.scienceMatch user e) (3 # 10)
              (mkReason "Matches your Science stream" (3 # 10))
              (Fin (1 # 2), []) (1 # 2) eq_refl) as [q1 [E1 V1]].
  destruct (interestBonus_value (User.interests user)
              (RuleBased.examMatchingInterests user e) (1 # 5)
              (mkReason "Aligns with your interests" (1 # 5)) _ q1
              (examMatching_le user e) ltac:(lra) E1) as [q2 [E2 [V2 V2']]].
  destruct (bonus_value (opt_gt (Exam.application_count e) 100) (1 # 10)
              (mkReason "Popular among students" (1 # 10)) _ q2 E2)
    as [q3 [E3 V3]].
  exists q3. split; [exact E3|].
  destruct (RuleBased.scienceMatch user e),
    (opt_gt (Exam.application_count e) 100); split; lra.
Qed.

(** the score of an opportunity is a rational *)
Lemma oppScore_value (user : User.t) (o : Opportunity.t) :
  exists q, fst (RuleBased.oppScore user o) = Fin q
            /\ 1 # 2 <= q /\ q <= 13 # 10.
Proof.
  unfold RuleBased.oppScore.
  destruct (interestBonus_value (User.interests user)
              (RuleBased.oppMatchingInterests user o) (3 # 10)
              (mkReason "Matches your interests" (3 # 10))
              (Fin (1 # 2), []) (1 # 2)
              (oppMatching_le user o) ltac:(lra) eq_refl)
    as [q1 [E1 [V1 V1']]].
  set (st1 := RuleBased.interestBonus _ _ _ _ _) in *.
  assert (S2 : exists q2,
             fst (match Opportunity.type o with
                  | internship =>
                      RuleBased.bonus (RuleBased.yearMatch user o)
                        (Fin (1 # 5))
                        (mkReason "Perfect for your year" (1 # 5))
                        (RuleBased.bonus (RuleBased.degreeMatch user o)
                           (Fin (1 # 5))
                           (mkReason "Suitable for your degree" (1 # 5)) st1)
                  | hackathon => st1
                  end) = Fin q2 /\ q1 <= q2 /\ q2 <= q1 + (2 # 5)).
  { destruct (Opportunity.type o).
    - exists q1. split; [exact E1|]. split; lra.
    - destruct (bonus_value (RuleBased.degreeMatch user o) (1 # 5)
                  (mkReason "Suitable for your degree" (1 # 5)) st1 q1 E1)
        as [qa [Ea Va]].
      destruct (bonus_value (RuleBased.yearMatch user o) (1 # 5)
                  (mkReason "Perfect for your year" (1 # 5)) _ qa Ea)
        as [qb [Eb Vb]].
      exists qb. split; [exact Eb|].
      destruct (RuleBased.degreeMatch user o), (RuleBased.yearMatch user o);
        split; lra. }
  destruct S2 as [q2 [E2 [V2 V2']]].
  destruct (bonus_value (50 <? Opportunity.application_count o)%Z (1 # 10)
              (mkReason "Popular opportunity" (1 # 10)) _ q2 E2)
    as [q3 [E3 V3]].
  exists q3. split; [exact E3|].
  destruct (50 <? Opportunity.application_count o)%Z; split; lra.
Qed.

Lemma rule_examStep_push user acc e :
  RuleBased.examStep user acc e = acc ++ RuleBased.examStep user [] e.
Proof.
  unfold RuleBased.examStep, push.
  destruct (gt _ _); [reflexivity|now rewrite app_nil_r].
Qed.

Lemma rule_oppStep_push user acc o :
  RuleBased.oppStep user acc o = acc ++ RuleBased.oppStep user [] o.
Proof.
  unfold RuleBased.oppStep, push.
  destruct (gt _ _); [reflexivity|now rewrite app_nil_r].
Qed.

Lemma rule_scoreExams_flat_map user pool :
  RuleBased.scoreExams user pool
  = flat_map (RuleBased.examStep user []) pool.
Proof.
  unfold RuleBased.scoreExams.
  now rewrite (fold_left_push_flat_map _ _ (rule_examStep_push user)).
Qed.

Lemma rule_scoreOpportunities_flat_map user pool :
  RuleBased.scoreOpportunities user pool
  = flat_map (RuleBased.oppStep user []) pool.
Proof.
  unfold RuleBased.scoreOpportunities.
  now rewrite (fold_left_push_flat_map _ _ (rule_oppStep_push user)).
Qed.

Lemma rule_examStep_decides user e q :
  fst (RuleBased.examScore user e) = Fin q ->
  (RuleBased.examStep user [] e = [RuleBased.examRec user e] <-> 3 # 5 < q)
  /\ (RuleBased.examStep user [] e = [] <-> q <= 3 # 5).
Proof.
  intros E. unfold RuleBased.examStep. rewrite E.
  destruct (gt (Fin q) (Fin (3 # 5))) eqn:G.
  - apply gt_Fin in G. split; split; intros H; auto; try discriminate.
    exfalso. apply (Qlt_not_le _ _ G H).
  - assert (N : ~ 3 # 5 < q) by (rewrite <- gt_Fin; congruence).
    apply Qnot_lt_le in N. split; split; intros H; auto; try discriminate.
    exfalso. apply (Qlt_not_le _ _ H N).
Qed.

Lemma rule_oppStep_decides user o q :
  fst (RuleBased.oppScore user o) = Fin q ->
  (RuleBased.oppStep user [] o = [RuleBased.oppRec user o] <-> 3 # 5 < q)
  /\ (RuleBased.oppStep user [] o = [] <-> q <= 3 # 5).
Proof.
  intros E. unfold RuleBased.oppStep. rewrite E.
  destruct (gt (Fin q) (Fin (3 # 5))) eqn:G.
  - apply gt_Fin in G. split; split; intros H; auto; try discriminate.
    exfalso. apply (Qlt_not_le _ _ G H).
  - assert (N : ~ 3 # 5 < q) by (rewrite <- gt_Fin; congruence).
    apply Qnot_lt_le in N. split; split; intros H; auto; try discriminate.
    exfalso. apply (Qlt_not_le _ _ H N).
Qed.



(** base, stream, full interest overlap and popularity add up to 1.1, the
    record carries 1 *)
Example rule_based_clamps_at_one :
  fst (RuleBased.examScore Sample.physicist Sample.popularExam)
  = Fin (11 # 10)
  /\ map Rec.score
       (RuleBased.scoreExams Sample.physicist [Sample.popularExam])
     = [Fin 1].
Proof. split; reflexivity. Qed.

(** a candidate at exactly 0.6 is dropped, one just above is kept *)
Example rule_based_exactly_at_threshold :
  fst (RuleBased.examScore Sample.halfUser Sample.physicsExam) = Fin (3 # 5)
  /\ RuleBased.scoreExams Sample.halfUser [Sample.physicsExam] = []
  /\ fst (RuleBased.oppScore Sample.plainUser Sample.popularHackathon)
     = Fin (3 # 5)
  /\ RuleBased.scoreOpportunities Sample.plainUser [Sample.popularHackathon]
     = []
  /\ fst (RuleBased.examScore Sample.keenUser Sample.physicsExam)
     = Fin (7 # 10)
  /\ map Rec.score
       (RuleBased.scoreExams Sample.keenUser [Sample.physicsExam])
     = [Fin (7 # 10)].
Proof. repeat split. Qed.

(** ** A learner with no interests and nothing saved *)

Lemma examScore_no_interests user e :
  User.interests user = [] ->
  exists q, fst (RuleBased.examScore user e) = Fin q
            /\ q == (1 # 2) + examFixedBonuses user e.
Proof.
  intros I. unfold RuleBased.examScore. rewrite I, interestBonus_nil.
  destruct (bonus_value (RuleBased.scienceMatch user e) (3 # 10)
              (mkReason "Matches your Science stream" (3 # 10))
              (Fin (1 # 2), []) (1 # 2) eq_refl) as [q1 [E1 V1]].
  destruct (bonus_value (opt_gt (Exam.application_count e) 100) (1 # 10)
              (mkReason "Popular among students" (1 # 10)) _ q1 E1)
    as [q2 [E2 V2]].
  exists q2. split; [exact E2|]. unfold examFixedBonuses.
  rewrite V2, V1. ring.
Qed.

Lemma oppScore_no_interests user o :
  User.interests user = [] ->
  exists q, fst (RuleBased.oppScore user o) = Fin q
            /\ q == (1 # 2) + oppFixedBonuses user o.
Proof.
  intros I. unfold RuleBased.oppScore. rewrite I, interestBonus_nil.
  unfold oppFixedBonuses. destruct (Opportunity.type o).
  - destruct (bonus_value (50 <? Opportunity.application_count o)%Z (1 # 10)
                (mkReason "Popular opportunity" (1 # 10))
                (Fin (1 # 2), []) (1 # 2) eq_refl) as [q [E V]].
    exists q. split; [exact E|]. rewrite V. ring.
  - destruct (bonus_value (RuleBased.degreeMatch user o) (1 # 5)
                (mkReason "Suitable for your degree" (1 # 5))
                (Fin (1 # 2), []) (1 # 2) eq_refl) as [qa [Ea Va]].
    destruct (bonus_value (RuleBased.yearMatch user o) (1 # 5)
                (mkReason "Perfect for your year" (1 # 5)) _ qa Ea)
      as [qb [Eb Vb]].
    destruct (bonus_value (50 <? Opportunity.application_count o)%Z (1 # 10)
                (mkReason "Popular opportunity" (1 # 10)) _ qb Eb)
      as [q [E V]].
    exists q. split; [exact E|]. rewrite V, Vb, Va. ring.
Qed.

Lemma content_based_nothing_saved db now user :
  User.saved_exams user = [] ->
  User.saved_hackathons user = [] ->
  User.saved_internships user = [] ->
  ContentBased.generateContentBasedRecommendations db now user = [].
Proof.
  intros E H I. unfold ContentBased.generateContentBasedRecommendations.
  rewrite E, H, I. simpl. rewrite !andb_false_r. reflexivity.
Qed.

(** C9, as amended: for a learner with no interests and nothing saved the
    content-based generator returns the empty list; the rule-based
    generator skips the interest term, so that every score is the rational
    0.5 plus the stream (or degree and year) bonus plus the popularity
    bonus, and it keeps exactly the candidates for which that sum exceeds
    0.6. *)
Theorem empty_profile_generators
  (db : DB) (now : Z) (user : User.t) :
  User.interests user = [] ->
  User.saved_exams user = [] ->
  User.saved_hackathons user = [] ->
  User.saved_internships user = [] ->
  ContentBased.generateContentBasedRecommendations db now user = []
  /\ (forall e, exists q,
        fst (RuleBased.examScore user e) = Fin q
        /\ q == (1 # 2) + examFixedBonuses user e
        /\ (RuleBased.examStep user [] e = [RuleBased.examRec user e]
            <-> 3 # 5 < (1 # 2) + examFixedBonuses user e)
        /\ (RuleBased.examStep user [] e = []
            <-> (1 # 2) + examFixedBonuses user e <= 3 # 5))
  /\ (forall o, exists q,
        fst (RuleBased.oppScore user o) = Fin q
        /\ q == (1 # 2) + oppFixedBonuses user o
        /\ (RuleBased.oppStep user [] o = [RuleBased.oppRec user o]
            <-> 3 # 5 < (1 # 2) + oppFixedBonuses user o)
        /\ (RuleBased.oppStep user [] o = []
            <-> (1 # 2) + oppFixedBonuses user o <= 3 # 5))
  /\ RuleBased.generateRuleBasedRecommendations db now user
     = match User.role user with
       | school =>
           flat_map (RuleBased.examStep user [])
             (firstn 50 (filter (upcomingExam now) (exams db)))
       | university =>
           flat_map (RuleBased.oppStep user [])
             (firstn 100 (filter (openOpportunity now) (opportunities db)))
       end.
Proof.
  intros I SE SH SI. split; [|split; [|split]].
  - now apply content_based_nothing_saved.
  - intros e. destruct (examScore_no_interests user e I) as [q [E V]].
    exists q. split; [exact E|]. split; [exact V|].
    destruct (rule_examStep_decides user e q E) as [A B].
    rewrite A, B, V. split; reflexivity.
  - intros o. destruct (oppScore_no_interests user o I) as [q [E V]].
    exists q. split; [exact E|]. split; [exact V|].
    destruct (rule_oppStep_decides user o q E) as [A B].
    rewrite A, B, V. split; reflexivity.
  - unfold RuleBased.generateRuleBasedRecommendations.
    destruct (User.role user).
    + apply rule_scoreExams_flat_map.
    + apply rule_scoreOpportunities_flat_map.
Qed.

Lemma empty_profile_generators_witness :
  ContentBased.generateContentBasedRecommendations Sample.catalog 0
    Sample.scienceUser = []
  /\ RuleBased.generateRuleBasedRecommendations Sample.catalog 0
       Sample.scienceUser
     = flat_map (RuleBased.examStep Sample.scienceUser [])
         (firstn 50 (filter (upcomingExam 0) (exams Sample.catalog))).
Proof.
  destruct (empty_profile_generators Sample.catalog 0 Sample.scienceUser
              eq_refl eq_refl eq_refl eq_refl) as [A [_ [_ B]]].
  split; [exact A|exact B].
Defined.

(** C9 as stated fails for the rule-based generator: a Science student with
    no interests and nothing saved is recommended a Physics exam with
    score 0.8. *)
Lemma rule_based_emits_for_empty_profile :
  User.interests Sample.scienceUser = []
  /\ User.saved_exams Sample.scienceUser = []
  /\ User.saved_hackathons Sample.scienceUser = []
  /\ User.saved_internships Sample.scienceUser = []
  /\ map Rec.score
       (RuleBased.generateRuleBasedRecommendations Sample.catalog 0
          Sample.scienceUser)
     = [Fin (4 # 5)]
  /\ RuleBased.generateRuleBasedRecommendations Sample.catalog 0
       Sample.scienceUser <> [].
Proof. repeat split. discriminate. Qed.

(** ** Content similarity *)

Lemma facetTerm_nil prefs w : ContentBased.facetTerm [] prefs w = NaN.
Proof. reflexivity. Qed.

Lemma facetTerm_cons x xs prefs w :
  ContentBased.facetTerm (x :: xs) prefs w
  = Fin (Qred (Qred (inject_Z
                       (Z.of_nat
                          (List.length
                             (filter (fun y => str_includes prefs y)
                                (x :: xs))))
                     / inject_Z (Z.of_nat (List.length (x :: xs)))) * w)).
Proof.
  unfold ContentBased.facetTerm.
  rewrite div_of_nat by (simpl; lia). reflexivity.
Qed.

Lemma facetTerm_bounds x xs prefs w :
  0 <= w ->
  exists r, ContentBased.facetTerm (x :: xs) prefs w = Fin r
            /\ 0 <= r /\ r <= w.
Proof.
  intros W. rewrite facetTerm_cons. eexists. split; [reflexivity|].
  destruct (ratio_bounds
              (List.length (filter (fun y => str_includes prefs y) (x :: xs)))
              (List.length (x :: xs)) (filter_length_le _ _)
              ltac:(simpl; lia)) as [R0 R1].
  set (r := inject_Z _ / inject_Z _) in *.
  rewrite !Qred_correct.
  assert (0 <= r * w) by (apply Qmult_le_0_compat; assumption).
  assert (r * w <= 1 * w) by (apply Qmult_le_compat_r; assumption).
  split; lra.
Qed.

Lemma listFacet_inv facet prefs w st :
  0 <= w -> accInv st -> accInv (ContentBased.listFacet facet prefs w st).
Proof.
  intros W [t [Et [T0 Hs]]]. destruct st as [sc tw]. simpl in *.
  subst tw. destruct facet as [[|x xs]|]; simpl.
  - exists (Qred (t + w)).
    split; [reflexivity|]. split; [rewrite Qred_correct; lra|]. left.
    destruct sc; reflexivity.
  - destruct (facetTerm_bounds x xs prefs w W) as [r [Er [R0 R1]]].
    rewrite Er. exists (Qred (t + w)).
    split; [reflexivity|]. split; [rewrite Qred_correct; lra|].
    destruct Hs as [->|[s [-> [S0 S1]]]]; [left; reflexivity|].
    right. exists (Qred (s + r)).
    split; [reflexivity|]. rewrite !Qred_correct. split; lra.
  - exists t. auto.
Qed.

Lemma nameFacet_inv name prefs st :
  accInv st -> accInv (ContentBased.nameFacet name prefs st).
Proof.
  intros [t [Et [T0 Hs]]]. destruct st as [sc tw]. simpl in *. subst tw.
  unfold ContentBased.nameFacet.
  destruct (truthy_str name) as [c|]; [|exists t; auto].
  destruct (str_includes prefs c); [|exists t; auto].
  exists (Qred (t + (1 # 10))). simpl.
  split; [reflexivity|]. split; [rewrite Qred_correct; lra|].
  destruct Hs as [->|[s [-> [S0 S1]]]]; [left; reflexivity|].
  right. exists (Qred (s + (1 # 10))).
  split; [reflexivity|]. rewrite !Qred_correct. split; lra.
Qed.

Lemma similarityAcc_inv item preferences :
  accInv (ContentBased.similarityAcc item preferences).
Proof.
  unfold ContentBased.similarityAcc.
  repeat first [apply nameFacet_inv | apply listFacet_inv; [lra|]].
  exists 0. simpl. split; [reflexivity|]. split; [lra|].
  right. exists 0. split; [reflexivity|]. split; lra.
Qed.

Lemma div_Fin_pos (s t : Q) :
  0 < t -> div (Fin s) (Fin t) = Fin (Qred (s / t)).
Proof.
  intros P. unfold div. destruct (Qeq_bool t 0) eqn:E; [|reflexivity].
  apply Qeq_bool_eq in E. rewrite E in P. exfalso.
  apply (Qlt_irrefl _ P).
Qed.

(** the similarity is NaN or a rational between 0 and 1 *)
Lemma calculateContentSimilarity_range item preferences :
  ContentBased.calculateContentSimilarity item preferences = NaN
  \/ between 0 1 (ContentBased.calculateContentSimilarity item preferences).
Proof.
  unfold ContentBased.calculateContentSimilarity.
  destruct (similarityAcc_inv item preferences) as [t [Et [T0 Hs]]].
  destruct (ContentBased.similarityAcc item preferences) as [sc tw].
  simpl in *. subst tw.
  destruct (gt (Fin t) (Fin 0)) eqn:G.
  - apply gt_Fin in G.
    destruct Hs as [->|[s [-> [S0 S1]]]]; [left; reflexivity|].
    right. rewrite (div_Fin_pos _ _ G). simpl. rewrite Qred_correct.
    split.
    + apply Qle_shift_div_l; [exact G|]. lra.
    + apply Qle_shift_div_r; [exact G|]. lra.
  - right. simpl. split; lra.
Qed.

(** a record the content-based loops push has a score above 0.7 and at
    most 1 *)
Lemma content_similarity_kept item preferences :
  gt (ContentBased.calculateContentSimilarity item preferences)
     (Fin (7 # 10)) = true ->
  between (7 # 10) 1
    (ContentBased.calculateContentSimilarity item preferences).
Proof.
  intros G.
  destruct (calculateContentSimilarity_range item preferences) as [E|B].
  - rewrite E in G. discriminate.
  - destruct (ContentBased.calculateContentSimilarity item preferences);
      simpl in *; try contradiction.
    apply gt_Fin in G. destruct B. split; [lra|assumption].
Qed.

(** *** A facet that is present and empty *)

Lemma add_NaN_r a : add a NaN = NaN.
Proof. destruct a; reflexivity. Qed.

Lemma listFacet_empty prefs w st :
  0 < w -> accInv st -> nanInv (ContentBased.listFacet (Some []) prefs w st).
Proof.
  intros W [t [Et [T0 _]]]. destruct st as [sc tw]. simpl in *. subst tw.
  split; [apply add_NaN_r|]. exists (Qred (t + w)).
  split; [reflexivity|]. rewrite Qred_correct. lra.
Qed.

Lemma listFacet_nan facet prefs w st :
  0 <= w -> nanInv st -> nanInv (ContentBased.listFacet facet prefs w st).
Proof.
  intros W [E [t [Et T0]]]. destruct st as [sc tw]. simpl in *. subst sc tw.
  destruct facet as [xs|]; simpl.
  - split; [reflexivity|]. exists (Qred (t + w)).
    split; [reflexivity|]. rewrite Qred_correct. lra.
  - split; [reflexivity|]. exists t. auto.
Qed.

Lemma nameFacet_nan name prefs st :
  nanInv st -> nanInv (ContentBased.nameFacet name prefs st).
Proof.
  intros [E [t [Et T0]]]. destruct st as [sc tw]. simpl in *. subst sc tw.
  unfold ContentBased.nameFacet.
  destruct (truthy_str name) as [c|]; [|split; [reflexivity|exists t; auto]].
  destruct (str_includes prefs c); [|split; [reflexivity|exists t; auto]].
  split; [reflexivity|]. exists (Qred (t + (1 # 10))).
  split; [reflexivity|]. rewrite Qred_correct. lra.
Qed.

Lemma accInv_start : accInv (Fin 0, Fin 0).
Proof.
  exists 0. simpl. split; [reflexivity|]. split; [lra|].
  right. exists 0. split; [reflexivity|]. split; lra.
Qed.

Lemma similarityAcc_nan item preferences :
  hasEmptyFacet item = true ->
  nanInv (ContentBased.similarityAcc item preferences).
Proof.
  unfold hasEmptyFacet, ContentBased.similarityAcc. intros H.
  apply orb_true_iff in H. destruct H as [H|H];
    [apply orb_true_iff in H; destruct H as [H|H]|].
  - destruct (Item.subjects item) as [[|]|]; try discriminate.
    do 2 apply nameFacet_nan. do 2 (apply listFacet_nan; [lra|]).
    apply listFacet_empty; [lra|apply accInv_start].
  - destruct (Item.skills_required item) as [[|]|]; try discriminate.
    do 2 apply nameFacet_nan. apply listFacet_nan; [lra|].
    apply listFacet_empty; [lra|].
    apply listFacet_inv; [lra|apply accInv_start].
  - destruct (Item.domain item) as [[|]|]; try discriminate.
    do 2 apply nameFacet_nan. apply listFacet_empty; [lra|].
    do 2 (apply listFacet_inv; [lra|]). apply accInv_start.
Qed.

Lemma calculateContentSimilarity_nan item preferences :
  hasEmptyFacet item = true ->
  ContentBased.calculateContentSimilarity item preferences = NaN.
Proof.
  intros H. unfold ContentBased.calculateContentSimilarity.
  destruct (similarityAcc_nan item preferences H) as [E [t [Et T0]]].
  destruct (ContentBased.similarityAcc item preferences) as [sc tw].
  simpl in *. subst sc tw.
  apply gt_Fin in T0. rewrite T0. reflexivity.
Qed.

Lemma content_examStep_push user preferences acc e :
  ContentBased.examStep user preferences acc e
  = acc ++ ContentBased.examStep user preferences [] e.
Proof.
  unfold ContentBased.examStep, push.
  destruct (gt _ _); [reflexivity|now rewrite app_nil_r].
Qed.

Lemma content_oppStep_push user preferences acc o :
  ContentBased.oppStep user preferences acc o
  = acc ++ ContentBased.oppStep user preferences [] o.
Proof.
  unfold ContentBased.oppStep, push.
  destruct (gt _ _); [reflexivity|now rewrite app_nil_r].
Qed.

Lemma content_scoreExams_flat_map user preferences pool :
  ContentBased.scoreExams user preferences pool
  = flat_map (ContentBased.examStep user preferences []) pool.
Proof.
  unfold ContentBased.scoreExams.
  now rewrite (fold_left_push_flat_map _ _
                 (content_examStep_push user preferences)).
Qed.

Lemma content_scoreOpportunities_flat_map user preferences pool :
  ContentBased.scoreOpportunities user preferences pool
  = flat_map (ContentBased.oppStep user preferences []) pool.
Proof.
  unfold ContentBased.scoreOpportunities.
  now rewrite (fold_left_push_flat_map _ _
                 (content_oppStep_push user preferences)).
Qed.

Lemma flat_map_filter_nil {A B : Type} (f : A -> list B) (keep : A -> bool)
  (l : list A) :
  (forall a, keep a = false -> f a = []) ->
  flat_map f l = flat_map f (filter keep l).
Proof.
  intros H. induction l as [|a l IH]; simpl; [reflexivity|].
  destruct (keep a) eqn:K; simpl.
  - now rewrite IH.
  - now rewrite (H a K).
Qed.

(** C10: a facet list that is present and empty makes its ratio the
    division 0/0, which is NaN; the similarity of such an item is NaN, the
    test [score > 0.7] is false on it, and the content-based loops push
    nothing for it: their result is the one for the pool without these
    candidates.  The functions are total, no case raises an error. *)
Theorem empty_facet_is_never_recommended
  (user : User.t) (preferences : Preferences.t) :
  (forall prefs w,
     ContentBased.facetTerm [] prefs w
     = mul (div (of_nat 0) (of_nat 0)) (Fin w)
     /\ div (of_nat 0) (of_nat 0) = NaN
     /\ ContentBased.facetTerm [] prefs w = NaN)
  /\ (forall item,
        hasEmptyFacet item = true ->
        ContentBased.calculateContentSimilarity item preferences = NaN
        /\ gt (ContentBased.calculateContentSimilarity item preferences)
              (Fin (7 # 10)) = false)
  /\ (forall e acc,
        hasEmptyFacet (ContentBased.itemOfExam e) = true ->
        ContentBased.examStep user preferences acc e = acc)
  /\ (forall o acc,
        hasEmptyFacet (ContentBased.itemOfOpportunity o) = true ->
        ContentBased.oppStep user preferences acc o = acc)
  /\ (forall pool,
        ContentBased.scoreExams user preferences pool
        = ContentBased.scoreExams user preferences
            (filter (fun e => negb (hasEmptyFacet (ContentBased.itemOfExam e)))
               pool))
  /\ (forall pool,
        ContentBased.scoreOpportunities user preferences pool
        = ContentBased.scoreOpportunities user preferences
            (filter
               (fun o =>
                  negb (hasEmptyFacet (ContentBased.itemOfOpportunity o)))
               pool)).
Proof.
  assert (St : forall item,
             hasEmptyFacet item = true ->
             gt (ContentBased.calculateContentSimilarity item preferences)
                (Fin (7 # 10)) = false).
  { intros item H. now rewrite (calculateContentSimilarity_nan _ _ H). }
  split; [|split; [|split; [|split; [|split]]]].
  - intros prefs w. repeat split.
  - intros item H. split; [now apply calculateContentSimilarity_nan|auto].
  - intros e acc H. unfold ContentBased.examStep. now rewrite (St _ H).
  - intros o acc H. unfold ContentBased.oppStep. now rewrite (St _ H).
  - intros pool. rewrite !content_scoreExams_flat_map.
    apply flat_map_filter_nil. intros e K. apply negb_false_iff in K.
    unfold ContentBased.examStep. now rewrite (St _ K).
  - intros pool. rewrite !content_scoreOpportunities_flat_map.
    apply flat_map_filter_nil. intros o K. apply negb_false_iff in K.
    unfold ContentBased.oppStep. now rewrite (St _ K).
Qed.

(** *** The similarity as a weighted average *)

Lemma listFacet_value facet prefs w st s t :
  emptyFacet facet = false ->
  accIs st s t ->
  accIs (ContentBased.listFacet facet prefs w st)
    (s + fst (listPart facet prefs w)) (t + snd (listPart facet prefs w)).
Proof.
  intros NE [s' [t' [-> [Es Et]]]]. destruct facet as [[|x xs]|];
    try discriminate; unfold ContentBased.listFacet, listPart;
    cbn [fst snd].
  - rewrite facetTerm_cons. cbn [add].
    eexists. eexists. split; [reflexivity|].
    unfold overlapRatio. rewrite !Qred_correct, Es, Et.
    split; reflexivity.
  - exists s', t'. split; [reflexivity|]. rewrite Es, Et. split; ring.
Qed.

Lemma nameFacet_value name prefs st s t :
  accIs st s t ->
  accIs (ContentBased.nameFacet name prefs st)
    (s + fst (namePartMatched name prefs))
    (t + snd (namePartMatched name prefs)).
Proof.
  intros [s' [t' [-> [Es Et]]]].
  unfold ContentBased.nameFacet, namePartMatched.
  destruct (truthy_str name) as [c|].
  - destruct (str_includes prefs c); simpl.
    + eexists. eexists. split; [reflexivity|].
      rewrite !Qred_correct, Es, Et. split; reflexivity.
    + exists s', t'. split; [reflexivity|]. rewrite Es, Et. split; ring.
  - exists s', t'. split; [reflexivity|]. simpl. rewrite Es, Et. split; ring.
Qed.

Lemma hasEmptyFacet_false item :
  hasEmptyFacet item = false ->
  emptyFacet (Item.subjects item) = false
  /\ emptyFacet (Item.skills_required item) = false
  /\ emptyFacet (Item.domain item) = false.
Proof.
  unfold hasEmptyFacet. intros H.
  apply orb_false_iff in H. destruct H as [H C].
  apply orb_false_iff in H. destruct H as [A B]. auto.
Qed.

Lemma calculateContentSimilarity_value item preferences :
  hasEmptyFacet item = false ->
  exists q,
    ContentBased.calculateContentSimilarity item preferences = Fin q
    /\ q == matchedSimilarity item preferences.
Proof.
  intros H. destruct (hasEmptyFacet_false item H) as [A [B C]].
  unfold ContentBased.calculateContentSimilarity,
    ContentBased.similarityAcc.
  assert (S0 : accIs (Fin 0, Fin 0) 0 0).
  { exists 0, 0. split; [reflexivity|]. split; reflexivity. }
  pose proof (listFacet_value _ (Preferences.subjects preferences) (2 # 5)
                _ _ _ A S0) as S1.
  pose proof (listFacet_value _ (Preferences.skills preferences) (3 # 10)
                _ _ _ B S1) as S2.
  pose proof (listFacet_value _ (Preferences.domains preferences) (1 # 5)
                _ _ _ C S2) as S3.
  pose proof (nameFacet_value (Item.company item)
                (Preferences.companies preferences) _ _ _ S3) as S4.
  pose proof (nameFacet_value (Item.organizer item)
                (Preferences.organizers preferences) _ _ _ S4) as S5.
  destruct S5 as [s [t [-> [Es Et]]]].
  unfold matchedSimilarity, weightedAverage, listParts, sumQ. simpl map.
  simpl fold_right.
  set (p1 := listPart (Item.subjects item) _ _) in *.
  set (p2 := listPart (Item.skills_required item) _ _) in *.
  set (p3 := listPart (Item.domain item) _ _) in *.
  set (p4 := namePartMatched (Item.company item) _) in *.
  set (p5 := namePartMatched (Item.organizer item) _) in *.
  assert (En : fst p1 + (fst p2 + (fst p3 + (fst p4 + (fst p5 + 0)))) == s)
    by (rewrite Es; ring).
  assert (Ed : snd p1 + (snd p2 + (snd p3 + (snd p4 + (snd p5 + 0)))) == t)
    by (rewrite Et; ring).
  set (num := fst p1 + _) in *. set (den := snd p1 + _) in *.
  destruct (gt (Fin t) (Fin 0)) eqn:G.
  - apply gt_Fin in G. rewrite (div_Fin_pos _ _ G).
    eexists. split; [reflexivity|].
    destruct (Qle_bool den 0) eqn:L.
    + apply Qle_bool_iff in L. rewrite Ed in L. exfalso.
      apply (Qlt_not_le _ _ G L).
    + rewrite Qred_correct, En, Ed. reflexivity.
  - exists 0. split; [reflexivity|].
    destruct (Qle_bool den 0) eqn:L; [reflexivity|].
    exfalso. assert (N : ~ 0 < t) by (rewrite <- gt_Fin; congruence).
    apply Qnot_lt_le in N. rewrite <- Ed in N.
    apply Qle_bool_iff in N. congruence.
Qed.

Lemma flat_map_if {A B : Type} (keep : A -> bool) (f : A -> B) (l : list A) :
  flat_map (fun a => if keep a then [f a] else []) l = map f (filter keep l).
Proof.
  induction l as [|a l IH]; simpl; [reflexivity|].
  destruct (keep a); simpl; now rewrite IH.
Qed.

Lemma similarity_gt_iff item preferences :
  gt (ContentBased.calculateContentSimilarity item preferences)
     (Fin (7 # 10))
  = aboveThreshold item preferences.
Proof.
  unfold aboveThreshold. destruct (hasEmptyFacet item) eqn:H.
  - now rewrite (calculateContentSimilarity_nan _ _ H).
  - destruct (calculateContentSimilarity_value item preferences H)
      as [q [E V]].
    rewrite E. simpl. now rewrite V.
Qed.

Lemma similarity_no_facet item preferences :
  Item.subjects item = None ->
  Item.skills_required item = None ->
  Item.domain item = None ->
  nameMatches (Item.company item) (Preferences.companies preferences)
  = false ->
  nameMatches (Item.organizer item) (Preferences.organizers preferences)
  = false ->
  ContentBased.calculateContentSimilarity item preferences = Fin 0.
Proof.
  unfold ContentBased.calculateContentSimilarity,
    ContentBased.similarityAcc, ContentBased.nameFacet, nameMatches.
  intros -> -> -> C O. simpl.
  destruct (truthy_str (Item.company item));
    destruct (truthy_str (Item.organizer item));
    rewrite ?C, ?O; reflexivity.
Qed.

Lemma content_similarity_above item preferences :
  gt (ContentBased.calculateContentSimilarity item preferences)
     (Fin (7 # 10)) = true ->
  exists q,
    ContentBased.calculateContentSimilarity item preferences = Fin q
    /\ 7 # 10 < q /\ q <= 1.
Proof.
  intros G. pose proof (content_similarity_kept item preferences G) as B.
  apply gt_true_cases in G. destruct G as [[q [E L]] | E].
  - exists q. rewrite E in B. simpl in B. tauto.
  - rewrite E in B. destruct B.
Qed.

Lemma aboveThreshold_margins item preferences :
  (aboveThreshold item preferences = true ->
   hasEmptyFacet item = false
   /\ (7 # 10) - roundingMargin <= matchedSimilarity item preferences)
  /\ (hasEmptyFacet item = false ->
      (7 # 10) + roundingMargin <= matchedSimilarity item preferences ->
      aboveThreshold item preferences = true).
Proof.
  unfold aboveThreshold, roundingMargin. split.
  - intros A. apply andb_true_iff in A. destruct A as [E L].
    apply negb_true_iff in E, L. split; [exact E|].
    assert (H : ~ matchedSimilarity item preferences <= 7 # 10).
    { intros H. apply Qle_bool_iff in H. congruence. }
    apply Qnot_le_lt in H. lra.
  - intros E L. rewrite E. simpl. apply negb_true_iff.
    destruct (Qle_bool (matchedSimilarity item preferences) (7 # 10)) eqn:B;
      [|reflexivity].
    apply Qle_bool_iff in B. lra.
Qed.

(** C7, as amended: for an item whose subjects, skills and domain lists,
    where present, are not empty, the similarity is, up to the rounding
    of the arithmetic, the weighted sum of the overlap ratios of the
    present lists, plus 0.1 for a company and 0.1 for an organizer that
    is one of the preferred names, over the sum of the weights of the
    present lists, plus 0.1 for each such name: a list the item has
    counts in the weights even when nothing overlaps, a company or
    organizer that does not match counts nowhere.  With no facet
    applicable the similarity is 0.  The loops emit fetched candidates in
    the order fetched, each with a similarity above 0.7: every candidate
    without an empty list whose weighted average is above 0.7 by the
    margin, none with an empty list and none whose weighted average is
    below 0.7 by the margin. *)
Theorem content_similarity_is_weighted_average (user : User.t) :
  (forall preferences item,
     hasEmptyFacet item = false ->
     exists q,
       ContentBased.calculateContentSimilarity item preferences = Fin q
       /\ matchedSimilarity item preferences - roundingMargin <= q
       /\ q <= matchedSimilarity item preferences + roundingMargin
       /\ 0 <= q /\ q <= 1)
  /\ (forall preferences item,
        Item.subjects item = None ->
        Item.skills_required item = None ->
        Item.domain item = None ->
        nameMatches (Item.company item) (Preferences.companies preferences)
        = false ->
        nameMatches (Item.organizer item)
          (Preferences.organizers preferences) = false ->
        ContentBased.calculateContentSimilarity item preferences = Fin 0)
  /\ (forall preferences pool,
        exists keep : Exam.t -> bool,
          map Rec.entity_id (ContentBased.scoreExams user preferences pool)
          = map Exam._id (filter keep pool)
          /\ (forall e,
                keep e = true ->
                hasEmptyFacet (ContentBased.itemOfExam e) = false
                /\ (7 # 10) - roundingMargin
                   <= matchedSimilarity (ContentBased.itemOfExam e)
                        preferences)
          /\ (forall e,
                hasEmptyFacet (ContentBased.itemOfExam e) = false ->
                (7 # 10) + roundingMargin
                <= matchedSimilarity (ContentBased.itemOfExam e)
                     preferences ->
                keep e = true))
  /\ (forall preferences pool,
        exists keep : Opportunity.t -> bool,
          map Rec.entity_id
            (ContentBased.scoreOpportunities user preferences pool)
          = map Opportunity._id (filter keep pool)
          /\ (forall o,
                keep o = true ->
                hasEmptyFacet (ContentBased.itemOfOpportunity o) = false
                /\ (7 # 10) - roundingMargin
                   <= matchedSimilarity (ContentBased.itemOfOpportunity o)
                        preferences)
          /\ (forall o,
                hasEmptyFacet (ContentBased.itemOfOpportunity o) = false ->
                (7 # 10) + roundingMargin
                <= matchedSimilarity (ContentBased.itemOfOpportunity o)
                     preferences ->
                keep o = true))
  /\ (forall preferences pool r,
        In r (ContentBased.scoreExams user preferences pool) ->
        exists q, Rec.score r = Fin q /\ 7 # 10 < q /\ q <= 1)
  /\ (forall preferences pool r,
        In r (ContentBased.scoreOpportunities user preferences pool) ->
        exists q, Rec.score r = Fin q /\ 7 # 10 < q /\ q <= 1).
Proof.
  split; [|split; [|split; [|split; [|split]]]].
  - intros preferences item H.
    destruct (calculateContentSimilarity_value item preferences H)
      as [q [E V]].
    exists q. split; [exact E|].
    destruct (calculateContentSimilarity_range item preferences) as [N|B];
      [congruence|].
    rewrite E in B. simpl in B. unfold roundingMargin.
    rewrite <- V. repeat split; try tauto; lra.
  - intros preferences item. apply similarity_no_facet.
  - intros preferences pool.
    exists (fun e => aboveThreshold (ContentBased.itemOfExam e) preferences).
    split; [|split].
    + rewrite content_scoreExams_flat_map.
      rewrite (flat_map_ext _
                 (fun e =>
                    if aboveThreshold (ContentBased.itemOfExam e) preferences
                    then [ContentBased.examRec user preferences e] else [])).
      * rewrite flat_map_if, map_map. reflexivity.
      * intros e. unfold ContentBased.examStep.
        now rewrite similarity_gt_iff.
    + intros e. apply aboveThreshold_margins.
    + intros e. apply aboveThreshold_margins.
  - intros preferences pool.
    exists (fun o =>
              aboveThreshold (ContentBased.itemOfOpportunity o) preferences).
    split; [|split].
    + rewrite content_scoreOpportunities_flat_map.
      rewrite (flat_map_ext _
                 (fun o =>
                    if aboveThreshold (ContentBased.itemOfOpportunity o)
                         preferences
                    then [ContentBased.oppRec user preferences o] else [])).
      * rewrite flat_map_if, map_map. reflexivity.
      * intros o. unfold ContentBased.oppStep.
        now rewrite similarity_gt_iff.
    + intros o. apply aboveThreshold_margins.
    + intros o. apply aboveThreshold_margins.
  - intros preferences pool r I.
    rewrite content_scoreExams_flat_map in I. apply in_flat_map in I.
    destruct I as [e [_ I]]. unfold ContentBased.examStep in I.
    destruct (gt _ _) eqn:G; [|destruct I]. destruct I as [<- | []].
    now apply content_similarity_above.
  - intros preferences pool r I.
    rewrite content_scoreOpportunities_flat_map in I.
    apply in_flat_map in I.
    destruct I as [o [_ I]]. unfold ContentBased.oppStep in I.
    destruct (gt _ _) eqn:G; [|destruct I]. destruct I as [<- | []].
    now apply content_similarity_above.
Qed.

Lemma content_similarity_is_weighted_average_witness :
  exists q,
    ContentBased.calculateContentSimilarity
      (ContentBased.itemOfOpportunity Sample.sprint) Sample.goPrefs = Fin q
    /\ matchedSimilarity (ContentBased.itemOfOpportunity Sample.sprint)
         Sample.goPrefs - roundingMargin <= q
    /\ q <= matchedSimilarity (ContentBased.itemOfOpportunity Sample.sprint)
              Sample.goPrefs + roundingMargin
    /\ 0 <= q /\ q <= 1.
Proof.
  apply (content_similarity_is_weighted_average Sample.dev).
  reflexivity.
Defined.

(** C7 as stated fails: the opportunity has a company and an organizer
    that match no preference; the code leaves them out of the weights and
    finds 0.8, recommending it; with their weights counted, as the claim
    has it, the similarity would be 4/7, below the threshold. *)
Lemma unmatched_names_carry_no_weight :
  ContentBased.analyzeUserPreferences Sample.market Sample.dev
  = Sample.goPrefs
  /\ ContentBased.calculateContentSimilarity
       (ContentBased.itemOfOpportunity Sample.sprint) Sample.goPrefs
     = Fin (4 # 5)
  /\ claimedSimilarity
       (ContentBased.itemOfOpportunity Sample.sprint) Sample.goPrefs
     == 4 # 7
  /\ ~ (4 # 5 == claimedSimilarity
                   (ContentBased.itemOfOpportunity Sample.sprint)
                   Sample.goPrefs)
  /\ map Rec.entity_id
       (ContentBased.generateContentBasedRecommendations Sample.market 0
          Sample.dev) = ["o2"%string]
  /\ ~ (7 # 10 < claimedSimilarity
                   (ContentBased.itemOfOpportunity Sample.sprint)
                   Sample.goPrefs).
Proof.
  split; [reflexivity|]. split; [reflexivity|].
  split; [reflexivity|]. split; [discriminate|].
  split; [reflexivity|]. discriminate.
Qed.

Lemma empty_facet_is_never_recommended_witness :
  hasEmptyFacet (ContentBased.itemOfOpportunity Sample.noDomain) = true
  /\ ContentBased.calculateContentSimilarity
       (ContentBased.itemOfOpportunity Sample.noDomain) Sample.goPrefs = NaN
  /\ gt (ContentBased.calculateContentSimilarity
           (ContentBased.itemOfOpportunity Sample.noDomain) Sample.goPrefs)
        (Fin (7 # 10)) = false.
Proof.
  split; [reflexivity|].
  apply (empty_facet_is_never_recommended Sample.dev Sample.goPrefs).
  reflexivity.
Defined.

(** ** The hybrid merge *)

Lemma append_inj_r (p a b : string) :
  (p ++ a)%string = (p ++ b)%string -> a = b.
Proof.
  induction p as [|c p IH]; simpl; [auto|]. intros [= H]. auto.
Qed.

Lemma recKey_inj (a b : Rec.t) :
  recKey a = recKey b
  <-> Rec.entity_type a = Rec.entity_type b
      /\ Rec.entity_id a = Rec.entity_id b.
Proof.
  unfold recKey. split.
  - destruct (Rec.entity_type a), (Rec.entity_type b); simpl; intros H;
      try discriminate.
    + split; [reflexivity|]. now injection H.
    + split; [reflexivity|]. now injection H.
  - intros [-> ->]. reflexivity.
Qed.

Lemma filter_filter {A : Type} (f g : A -> bool) (l : list A) :
  filter f (filter g l) = filter (fun x => g x && f x) l.
Proof.
  induction l as [|a l IH]; simpl; [reflexivity|].
  destruct (g a); simpl; [destruct (f a); simpl; now rewrite IH|exact IH].
Qed.

(** *** Ordered maps *)

Section OrderedMapFacts.

Context {V : Type}.
Implicit Types (m : omap V) (key k : string).

Lemma om_has_keys m key :
  om_has m key = existsb (fun k => String.eqb k key) (map fst m).
Proof.
  unfold om_has. induction m as [|[k v] m IH]; simpl; [reflexivity|].
  now rewrite IH.
Qed.

Lemma om_has_get m key :
  om_has m key = match om_get m key with Some _ => true | None => false end.
Proof.
  unfold om_has, om_get. induction m as [|[k0 v] m IH]; simpl;
    [reflexivity|].
  destruct (String.eqb k0 key); simpl; [reflexivity|exact IH].
Qed.

Lemma om_modify_keys m key f : map fst (om_modify m key f) = map fst m.
Proof.
  induction m as [|[k v] m IH]; simpl; [reflexivity|].
  destruct (String.eqb k key); simpl; [reflexivity|]. now rewrite IH.
Qed.

Lemma om_set_new m key v :
  om_has m key = false -> om_set m key v = push m (key, v).
Proof. unfold om_set. now intros ->. Qed.

Lemma om_get_push m key v k :
  om_get (push m (key, v)) k
  = match om_get m k with
    | Some e => Some e
    | None => if String.eqb key k then Some v else None
    end.
Proof.
  unfold om_get, push. induction m as [|[k0 v0] m IH]; simpl.
  - destruct (String.eqb key k); reflexivity.
  - destruct (String.eqb k0 k); simpl; [reflexivity|exact IH].
Qed.

Lemma om_get_modify m key f k :
  om_get (om_modify m key f) k
  = if String.eqb key k then option_map f (om_get m k) else om_get m k.
Proof.
  unfold om_get. induction m as [|[k0 v] m IH]; simpl.
  - destruct (String.eqb key k); reflexivity.
  - destruct (String.eqb_spec k0 key) as [->|N0]; simpl.
    + destruct (String.eqb key k); reflexivity.
    + destruct (String.eqb_spec k0 k) as [->|N1]; simpl.
      * destruct (String.eqb_spec key k) as [->|_]; [congruence|].
        reflexivity.
      * exact IH.
Qed.

Lemma om_modify_Forall (P : V -> Prop) m key f :
  (forall v, P v -> P (f v)) ->
  Forall P (map snd m) -> Forall P (map snd (om_modify m key f)).
Proof.
  intros Hf F. induction m as [|[k v] m IH]; simpl; [constructor|].
  simpl in F. inversion F as [|? ? Fv Fm]; subst.
  destruct (String.eqb k key); simpl.
  - constructor; [now apply Hf|exact Fm].
  - constructor; [exact Fv|now apply IH].
Qed.

Lemma om_get_In m key v : om_get m key = Some v -> In (key, v) m.
Proof.
  unfold om_get. induction m as [|[k0 v0] m IH]; simpl; [discriminate|].
  destruct (String.eqb_spec k0 key) as [->|N]; simpl.
  - intros [= ->]. now left.
  - intros H. right. now apply IH.
Qed.

Lemma om_In_get m key v :
  NoDup (map fst m) -> In (key, v) m -> om_get m key = Some v.
Proof.
  unfold om_get. induction m as [|[k0 v0] m IH]; simpl; [contradiction|].
  intros ND [[= -> ->]|H].
  - now rewrite String.eqb_refl.
  - inversion ND as [|? ? Nin ND']; subst.
    destruct (String.eqb_spec k0 key) as [->|N].
    + exfalso. apply Nin. apply (in_map fst) in H. exact H.
    + now apply IH.
Qed.

(** the keys after a loop whose body adds the key of its element when
    the key is new and never removes one *)
Lemma fold_step_keys {X : Type} (step : omap V -> X -> omap V)
  (keyOf : X -> string) :
  (forall m x,
     map fst (step m x)
     = if om_has m (keyOf x) then map fst m
       else map fst m ++ [keyOf x]) ->
  forall l m,
    map fst (fold_left step l m)
    = map fst m ++ filter (unseen (map fst m)) (firstSeen (map keyOf l)).
Proof.
  intros Hs. induction l as [|r l IH]; intros m; simpl.
  - now rewrite app_nil_r.
  - rewrite IH, Hs, om_has_keys. unfold unseen at 2.
    destruct (existsb (fun k' => String.eqb k' (keyOf r)) (map fst m))
      eqn:E; simpl.
    + f_equal. rewrite filter_filter. apply filter_ext_in. intros k _.
      unfold unseen.
      destruct (String.eqb_spec k (keyOf r)) as [->|N]; simpl.
      * now rewrite E.
      * reflexivity.
    + rewrite <- app_assoc. simpl. f_equal. f_equal.
      rewrite filter_filter. apply filter_ext_in. intros k _.
      unfold unseen. rewrite existsb_app. simpl. rewrite orb_false_r.
      rewrite negb_orb. rewrite (String.eqb_sym (keyOf r) k).
      apply andb_comm.
Qed.

End OrderedMapFacts.

Lemma unseen_nil l : filter (unseen []) l = l.
Proof.
  induction l as [|a l IH]; simpl; [reflexivity|]. now rewrite IH.
Qed.

Lemma firstSeen_In l k : In k (firstSeen l) <-> In k l.
Proof.
  induction l as [|a l IH]; simpl; [reflexivity|].
  rewrite filter_In, IH. split.
  - intros [H|[H _]]; auto.
  - intros [H|H]; [now left|].
    destruct (String.eqb_spec k a) as [->|N]; [now left|right].
    split; [exact H|reflexivity].
Qed.

Lemma firstSeen_NoDup l : NoDup (firstSeen l).
Proof.
  induction l as [|a l IH]; simpl; constructor.
  - rewrite filter_In. intros [_ H]. now rewrite String.eqb_refl in H.
  - now apply NoDup_filter.
Qed.

Lemma mergeStep_keys m rec :
  map fst (mergeStep m rec)
  = if om_has m (recKey rec) then map fst m
    else map fst m ++ [recKey rec].
Proof.
  unfold mergeStep. destruct (om_has m (recKey rec)) eqn:H; simpl.
  - apply om_modify_keys.
  - rewrite (om_set_new _ _ _ H). unfold push. now rewrite map_app.
Qed.

Lemma mergeAll_keys l :
  map fst (mergeAll l) = firstSeen (map recKey l).
Proof.
  unfold mergeAll. rewrite (fold_step_keys _ _ mergeStep_keys). simpl.
  apply unseen_nil.
Qed.

Lemma om_get_mergeStep m rec k :
  om_get (mergeStep m rec) k
  = if String.eqb (recKey rec) k
    then match om_get m k with
         | Some e => Some (average e rec)
         | None => Some rec
         end
    else om_get m k.
Proof.
  unfold mergeStep. destruct (om_has m (recKey rec)) eqn:H; simpl.
  - rewrite om_get_modify. rewrite om_has_get in H.
    destruct (String.eqb_spec (recKey rec) k) as [<-|N]; [|reflexivity].
    destruct (om_get m (recKey rec)); [reflexivity|discriminate].
  - rewrite (om_set_new _ _ _ H), om_get_push. rewrite om_has_get in H.
    destruct (String.eqb_spec (recKey rec) k) as [<-|N].
    + destruct (om_get m (recKey rec)); [discriminate|reflexivity].
    + destruct (om_get m k); reflexivity.
Qed.

Lemma fold_mergeStep_get l : forall m k,
  om_get (fold_left mergeStep l m) k
  = match om_get m k with
    | Some e => Some (fold_left average (occurrences k l) e)
    | None => merged (occurrences k l)
    end.
Proof.
  induction l as [|r l IH]; intros m k; simpl.
  - destruct (om_get m k); reflexivity.
  - rewrite IH, om_get_mergeStep.
    destruct (String.eqb (recKey r) k); simpl.
    + destruct (om_get m k); reflexivity.
    + reflexivity.
Qed.

Lemma mergeAll_get l k :
  om_get (mergeAll l) k = merged (occurrences k l).
Proof. unfold mergeAll. now rewrite fold_mergeStep_get. Qed.

(** the mean of two finite scores *)
Lemma average_score existing rec a b :
  Rec.score existing = Fin a ->
  Rec.score rec = Fin b ->
  exists m, Rec.score (average existing rec) = Fin m /\ m == (a + b) / 2.
Proof.
  intros A B. unfold average. cbn [Rec.score]. rewrite A, B.
  cbn [add div]. change (Qeq_bool 2 0) with false. cbn iota.
  eexists. split; [reflexivity|].
  rewrite !Qred_correct. reflexivity.
Qed.

Lemma average_finite existing rec :
  finiteScore existing -> finiteScore rec ->
  finiteScore (average existing rec).
Proof.
  unfold finiteScore. destruct (Rec.score existing) eqn:A; try contradiction.
  destruct (Rec.score rec) eqn:B; try contradiction. intros _ _.
  destruct (average_score _ _ _ _ A B) as [m [E _]]. now rewrite E.
Qed.

Lemma mergeAll_finite l :
  Forall finiteScore l -> Forall finiteScore (map snd (mergeAll l)).
Proof.
  unfold mergeAll.
  assert (G : forall m, Forall finiteScore (map snd m) ->
                        Forall finiteScore l ->
                        Forall finiteScore (map snd (fold_left mergeStep l m))).
  { induction l as [|r l IH]; intros m Fm Fl; simpl; [exact Fm|].
    inversion Fl as [|? ? Fr Fl']; subst. apply IH; [|exact Fl'].
    unfold mergeStep. destruct (om_has m (recKey r)) eqn:H; simpl.
    - apply om_modify_Forall; [|exact Fm].
      intros v Fv. now apply average_finite.
    - rewrite (om_set_new _ _ _ H). unfold push. rewrite map_app.
      apply Forall_app. split; [exact Fm|].
      simpl. constructor; [exact Fr|constructor]. }
  intros F. apply G; [constructor|exact F].
Qed.

(** *** The sort *)

Lemma byScoreDesc_gt x y :
  finiteScore x -> finiteScore y ->
  (gt (byScoreDesc x y) (Fin 0) = true <-> scoreQ x < scoreQ y).
Proof.
  unfold finiteScore, byScoreDesc, scoreQ.
  destruct (Rec.score x) as [a| | |]; try contradiction.
  destruct (Rec.score y) as [b| | |]; try contradiction. intros _ _.
  unfold sub, neg. cbn [add]. rewrite gt_Fin, !Qred_correct. split; lra.
Qed.

Lemma sort_insert_perm cmp x l : Permutation (sort_insert cmp x l) (x :: l).
Proof.
  induction l as [|y ys IH]; simpl; [reflexivity|].
  destruct (gt (cmp x y) (Fin 0)); [|reflexivity].
  rewrite IH. apply perm_swap.
Qed.

Lemma sort_perm cmp l : Permutation (sort cmp l) l.
Proof.
  induction l as [|x l IH]; simpl; [reflexivity|].
  rewrite sort_insert_perm. now constructor.
Qed.

Lemma sort_finite cmp l :
  Forall finiteScore l -> Forall finiteScore (sort cmp l).
Proof.
  intros F. eapply Permutation_Forall; [|exact F].
  symmetry. apply sort_perm.
Qed.

Lemma sort_insert_sorted x l :
  finiteScore x -> Forall finiteScore l ->
  StronglySorted scoreGe l ->
  StronglySorted scoreGe (sort_insert byScoreDesc x l).
Proof.
  intros Fx Fl S. induction S as [|y ys S IH Hy]; simpl.
  - repeat constructor.
  - inversion Fl as [|? ? Fy Fys]; subst.
    destruct (gt (byScoreDesc x y) (Fin 0)) eqn:G.
    + apply (byScoreDesc_gt x y Fx Fy) in G.
      constructor; [now apply IH|].
      eapply Permutation_Forall;
        [symmetry; apply sort_insert_perm|].
      constructor; [|exact Hy]. unfold scoreGe. now apply Qlt_le_weak.
    + assert (N : ~ scoreQ x < scoreQ y).
      { rewrite <- (byScoreDesc_gt x y Fx Fy). congruence. }
      apply Qnot_lt_le in N.
      constructor; [now constructor|].
      constructor; [exact N|].
      eapply Forall_impl; [|exact Hy]. unfold scoreGe. intros z Hz.
      eapply Qle_trans; eauto.
Qed.

Lemma sort_sorted l :
  Forall finiteScore l -> StronglySorted scoreGe (sort byScoreDesc l).
Proof.
  induction l as [|x l IH]; intros F; simpl; [constructor|].
  inversion F as [|? ? Fx Fl]; subst.
  apply sort_insert_sorted; auto. now apply sort_finite.
Qed.

Lemma sort_insert_stable q x l :
  finiteScore x -> Forall finiteScore l ->
  filter (hasScore q) (sort_insert byScoreDesc x l)
  = filter (hasScore q) (x :: l).
Proof.
  intros Fx Fl. induction l as [|y ys IH]; [reflexivity|].
  inversion Fl as [|? ? Fy Fys]; subst. cbn [sort_insert].
  destruct (gt (byScoreDesc x y) (Fin 0)) eqn:G; [|reflexivity].
  apply (byScoreDesc_gt x y Fx Fy) in G.
  cbn [filter]. rewrite (IH Fys). cbn [filter].
  destruct (hasScore q x) eqn:Hx, (hasScore q y) eqn:Hy; try reflexivity.
  unfold hasScore in *. apply Qeq_bool_eq in Hx, Hy.
  rewrite Hx, Hy in G. exfalso. apply (Qlt_irrefl _ G).
Qed.

Lemma sort_stable q l :
  Forall finiteScore l ->
  filter (hasScore q) (sort byScoreDesc l) = filter (hasScore q) l.
Proof.
  induction l as [|x l IH]; intros F; [reflexivity|].
  inversion F as [|? ? Fx Fl]; subst. cbn [sort fold_right].
  change (fold_right (sort_insert byScoreDesc) [] l)
    with (sort byScoreDesc l).
  rewrite sort_insert_stable; [|exact Fx|now apply sort_finite].
  cbn [filter]. now rewrite (IH Fl).
Qed.

(** C5: the merge keys the records by entity type and entity id; the keys
    of the [Map] are the keys of the input, each once, in the order of
    their first occurrence; the entry of a key is its first occurrence,
    averaged in turn with every later occurrence, where averaging replaces
    the score by the mean of the two scores, appends the incoming reasons
    and sets the algorithm to hybrid (a key met once keeps its record as it
    is); the entries are then sorted by descending score, entries of equal
    score keeping their order, and cut to the first 50. *)
Theorem hybrid_merge_specification (allRecommendations : list Rec.t) :
  Forall finiteScore allRecommendations ->
  (forall a b,
     recKey a = recKey b
     <-> Rec.entity_type a = Rec.entity_type b
         /\ Rec.entity_id a = Rec.entity_id b)
  /\ map fst (mergeAll allRecommendations)
     = firstSeen (map recKey allRecommendations)
  /\ (forall k,
        om_get (mergeAll allRecommendations) k
        = merged (occurrences k allRecommendations))
  /\ (forall existing rec,
        Rec.algorithm_used (average existing rec) = hybrid
        /\ Rec.recommendation_reasons (average existing rec)
           = Rec.recommendation_reasons existing
             ++ Rec.recommendation_reasons rec
        /\ recKey (average existing rec) = recKey existing
        /\ forall a b,
             Rec.score existing = Fin a ->
             Rec.score rec = Fin b ->
             exists m, Rec.score (average existing rec) = Fin m
                       /\ m == (a + b) / 2)
  /\ Permutation
       (sort byScoreDesc (map snd (mergeAll allRecommendations)))
       (map snd (mergeAll allRecommendations))
  /\ StronglySorted scoreGe
       (sort byScoreDesc (map snd (mergeAll allRecommendations)))
  /\ (forall q,
        filter (hasScore q)
          (sort byScoreDesc (map snd (mergeAll allRecommendations)))
        = filter (hasScore q) (map snd (mergeAll allRecommendations)))
  /\ hybridMerge allRecommendations
     = firstn 50 (sort byScoreDesc (map snd (mergeAll allRecommendations)))
  /\ (List.length (hybridMerge allRecommendations) <= 50)%nat.
Proof.
  intros F. pose proof (mergeAll_finite _ F) as Fm.
  split; [apply recKey_inj|].
  split; [apply mergeAll_keys|].
  split; [apply mergeAll_get|].
  split.
  { intros existing rec. split; [reflexivity|]. split; [reflexivity|].
    split; [reflexivity|]. intros a b. apply average_score. }
  split; [apply sort_perm|].
  split; [now apply sort_sorted|].
  split; [intros q; now apply sort_stable|].
  split; [reflexivity|].
  unfold hybridMerge. apply firstn_le_length.
Qed.

(** two lists with the same examination at 0.8 and at 0.6 merge into one
    hybrid entry at 0.7 *)
Lemma hybrid_merge_specification_witness :
  hybridMerge ([Sample.e1Rule] ++ [Sample.e1Collab])
  = [Rec.mk "u1" exam "E1" "Exam" (Fin (7 # 10)) hybrid
       (mkReason "Matches your Science stream" (3 # 10)
        :: collaborativeReasons)]
  /\ map fst (mergeAll ([Sample.e1Rule] ++ [Sample.e1Collab]))
     = firstSeen (map recKey ([Sample.e1Rule] ++ [Sample.e1Collab])).
Proof.
  split; [reflexivity|].
  apply (hybrid_merge_specification ([Sample.e1Rule] ++ [Sample.e1Collab])).
  repeat constructor.
Defined.

(** ** The collaborative generator *)

Lemma fold_left_flat_map {A B C : Type} (f : A -> C -> A) (g : B -> list C)
  (l : list B) : forall a,
  fold_left (fun acc x => fold_left f (g x) acc) l a
  = fold_left f (flat_map g l) a.
Proof.
  induction l as [|x l IH]; intros a; simpl; [reflexivity|].
  now rewrite fold_left_app, IH.
Qed.

Section Tally.

Context {D : Type} (idOf : D -> ObjectId).

Lemma tally_keys (tbl : Table D) (doc : D) :
  map fst (tally idOf tbl doc)
  = if om_has tbl (idOf doc) then map fst tbl
    else map fst tbl ++ [idOf doc].
Proof.
  unfold tally. rewrite om_modify_keys.
  destruct (om_has tbl (idOf doc)) eqn:H; simpl; [reflexivity|].
  rewrite (om_set_new _ _ _ H). unfold push. now rewrite map_app.
Qed.

Lemma tally_get (tbl : Table D) (doc : D) (k : string) :
  om_get (tally idOf tbl doc) k
  = if String.eqb (idOf doc) k
    then match om_get tbl k with
         | Some e => Some (S (fst e), snd e)
         | None => Some (1%nat, doc)
         end
    else om_get tbl k.
Proof.
  unfold tally. rewrite om_get_modify.
  destruct (om_has tbl (idOf doc)) eqn:H; simpl.
  - rewrite om_has_get in H.
    destruct (String.eqb_spec (idOf doc) k) as [<-|N]; [|reflexivity].
    destruct (om_get tbl (idOf doc)); [reflexivity|discriminate].
  - rewrite (om_set_new _ _ _ H), om_get_push. rewrite om_has_get in H.
    destruct (String.eqb_spec (idOf doc) k) as [<-|N].
    + destruct (om_get tbl (idOf doc)); [discriminate|reflexivity].
    + destruct (om_get tbl k); reflexivity.
Qed.

Lemma occ_cons_eq k ids : occ k (k :: ids) = S (occ k ids).
Proof. unfold occ. simpl. now rewrite String.eqb_refl. Qed.

Lemma occ_cons_neq k k' ids : k' <> k -> occ k (k' :: ids) = occ k ids.
Proof.
  intros N. unfold occ. simpl.
  destruct (String.eqb_spec k k'); [congruence|reflexivity].
Qed.

Lemma fold_tally_get (docs : list D) : forall (tbl : Table D) k,
  om_get (fold_left (tally idOf) docs tbl) k
  = match om_get tbl k with
    | Some e => Some ((fst e + occ k (map idOf docs))%nat, snd e)
    | None =>
        match find (fun d => String.eqb (idOf d) k) docs with
        | Some d => Some (occ k (map idOf docs), d)
        | None => None
        end
    end.
Proof.
  induction docs as [|r docs IH]; intros tbl k; simpl.
  - destruct (om_get tbl k) as [[c d]|]; [|reflexivity].
    simpl. unfold occ. simpl. now rewrite Nat.add_0_r.
  - rewrite IH, tally_get.
    destruct (String.eqb_spec (idOf r) k) as [<-|N].
    + rewrite occ_cons_eq.
      destruct (om_get tbl (idOf r)) as [[c d]|]; simpl.
      * f_equal. f_equal. lia.
      * reflexivity.
    + rewrite (occ_cons_neq _ _ _ N). reflexivity.
Qed.

Lemma fold_tally_keys (docs : list D) :
  map fst (fold_left (tally idOf) docs []) = firstSeen (map idOf docs).
Proof.
  rewrite (fold_step_keys _ _ tally_keys). simpl. apply unseen_nil.
Qed.

(** every entry of the table is a visited document under its own id,
    with the number of times the id was visited *)
Lemma fold_tally_entries (docs : list D) :
  Forall (fun entry =>
            idOf (snd (snd entry)) = fst entry
            /\ fst (snd entry) = occ (fst entry) (map idOf docs))
         (fold_left (tally idOf) docs []).
Proof.
  apply Forall_forall. intros [k [c d]] Hin. simpl.
  assert (ND : NoDup (map fst (fold_left (tally idOf) docs []))).
  { rewrite fold_tally_keys. apply firstSeen_NoDup. }
  pose proof (om_In_get _ _ _ ND Hin) as G.
  rewrite fold_tally_get in G. simpl in G.
  destruct (find (fun d0 => String.eqb (idOf d0) k) docs) as [d0|] eqn:F;
    [|discriminate].
  injection G as <- <-. apply find_some in F. destruct F as [_ F].
  apply String.eqb_eq in F. auto.
Qed.

End Tally.

Lemma populate_In {D : Type} (idOf : D -> ObjectId) (coll : list D)
  (ids : list ObjectId) (d : D) :
  In d (populate idOf coll ids) -> In (idOf d) ids /\ In d coll.
Proof.
  unfold populate. rewrite in_flat_map. intros [id [Hid H]].
  destruct (find (fun d0 => String.eqb (idOf d0) id) coll) as [d0|] eqn:F;
    [|contradiction].
  destruct H as [<-|[]]. apply find_some in F. destruct F as [Hc E].
  apply String.eqb_eq in E. subst id. auto.
Qed.

Lemma oid_includes_In ids x : oid_includes ids x = true <-> In x ids.
Proof.
  unfold oid_includes. rewrite existsb_exists. split.
  - intros [y [Hy E]]. apply String.eqb_eq in E. now subst.
  - intros H. exists x. split; [exact H|apply String.eqb_refl].
Qed.

Lemma str_includes_In arr x : str_includes arr x = true <-> In x arr.
Proof. apply oid_includes_In. Qed.

Lemma filter_none {A : Type} (f : A -> bool) (l : list A) :
  (forall a, In a l -> f a = false) -> filter f l = [].
Proof.
  induction l as [|a l IH]; intros H; simpl; [reflexivity|].
  rewrite (H a (or_introl eq_refl)). apply IH. intros b Hb.
  apply H. now right.
Qed.

Lemma firstn_In {A : Type} (x : A) (n : nat) (l : list A) :
  In x (firstn n l) -> In x l.
Proof.
  revert n. induction l as [|a l IH]; intros [|n]; simpl; try contradiction.
  intros [H|H]; [now left|right; eauto].
Qed.

(** a second query by the ids of the first page of a query returns that
    page, when ids identify documents *)
Lemma refetch_by_id {A : Type} (idOf : A -> ObjectId) (P : A -> bool)
  (l : list A) :
  NoDup (map idOf l) ->
  forall n,
    filter (fun u => oid_includes (map idOf (firstn n (filter P l))) (idOf u))
           l
    = firstn n (filter P l).
Proof.
  induction l as [|a l IH]; intros ND n; [now destruct n|].
  inversion ND as [|? ? Nin ND']; subst. cbn [filter].
  destruct (P a) eqn:Pa.
  - destruct n as [|n]; cbn [firstn map].
    + apply filter_none. reflexivity.
    + cbn [filter oid_includes existsb]. rewrite String.eqb_refl.
      cbn [orb]. f_equal. etransitivity; [|apply (IH ND' n)].
      apply filter_ext_in. intros u Hu. unfold oid_includes.
      destruct (String.eqb_spec (idOf u) (idOf a)) as [E|_]; [|reflexivity].
      exfalso. apply Nin. rewrite <- E. now apply in_map.
  - cbn [filter].
    destruct (oid_includes (map idOf (firstn n (filter P l))) (idOf a))
      eqn:E.
    + exfalso. apply oid_includes_In in E. apply Nin.
      apply in_map_iff in E. destruct E as [u [Eu Hu]].
      apply firstn_In in Hu. apply filter_In in Hu. destruct Hu as [Hu _].
      rewrite <- Eu. now apply in_map.
    + now apply IH.
Qed.

Lemma similarUsersOf_filter db user :
  similarUsersOf db user
  = firstn 20
      (filter (fun u =>
                 (existsb (str_includes (User.interests user))
                    (User.interests u)
                  && User.is_active u)
                 && negb (String.eqb (User._id u) (User._id user)))
              (users db)).
Proof.
  unfold similarUsersOf, findByInterests. now rewrite filter_filter.
Qed.

Lemma similarUsersDataOf_same db user :
  NoDup (map User._id (users db)) ->
  similarUsersDataOf db (similarUsersOf db user) = similarUsersOf db user.
Proof.
  intros ND. unfold similarUsersDataOf. rewrite similarUsersOf_filter.
  now apply refetch_by_id.
Qed.

Lemma similarUsersOf_length db user :
  (List.length (similarUsersOf db user) <= 20)%nat.
Proof. unfold similarUsersOf. apply firstn_le_length. Qed.

Lemma similarUsersOf_In db user u :
  In u (similarUsersOf db user) ->
  In u (users db)
  /\ User.is_active u = true
  /\ User._id u <> User._id user
  /\ sharesInterest user u.
Proof.
  rewrite similarUsersOf_filter. intros H. apply firstn_In in H.
  apply filter_In in H. destruct H as [Hu H].
  apply andb_true_iff in H. destruct H as [H Hne].
  apply andb_true_iff in H. destruct H as [Hi Ha].
  split; [exact Hu|]. split; [exact Ha|]. split.
  - apply negb_true_iff in Hne. intros E.
    rewrite E, String.eqb_refl in Hne. discriminate.
  - apply existsb_exists in Hi. destruct Hi as [i [Hiu Hin]].
    apply str_includes_In in Hin. exists i. auto.
Qed.

Lemma collabExamStep_push user n acc entry :
  collabExamStep user n acc entry = acc ++ collabExamStep user n [] entry.
Proof.
  unfold collabExamStep, push. destruct entry as [k [c e]].
  destruct (_ && _); [reflexivity|now rewrite app_nil_r].
Qed.

Lemma collabOppStep_push incl user n acc entry :
  collabOppStep incl user n acc entry
  = acc ++ collabOppStep incl user n [] entry.
Proof.
  unfold collabOppStep, push. destruct entry as [k [c o]].
  destruct (_ && _); [reflexivity|now rewrite app_nil_r].
Qed.

Lemma collab_exam_output user n ids (T : Table Exam.t) :
  Forall (fun entry =>
            Exam._id (snd (snd entry)) = fst entry
            /\ fst (snd entry) = occ (fst entry) ids) T ->
  fold_left (collabExamStep user n) T []
  = map (collabRec user exam "Exam" n ids)
      (filter (fun id =>
                 (2 <=? occ id ids)%nat
                 && negb (oid_includes (User.saved_exams user) id))
              (map fst T)).
Proof.
  intros F.
  rewrite (fold_left_push_flat_map _ _ (collabExamStep_push user n)).
  simpl. induction F as [|[k [c e]] T [Hid Hc] F IH]; simpl; [reflexivity|].
  simpl in Hid, Hc. subst k c. rewrite IH.
  destruct (_ && _); reflexivity.
Qed.

Lemma collab_opp_output incl user n ids (T : Table Opportunity.t) :
  Forall (fun entry =>
            Opportunity._id (snd (snd entry)) = fst entry
            /\ fst (snd entry) = occ (fst entry) ids) T ->
  fold_left (collabOppStep incl user n) T []
  = map (collabRec user opportunity "Opportunity" n ids)
      (filter (fun id =>
                 (2 <=? occ id ids)%nat
                 && negb (incl (User.saved_hackathons user
                                ++ User.saved_internships user) id))
              (map fst T)).
Proof.
  intros F.
  rewrite (fold_left_push_flat_map _ _ (collabOppStep_push incl user n)).
  simpl. induction F as [|[k [c o]] T [Hid Hc] F IH]; simpl; [reflexivity|].
  simpl in Hid, Hc. subst k c. rewrite IH.
  destruct (_ && _); reflexivity.
Qed.

Lemma visited_exam_saved db neighbors id :
  In id (visitedExamIds db neighbors) ->
  exists u, In u neighbors /\ In id (User.saved_exams u).
Proof.
  unfold visitedExamIds. rewrite in_map_iff. intros [e [<- He]].
  apply in_flat_map in He. destruct He as [u [Hu He]].
  apply populate_In in He. exists u. tauto.
Qed.

Lemma visited_opp_saved db neighbors id :
  In id (visitedOppIds db neighbors) ->
  exists u, In u neighbors
            /\ In id (User.saved_hackathons u ++ User.saved_internships u).
Proof.
  unfold visitedOppIds. rewrite in_map_iff. intros [o [<- Ho]].
  apply in_flat_map in Ho. destruct Ho as [u [Hu Ho]].
  exists u. split; [exact Hu|]. unfold neighborOpps in Ho.
  apply in_app_iff. apply in_app_iff in Ho.
  destruct Ho as [Ho|Ho]; apply populate_In in Ho; tauto.
Qed.

Lemma collaborative_output plainIncludes db user :
  NoDup (map User._id (users db)) ->
  generateCollaborativeFilteringRecommendations plainIncludes db user
  = match User.role user with
    | school =>
        map (collabRec user exam "Exam"
               (List.length (similarUsersOf db user))
               (visitedExamIds db (similarUsersOf db user)))
          (filter (fun id =>
                     (2 <=? occ id (visitedExamIds db
                                      (similarUsersOf db user)))%nat
                     && negb (oid_includes (User.saved_exams user) id))
                  (firstSeen (visitedExamIds db (similarUsersOf db user))))
    | university =>
        map (collabRec user opportunity "Opportunity"
               (List.length (similarUsersOf db user))
               (visitedOppIds db (similarUsersOf db user)))
          (filter (fun id =>
                     (2 <=? occ id (visitedOppIds db
                                      (similarUsersOf db user)))%nat
                     && negb (plainIncludes
                                (User.saved_hackathons user
                                 ++ User.saved_internships user) id))
                  (firstSeen (visitedOppIds db (similarUsersOf db user))))
    end.
Proof.
  intros ND. unfold generateCollaborativeFilteringRecommendations.
  destruct (List.length (similarUsersOf db user) =? 0)%nat eqn:Z.
  - apply Nat.eqb_eq in Z. apply length_zero_iff_nil in Z. rewrite Z.
    destruct (User.role user); reflexivity.
  - rewrite (similarUsersDataOf_same db user ND).
    destruct (User.role user).
    + unfold popularExamsOf.
      rewrite (fold_left_flat_map (tally Exam._id) (neighborExams db)).
      rewrite (collab_exam_output user _ _ _
                 (fold_tally_entries Exam._id _)).
      now rewrite fold_tally_keys.
    + unfold popularOpportunitiesOf.
      rewrite (fold_left_flat_map (tally Opportunity._id) (neighborOpps db)).
      rewrite (collab_opp_output plainIncludes user _ _ _
                 (fold_tally_entries Opportunity._id _)).
      now rewrite fold_tally_keys.
Qed.

Lemma occ_app id l1 l2 : occ id (l1 ++ l2) = (occ id l1 + occ id l2)%nat.
Proof. unfold occ. now rewrite filter_app, length_app. Qed.

Lemma occ_absent id ids : ~ In id ids -> occ id ids = 0%nat.
Proof.
  intros N. unfold occ. rewrite filter_none; [reflexivity|].
  intros x Hx. destruct (String.eqb_spec id x); [subst; contradiction|].
  reflexivity.
Qed.

Lemma populate_app {D : Type} (idOf : D -> ObjectId) (coll : list D) l1 l2 :
  populate idOf coll (l1 ++ l2)
  = populate idOf coll l1 ++ populate idOf coll l2.
Proof. unfold populate. apply flat_map_app. Qed.

Lemma populate_ids_In {D : Type} (idOf : D -> ObjectId) (coll : list D)
  ids id :
  In id (map idOf (populate idOf coll ids)) -> In id ids.
Proof.
  rewrite in_map_iff. intros [d [<- Hd]]. now apply populate_In in Hd.
Qed.

Lemma find_hasDoc {D : Type} (idOf : D -> ObjectId) (coll : list D) id :
  match find (fun d => String.eqb (idOf d) id) coll with
  | Some d => idOf d = id /\ hasDoc idOf coll id = true
  | None => hasDoc idOf coll id = false
  end.
Proof.
  unfold hasDoc. induction coll as [|d coll IH]; simpl; [reflexivity|].
  destruct (String.eqb_spec (idOf d) id) as [E|N]; simpl; [auto|exact IH].
Qed.

(** an id saved once is visited once if its document exists, never
    otherwise *)
Lemma occ_populate {D : Type} (idOf : D -> ObjectId) (coll : list D)
  ids id :
  NoDup ids ->
  occ id (map idOf (populate idOf coll ids))
  = if oid_includes ids id && hasDoc idOf coll id then 1%nat else 0%nat.
Proof.
  induction ids as [|i ids IH]; intros ND; [reflexivity|].
  inversion ND as [|? ? Nin ND']; subst.
  unfold populate. cbn [flat_map]. fold (populate idOf coll ids).
  rewrite map_app, occ_app, (IH ND').
  cbn [oid_includes existsb].
  pose proof (find_hasDoc idOf coll i) as F.
  destruct (String.eqb_spec id i) as [->|N]; cbn [orb].
  - assert (E : oid_includes ids i = false).
    { destruct (oid_includes ids i) eqn:E; [|reflexivity].
      apply oid_includes_In in E. contradiction. }
    rewrite E. cbn [andb].
    destruct (find (fun d => String.eqb (idOf d) i) coll) as [d|].
    + destruct F as [Fd ->]. cbn [map]. rewrite Fd, occ_cons_eq.
      reflexivity.
    + rewrite F. reflexivity.
  - fold (oid_includes ids id).
    destruct (find (fun d => String.eqb (idOf d) i) coll) as [d|].
    + destruct F as [Fd _]. cbn [map]. rewrite Fd.
      assert (i <> id) by congruence.
      now rewrite (occ_cons_neq _ _ _ H).
    + reflexivity.
Qed.

Lemma occ_visited {D : Type} (idOf : D -> ObjectId) (coll : list D)
  (savedOf : User.t -> list ObjectId) (neighbors : list User.t) id :
  (forall u, In u neighbors -> NoDup (savedOf u)) ->
  occ id (map idOf
            (flat_map (fun u => populate idOf coll (savedOf u)) neighbors))
  = List.length
      (filter (fun u => oid_includes (savedOf u) id && hasDoc idOf coll id)
              neighbors).
Proof.
  induction neighbors as [|u us IH]; intros ND; [reflexivity|].
  cbn [flat_map filter]. rewrite map_app, occ_app.
  rewrite (occ_populate idOf coll (savedOf u) id (ND u (or_introl eq_refl))).
  rewrite IH by (intros v Hv; apply ND; now right).
  destruct (oid_includes (savedOf u) id && hasDoc idOf coll id);
    reflexivity.
Qed.

Lemma occ_visited_exams db neighbors id :
  (forall u, In u neighbors -> NoDup (User.saved_exams u)) ->
  occ id (visitedExamIds db neighbors)
  = List.length (examSavers db id neighbors).
Proof.
  intros ND. unfold visitedExamIds, examSavers, neighborExams.
  now apply (occ_visited Exam._id (exams db) User.saved_exams).
Qed.

Lemma occ_visited_opps db neighbors id :
  (forall u,
     In u neighbors ->
     NoDup (User.saved_hackathons u ++ User.saved_internships u)) ->
  occ id (visitedOppIds db neighbors)
  = List.length (oppSavers db id neighbors).
Proof.
  intros ND. unfold visitedOppIds, oppSavers.
  rewrite <- (occ_visited Opportunity._id (opportunities db)
                (fun u => User.saved_hackathons u ++ User.saved_internships u)
                neighbors id ND).
  f_equal. f_equal. apply flat_map_ext. intros u. unfold neighborOpps.
  now rewrite populate_app.
Qed.

(** C8, as amended: the neighbours are at most 20 active users other than
    the learner who declare one of the learner's interests, and the second
    query returns them again; with no neighbour the result is empty.  An
    offering counts once for every occurrence in the neighbours' saved
    lists, also for two occurrences in the lists of one neighbour; when no
    neighbour holds an offering twice, the occurrences are the neighbours
    that have saved it.  For a school learner the generator emits, in the
    order of their first visit, exactly the exams with at least two
    occurrences that the learner has not saved.  For a university learner
    it emits, in that order, every opportunity with at least two
    occurrences that the learner has not saved and none with fewer than
    two; whether it emits one the learner has saved is left open.  The
    score is min(occurrences / number of neighbours, 1), and every emitted
    offering is in a saved list of some neighbour.  This holds for every
    test on the learner's saved opportunities that is true of saved ids
    only, as the test of the code is. *)
Theorem collaborative_counts_occurrences
  (plainIncludes : list ObjectId -> ObjectId -> bool)
  (db : DB) (user : User.t) :
  NoDup (map User._id (users db)) ->
  (forall ids x, plainIncludes ids x = true -> In x ids) ->
  (List.length (similarUsersOf db user) <= 20)%nat
  /\ (forall u,
        In u (similarUsersOf db user) ->
        In u (users db)
        /\ User.is_active u = true
        /\ User._id u <> User._id user
        /\ sharesInterest user u)
  /\ similarUsersDataOf db (similarUsersOf db user) = similarUsersOf db user
  /\ (similarUsersOf db user = [] ->
      generateCollaborativeFilteringRecommendations plainIncludes db user
      = [])
  /\ match User.role user with
     | school =>
         generateCollaborativeFilteringRecommendations plainIncludes db user
         = map (collabRec user exam "Exam"
                  (List.length (similarUsersOf db user))
                  (visitedExamIds db (similarUsersOf db user)))
             (filter (fun id =>
                        (2 <=? occ id (visitedExamIds db
                                         (similarUsersOf db user)))%nat
                        && negb (oid_includes (User.saved_exams user) id))
                     (firstSeen (visitedExamIds db (similarUsersOf db user))))
     | university =>
         exists keep : ObjectId -> bool,
           generateCollaborativeFilteringRecommendations plainIncludes db
             user
           = map (collabRec user opportunity "Opportunity"
                    (List.length (similarUsersOf db user))
                    (visitedOppIds db (similarUsersOf db user)))
               (filter keep
                  (firstSeen (visitedOppIds db (similarUsersOf db user))))
           /\ (forall id,
                 keep id = true ->
                 (2 <= occ id (visitedOppIds db (similarUsersOf db user)))
                 %nat)
           /\ (forall id,
                 (2 <= occ id (visitedOppIds db (similarUsersOf db user)))
                 %nat ->
                 ~ In id (User.saved_hackathons user
                          ++ User.saved_internships user) ->
                 keep id = true)
     end
  /\ (forall r,
        In r (generateCollaborativeFilteringRecommendations plainIncludes
                db user) ->
        exists u,
          In u (similarUsersOf db user)
          /\ In (Rec.entity_id r)
               (User.saved_exams u ++ User.saved_hackathons u
                ++ User.saved_internships u))
  /\ ((forall u,
         In u (similarUsersOf db user) -> NoDup (User.saved_exams u)) ->
      forall id,
        occ id (visitedExamIds db (similarUsersOf db user))
        = List.length (examSavers db id (similarUsersOf db user)))
  /\ ((forall u,
         In u (similarUsersOf db user) ->
         NoDup (User.saved_hackathons u ++ User.saved_internships u)) ->
      forall id,
        occ id (visitedOppIds db (similarUsersOf db user))
        = List.length (oppSavers db id (similarUsersOf db user))).
Proof.
  intros ND Sound.
  split; [apply similarUsersOf_length|].
  split; [apply similarUsersOf_In|].
  split; [now apply similarUsersDataOf_same|].
  split.
  { intros E. unfold generateCollaborativeFilteringRecommendations.
    now rewrite E. }
  split.
  { pose proof (collaborative_output plainIncludes db user ND) as O.
    destruct (User.role user); [exact O|].
    eexists. split; [exact O|]. split.
    - intros id K. apply andb_true_iff in K. destruct K as [K _].
      now apply Nat.leb_le in K.
    - intros id L N. apply andb_true_iff. split; [now apply Nat.leb_le|].
      apply negb_true_iff.
      destruct (plainIncludes _ id) eqn:P; [|reflexivity].
      exfalso. apply N. now apply Sound. }
  split.
  { intros r. rewrite (collaborative_output plainIncludes db user ND).
    destruct (User.role user); rewrite in_map_iff; intros [id [<- Hid]];
      apply filter_In in Hid; destruct Hid as [Hid _];
      apply (proj1 (firstSeen_In _ _)) in Hid; simpl.
    - destruct (visited_exam_saved _ _ _ Hid) as [u [Hu Hs]].
      exists u. split; [exact Hu|]. apply in_app_iff. now left.
    - destruct (visited_opp_saved _ _ _ Hid) as [u [Hu Hs]].
      exists u. split; [exact Hu|]. apply in_app_iff. now right. }
  split.
  - intros H id. now apply occ_visited_exams.
  - intros H id. now apply occ_visited_opps.
Qed.

Lemma campus_ids_distinct : NoDup (map User._id (users Sample.campus)).
Proof.
  simpl. constructor.
  - simpl. intros [H|[]]. discriminate.
  - constructor; [intros []|constructor].
Qed.

Lemma collaborative_counts_occurrences_witness :
  similarUsersDataOf Sample.campus (similarUsersOf Sample.campus Sample.ada)
  = similarUsersOf Sample.campus Sample.ada
  /\ (List.length (similarUsersOf Sample.campus Sample.ada) <= 20)%nat.
Proof.
  destruct (collaborative_counts_occurrences sameObjectIncludes
              Sample.campus Sample.ada campus_ids_distinct)
    as [L [_ [S _]]].
  - intros ids x H. discriminate.
  - split; [exact S|exact L].
Defined.

(** C8 as stated fails: the only neighbour has saved one opportunity both
    as a hackathon and as an internship; it is counted twice and emitted
    with score 1, although a single neighbour has saved it. *)
Lemma one_neighbor_counted_twice :
  similarUsersOf Sample.campus Sample.ada = [Sample.bob]
  /\ map (fun r => (Rec.entity_id r, Rec.score r))
       (generateCollaborativeFilteringRecommendations sameObjectIncludes
          Sample.campus Sample.ada)
     = [("o1"%string, Fin 1)]
  /\ List.length (saversOf "o1" (similarUsersOf Sample.campus Sample.ada))
     = 1%nat.
Proof. repeat split. Qed.

(** ** The range of the scores *)

Lemma fold_left_push_Forall {A B : Type} (P : B -> Prop)
  (step : list B -> A -> list B) :
  (forall acc a, Forall P acc -> Forall P (step acc a)) ->
  forall l acc, Forall P acc -> Forall P (fold_left step l acc).
Proof.
  intros H l. induction l as [|a l IH]; intros acc F; simpl; auto.
Qed.

Lemma Forall_push {A : Type} (P : A -> Prop) (l : list A) (x : A) :
  Forall P l -> P x -> Forall P (push l x).
Proof.
  intros F Hx. unfold push. apply Forall_app. split; [exact F|].
  constructor; [exact Hx|constructor].
Qed.

Lemma Forall_firstn_of {A : Type} (P : A -> Prop) (n : nat) (l : list A) :
  Forall P l -> Forall P (firstn n l).
Proof.
  rewrite !Forall_forall. intros H x Hx. apply H.
  now apply (firstn_In x n).
Qed.

Lemma min_div_in_range (count n : nat) :
  (0 < n)%nat ->
  between 0 1 (min (div (of_nat count) (of_nat n)) (Fin 1)).
Proof.
  intros P. rewrite (div_of_nat _ _ P). apply min_one_between; [|lra].
  rewrite Qred_correct.
  assert (Pn : 0 < inject_Z (Z.of_nat n)).
  { change 0 with (inject_Z 0). rewrite <- Zlt_Qlt. lia. }
  apply Qle_shift_div_l; [exact Pn|]. rewrite Qmult_0_l.
  change 0 with (inject_Z 0). rewrite <- Zle_Qle. lia.
Qed.

Lemma rule_based_in_range db now user :
  Forall scoreInRange
    (RuleBased.generateRuleBasedRecommendations db now user).
Proof.
  unfold RuleBased.generateRuleBasedRecommendations.
  destruct (User.role user).
  - unfold RuleBased.scoreExams.
    apply fold_left_push_Forall; [|constructor].
    intros acc e F. unfold RuleBased.examStep.
    destruct (gt _ _); [|exact F]. apply Forall_push; [exact F|].
    unfold scoreInRange, RuleBased.examRec.
    destruct (examScore_value user e) as [q [E [L _]]].
    destruct (RuleBased.examScore user e) as [sc rs]. simpl in E. subst sc.
    cbn [Rec.score]. apply min_one_between; lra.
  - unfold RuleBased.scoreOpportunities.
    apply fold_left_push_Forall; [|constructor].
    intros acc o F. unfold RuleBased.oppStep.
    destruct (gt _ _); [|exact F]. apply Forall_push; [exact F|].
    unfold scoreInRange, RuleBased.oppRec.
    destruct (oppScore_value user o) as [q [E [L _]]].
    destruct (RuleBased.oppScore user o) as [sc rs]. simpl in E. subst sc.
    cbn [Rec.score]. apply min_one_between; lra.
Qed.

Lemma content_based_in_range db now user :
  Forall scoreInRange
    (ContentBased.generateContentBasedRecommendations db now user).
Proof.
  unfold ContentBased.generateContentBasedRecommendations.
  destruct (_ && _).
  - unfold ContentBased.scoreExams.
    apply fold_left_push_Forall; [|constructor].
    intros acc e F. unfold ContentBased.examStep.
    destruct (gt _ _) eqn:G; [|exact F]. apply Forall_push; [exact F|].
    unfold scoreInRange, ContentBased.examRec. cbn [Rec.score].
    apply (between_weaken (7 # 10)); [lra|].
    now apply content_similarity_kept.
  - destruct (_ && _); [|constructor].
    unfold ContentBased.scoreOpportunities.
    apply fold_left_push_Forall; [|constructor].
    intros acc o F. unfold ContentBased.oppStep.
    destruct (gt _ _) eqn:G; [|exact F]. apply Forall_push; [exact F|].
    unfold scoreInRange, ContentBased.oppRec. cbn [Rec.score].
    apply (between_weaken (7 # 10)); [lra|].
    now apply content_similarity_kept.
Qed.

Lemma collaborative_in_range plainIncludes db user :
  Forall scoreInRange
    (generateCollaborativeFilteringRecommendations plainIncludes db user).
Proof.
  unfold generateCollaborativeFilteringRecommendations.
  destruct (List.length (similarUsersOf db user) =? 0)%nat eqn:Z;
    [constructor|].
  apply Nat.eqb_neq in Z.
  assert (P : (0 < List.length (similarUsersOf db user))%nat) by lia.
  destruct (User.role user).
  - apply fold_left_push_Forall; [|constructor].
    intros acc [k [c e]] F. unfold collabExamStep.
    destruct (_ && _); [|exact F]. apply Forall_push; [exact F|].
    unfold scoreInRange. cbn [Rec.score]. now apply min_div_in_range.
  - apply fold_left_push_Forall; [|constructor].
    intros acc [k [c o]] F. unfold collabOppStep.
    destruct (_ && _); [|exact F]. apply Forall_push; [exact F|].
    unfold scoreInRange. cbn [Rec.score]. now apply min_div_in_range.
Qed.

Lemma average_in_range existing rec :
  scoreInRange existing -> scoreInRange rec ->
  scoreInRange (average existing rec).
Proof.
  unfold scoreInRange.
  destruct (Rec.score existing) as [a| | |] eqn:A; try contradiction.
  destruct (Rec.score rec) as [b| | |] eqn:B; try contradiction.
  intros [A0 A1] [B0 B1].
  destruct (average_score _ _ _ _ A B) as [m [E V]]. rewrite E. simpl.
  rewrite V. split.
  - apply Qle_shift_div_l; lra.
  - apply Qle_shift_div_r; lra.
Qed.

Lemma hybridMerge_in_range l :
  Forall scoreInRange l -> Forall scoreInRange (hybridMerge l).
Proof.
  intros F. unfold hybridMerge. apply Forall_firstn_of.
  eapply Permutation_Forall; [symmetry; apply sort_perm|].
  unfold mergeAll.
  assert (G : forall m, Forall scoreInRange (map snd m) ->
                        Forall scoreInRange
                          (map snd (fold_left mergeStep l m))).
  { induction F as [|r l Fr Fl IH]; intros m Fm; simpl; [exact Fm|].
    apply IH. unfold mergeStep.
    destruct (om_has m (recKey r)) eqn:H; simpl.
    - apply om_modify_Forall; [|exact Fm].
      intros v Fv. now apply average_in_range.
    - rewrite (om_set_new _ _ _ H). unfold push. rewrite map_app.
      apply Forall_app. split; [exact Fm|].
      simpl. constructor; [exact Fr|constructor]. }
  apply G. constructor.
Qed.

Lemma hybrid_in_range plainIncludes db now user :
  Forall scoreInRange
    (generateHybridRecommendations plainIncludes db now user).
Proof.
  unfold generateHybridRecommendations. apply hybridMerge_in_range.
  repeat (apply Forall_app; split).
  - apply rule_based_in_range.
  - apply content_based_in_range.
  - apply collaborative_in_range.
Qed.

Lemma docsOf_scores now n recs :
  map Recommendation.score (docsOf now n recs) = map Rec.score recs.
Proof.
  revert n. induction recs as [|r recs IH]; intros n; simpl; [reflexivity|].
  now rewrite IH.
Qed.

(** C2: every record produced by the rule-based, the content-based, the
    collaborative and the hybrid generator has a score that is a rational
    between 0 and 1, and so has every record the service returns and every
    document it stores for them. *)
Theorem generated_scores_in_range
  (plainIncludes : list ObjectId -> ObjectId -> bool)
  (db : DB) (now : Z) (user : User.t) :
  Forall scoreInRange
    (RuleBased.generateRuleBasedRecommendations db now user)
  /\ Forall scoreInRange
       (ContentBased.generateContentBasedRecommendations db now user)
  /\ Forall scoreInRange
       (generateCollaborativeFilteringRecommendations plainIncludes db user)
  /\ Forall scoreInRange
       (generateHybridRecommendations plainIncludes db now user)
  /\ (forall userId algorithm,
        match generateRecommendations plainIncludes db now userId algorithm
        with
        | Returns (recs, db') =>
            Forall scoreInRange recs
            /\ (recommendations db' = recommendations db
                \/ exists docs,
                     recommendations db' = recommendations db ++ docs
                     /\ map Recommendation.score docs = map Rec.score recs)
        | Throws _ => True
        end).
Proof.
  split; [apply rule_based_in_range|].
  split; [apply content_based_in_range|].
  split; [apply collaborative_in_range|].
  split; [apply hybrid_in_range|].
  intros userId algorithm. unfold generateRecommendations.
  destruct (findUserById db userId) as [u|]; [|exact I].
  assert (K : forall recs,
             Forall scoreInRange recs ->
             Forall scoreInRange recs
             /\ (recommendations
                   (if nonempty recs then insertMany db now recs else db)
                 = recommendations db
                 \/ exists docs,
                      recommendations
                        (if nonempty recs then insertMany db now recs
                         else db)
                      = recommendations db ++ docs
                      /\ map Recommendation.score docs = map Rec.score recs)).
  { intros recs F. split; [exact F|].
    destruct (nonempty recs); [right|now left].
    exists (docsOf now (oid_seq db) recs).
    split; [reflexivity|apply docsOf_scores]. }
  destruct (String.eqb algorithm "rule_based");
    [apply K, rule_based_in_range|].
  destruct (String.eqb algorithm "content_based");
    [apply K, content_based_in_range|].
  destruct (String.eqb algorithm "collaborative_filtering");
    [apply K, collaborative_in_range|].
  destruct (String.eqb algorithm "hybrid");
    [apply K, hybrid_in_range|exact I].
Qed.

(** ** Live recommendations after a generation run *)

Lemma docsOf_triples now n recs :
  map triple (docsOf now n recs) = map recTriple recs.
Proof.
  revert n. induction recs as [|r recs IH]; intros n; simpl; [reflexivity|].
  now rewrite IH.
Qed.

Lemma docsOf_active_of now userId : forall recs n,
  Forall (fun r => Rec.user_id r = userId) recs ->
  filter (fun d => String.eqb (Recommendation.user_id d) userId)
    (filter Recommendation.is_active (docsOf now n recs))
  = docsOf now n recs.
Proof.
  induction recs as [|r recs IH]; intros n F; simpl; [reflexivity|].
  inversion F as [|? ? Hr Fr]; subst. rewrite String.eqb_refl.
  now rewrite IH.
Qed.

Lemma deleted_user_has_none userId (docs : list Recommendation.t) :
  filter (fun d => String.eqb (Recommendation.user_id d) userId)
    (filter Recommendation.is_active
       (filter (fun d => negb (String.eqb (Recommendation.user_id d) userId))
          docs))
  = [].
Proof.
  apply filter_none. intros d Hd. apply filter_In in Hd.
  destruct Hd as [Hd _]. apply filter_In in Hd. destruct Hd as [_ Hd].
  now apply negb_true_iff in Hd.
Qed.

Lemma NoDup_map_filter {A B : Type} (f : A -> B) (P : A -> bool)
  (l : list A) :
  NoDup (map f l) -> NoDup (map f (filter P l)).
Proof.
  induction l as [|a l IH]; simpl; intros ND; [constructor|].
  inversion ND as [|? ? Nin ND']; subst. destruct (P a); simpl; [|auto].
  constructor; [|auto]. intros H. apply Nin.
  apply in_map_iff in H. destruct H as [x [E Hx]].
  apply filter_In in Hx. rewrite <- E. apply in_map. tauto.
Qed.

Lemma NoDup_map_firstn {A B : Type} (f : A -> B) (n : nat) (l : list A) :
  NoDup (map f l) -> NoDup (map f (firstn n l)).
Proof.
  revert n. induction l as [|a l IH]; intros [|n] ND; simpl;
    try constructor.
  - inversion ND as [|? ? Nin ND']; subst. intros H. apply Nin.
    apply in_map_iff in H. destruct H as [x [E Hx]].
    apply firstn_In in Hx. rewrite <- E. now apply in_map.
  - inversion ND; subst. auto.
Qed.

(** a loop that pushes at most one record per candidate, keyed by the
    candidate's id, pushes no key twice when the ids are distinct *)
Lemma NoDup_emitted {A B K : Type} (idOf : A -> ObjectId)
  (emit : A -> list B) (key : B -> K) (mk : ObjectId -> K) :
  (forall a, emit a = [] \/ exists b, emit a = [b] /\ key b = mk (idOf a)) ->
  (forall x y, mk x = mk y -> x = y) ->
  forall l, NoDup (map idOf l) -> NoDup (map key (flat_map emit l)).
Proof.
  intros He Hinj. induction l as [|a l IH]; simpl; intros ND; [constructor|].
  inversion ND as [|? ? Nin ND']; subst.
  destruct (He a) as [E|[b [E Kb]]]; rewrite E; simpl; [auto|].
  constructor; [|auto]. intros H. apply Nin.
  apply in_map_iff in H. destruct H as [b' [Eb' Hb']].
  apply in_flat_map in Hb'. destruct Hb' as [a' [Ha' Hb']].
  destruct (He a') as [E'|[b'' [E' Kb'']]]; rewrite E' in Hb';
    [contradiction|].
  destruct Hb' as [<-|[]].
  assert (idOf a' = idOf a) by (apply Hinj; congruence).
  rewrite <- H. now apply in_map.
Qed.

Lemma findUserById_id db userId user :
  findUserById db userId = Some user -> User._id user = userId.
Proof.
  unfold findUserById. intros H. apply find_some in H.
  destruct H as [_ H]. now apply String.eqb_eq.
Qed.

Lemma controller_examStep_push user acc e :
  Controller.examStep user acc e = acc ++ Controller.examStep user [] e.
Proof.
  unfold Controller.examStep, push.
  destruct (gt _ _); [reflexivity|now rewrite app_nil_r].
Qed.

Lemma controller_oppStep_push user acc o :
  Controller.oppStep user acc o = acc ++ Controller.oppStep user [] o.
Proof.
  unfold Controller.oppStep, push.
  destruct (gt _ _); [reflexivity|now rewrite app_nil_r].
Qed.

Lemma controller_batch_owner db now user :
  Forall (fun r => Rec.user_id r = User._id user)
    (Controller.newRecommendationsOf db now user).
Proof.
  unfold Controller.newRecommendationsOf. destruct (User.role user);
    (apply fold_left_push_Forall; [|constructor]); intros acc x F.
  - unfold Controller.examStep. destruct (gt _ _); [|exact F].
    now apply Forall_push.
  - unfold Controller.oppStep. destruct (gt _ _); [|exact F].
    now apply Forall_push.
Qed.

Lemma controller_batch_distinct db now user :
  NoDup (map Exam._id (exams db)) ->
  NoDup (map Opportunity._id (opportunities db)) ->
  NoDup (map recTriple (Controller.newRecommendationsOf db now user)).
Proof.
  intros NE NO. unfold Controller.newRecommendationsOf.
  destruct (User.role user).
  - rewrite (fold_left_push_flat_map _ _ (controller_examStep_push user)).
    cbn [app].
    apply (NoDup_emitted Exam._id _ recTriple
             (fun id => (User._id user, exam, id))).
    + intros e. unfold Controller.examStep. destruct (gt _ _); [|now left].
      right. eexists. split; reflexivity.
    + intros x y [= ->]. reflexivity.
    + now apply NoDup_map_firstn, NoDup_map_filter.
  - rewrite (fold_left_push_flat_map _ _ (controller_oppStep_push user)).
    cbn [app].
    apply (NoDup_emitted Opportunity._id _ recTriple
             (fun id => (User._id user, opportunity, id))).
    + intros o. unfold Controller.oppStep. destruct (gt _ _); [|now left].
      right. eexists. split; reflexivity.
    + intros x y [= ->]. reflexivity.
    + now apply NoDup_map_firstn, NoDup_map_filter.
Qed.

Lemma controller_generate_store db now userId user :
  findUserById db userId = Some user ->
  recommendations (snd (Controller.generateRecommendations db now userId))
  = filter (fun d => negb (String.eqb (Recommendation.user_id d) userId))
      (recommendations db)
    ++ docsOf now (oid_seq db) (Controller.newRecommendationsOf db now user).
Proof.
  intros F. unfold Controller.generateRecommendations. rewrite F.
  change (Controller.newRecommendationsOf (deleteMany db userId) now user)
    with (Controller.newRecommendationsOf db now user).
  destruct (Controller.newRecommendationsOf db now user) as [|r recs];
    simpl; [now rewrite app_nil_r|reflexivity].
Qed.

(** the handler of the route leaves the learner with no two live
    recommendations for one offering, and does not touch the
    recommendations of the other learners *)
Lemma controller_generation_unique db now userId user :
  NoDup (map Exam._id (exams db)) ->
  NoDup (map Opportunity._id (opportunities db)) ->
  findUserById db userId = Some user ->
  uniqueActive (snd (Controller.generateRecommendations db now userId))
    userId
  /\ (forall other,
        other <> userId ->
        filter (fun d => String.eqb (Recommendation.user_id d) other)
          (recommendations
             (snd (Controller.generateRecommendations db now userId)))
        = filter (fun d => String.eqb (Recommendation.user_id d) other)
            (recommendations db)).
Proof.
  intros NE NO F. pose proof (findUserById_id _ _ _ F) as Hid.
  split.
  - unfold uniqueActive, activeDocs.
    rewrite (controller_generate_store _ _ _ _ F).
    rewrite !filter_app, deleted_user_has_none. simpl.
    rewrite docsOf_active_of.
    + rewrite docsOf_triples. now apply controller_batch_distinct.
    + rewrite <- Hid. apply controller_batch_owner.
  - intros other N. rewrite (controller_generate_store _ _ _ _ F).
    rewrite filter_app, filter_filter.
    assert (E : filter
                  (fun d => String.eqb (Recommendation.user_id d) other)
                  (docsOf now (oid_seq db)
                     (Controller.newRecommendationsOf db now user)) = []).
    { apply filter_none. intros d Hd.
      assert (Recommendation.user_id d = userId).
      { pose proof (controller_batch_owner db now user) as O.
        revert Hd. generalize (oid_seq db).
        induction O as [|r recs Hr O IH]; simpl; intros n Hd;
          [contradiction|].
        destruct Hd as [<-|Hd]; [simpl; congruence|eauto]. }
      destruct (String.eqb_spec (Recommendation.user_id d) other);
        [congruence|reflexivity]. }
    rewrite E, app_nil_r. apply filter_ext. intros d.
    destruct (String.eqb_spec (Recommendation.user_id d) other) as [->|_].
    + destruct (String.eqb_spec other userId); [contradiction|reflexivity].
    + apply andb_false_r.
Qed.

(** C1 on the service: two consecutive rule-based runs of
    [RecommendationService.generateRecommendations] for the same learner
    leave two live records for the same offering, because this path
    inserts its batch without removing or retiring the earlier records
    (the handler of the route deletes them first). *)
Theorem service_reruns_duplicate_live_records :
  let db1 :=
    storeAfter
      (generateRecommendations oid_includes Sample.catalog 0 "u1"
         "rule_based") Sample.catalog in
  let db2 :=
    storeAfter (generateRecommendations oid_includes db1 0 "u1" "rule_based")
      db1 in
  returned (generateRecommendations oid_includes Sample.catalog 0 "u1"
              "rule_based") = true
  /\ returned (generateRecommendations oid_includes db1 0 "u1" "rule_based")
     = true
  /\ map triple (activeDocs db1) = [("u1", exam, "e1")]%string
  /\ map triple (activeDocs db2)
     = [("u1", exam, "e1"); ("u1", exam, "e1")]%string
  /\ activeCount db2 ("u1", exam, "e1")%string = 2%nat
  /\ ~ uniqueActive db2 "u1".
Proof.
  intros db1 db2.
  split; [vm_compute; reflexivity|].
  split; [vm_compute; reflexivity|].
  split; [vm_compute; reflexivity|].
  split; [vm_compute; reflexivity|].
  split; [vm_compute; reflexivity|].
  unfold uniqueActive. intros H.
  assert (E : map triple
                (filter
                   (fun d => String.eqb (Recommendation.user_id d) "u1")
                   (activeDocs db2))
              = [("u1", exam, "e1"); ("u1", exam, "e1")]%string)
    by (vm_compute; reflexivity).
  rewrite E in H. inversion H as [|? ? Nin _]. apply Nin. now left.
Qed.

(** * More of the code *)

(** ** The hybrid merge, continued *)

Lemma mergeStep_keyed m rec :
  Forall (fun kv => recKey (snd kv) = fst kv) m ->
  Forall (fun kv => recKey (snd kv) = fst kv) (mergeStep m rec).
Proof.
  intros F. unfold mergeStep.
  destruct (om_has m (recKey rec)) eqn:H; cbn [negb].
  - clear H. induction F as [|[k v] m Hk F IH]; simpl; [constructor|].
    destruct (String.eqb k (recKey rec)); constructor; auto.
  - rewrite (om_set_new _ _ _ H). now apply Forall_push.
Qed.

Lemma mergeAll_keyed l :
  Forall (fun kv => recKey (snd kv) = fst kv) (mergeAll l).
Proof.
  unfold mergeAll. apply fold_left_push_Forall; [|constructor].
  intros acc a F. now apply mergeStep_keyed.
Qed.

Lemma mergeAll_record_keys l :
  map recKey (map snd (mergeAll l)) = firstSeen (map recKey l).
Proof.
  rewrite <- mergeAll_keys. rewrite map_map.
  pose proof (mergeAll_keyed l) as F.
  induction F as [|kv m Hk F IH]; simpl; [reflexivity|].
  now rewrite Hk, IH.
Qed.

Lemma NoDup_firstn {A : Type} (n : nat) (l : list A) :
  NoDup l -> NoDup (firstn n l).
Proof.
  intros H. rewrite <- (map_id (firstn n l)). apply NoDup_map_firstn.
  now rewrite map_id.
Qed.

Lemma sorted_keys_perm l :
  Permutation
    (map recKey (sort byScoreDesc (map snd (mergeAll l))))
    (firstSeen (map recKey l)).
Proof. rewrite <- mergeAll_record_keys. apply Permutation_map, sort_perm. Qed.

Lemma hybridMerge_NoDup l : NoDup (map recKey (hybridMerge l)).
Proof.
  unfold hybridMerge. apply NoDup_map_firstn.
  eapply Permutation_NoDup; [symmetry; apply sorted_keys_perm|].
  apply firstSeen_NoDup.
Qed.

Lemma hybridMerge_length l : (List.length (hybridMerge l) <= 50)%nat.
Proof. unfold hybridMerge. apply firstn_le_length. Qed.

(** X1: the list the hybrid merge returns never holds two records for the
    same entity type and entity id; its keys are keys of the input, and
    when the input has at most 50 distinct keys every one of them is
    returned; it has [min 50 k] entries for [k] distinct keys. *)
Theorem hybrid_merge_deduplicates (allRecommendations : list Rec.t) :
  NoDup (map recKey (hybridMerge allRecommendations))
  /\ incl (map recKey (hybridMerge allRecommendations))
          (map recKey allRecommendations)
  /\ ((List.length (firstSeen (map recKey allRecommendations)) <= 50)%nat ->
      incl (map recKey allRecommendations)
           (map recKey (hybridMerge allRecommendations)))
  /\ List.length (hybridMerge allRecommendations)
     = Nat.min 50 (List.length (firstSeen (map recKey allRecommendations))).
Proof.
  pose proof (sorted_keys_perm allRecommendations) as P.
  split; [apply hybridMerge_NoDup|].
  unfold hybridMerge. split; [|split].
  - intros k Hk. apply in_map_iff in Hk. destruct Hk as [r [<- Hr]].
    apply firstn_In in Hr. apply firstSeen_In.
    eapply Permutation_in; [exact P|]. now apply in_map.
  - intros L k Hk. rewrite firstn_all2.
    + eapply Permutation_in; [symmetry; exact P|]. now apply firstSeen_In.
    + rewrite <- (length_map recKey), (Permutation_length P). exact L.
  - rewrite length_firstn. f_equal.
    rewrite <- (length_map recKey), (Permutation_length P). reflexivity.
Qed.

Lemma hybrid_merge_deduplicates_witness :
  incl (map recKey ([Sample.e1Rule] ++ [Sample.e1Collab]))
       (map recKey (hybridMerge ([Sample.e1Rule] ++ [Sample.e1Collab]))).
Proof.
  apply (hybrid_merge_deduplicates ([Sample.e1Rule] ++ [Sample.e1Collab])).
  vm_compute. lia.
Defined.

Lemma mergeAll_distinct l : forall m,
  NoDup (map fst m ++ map recKey l) ->
  fold_left mergeStep l m = m ++ map (fun r => (recKey r, r)) l.
Proof.
  induction l as [|r l IH]; intros m ND; simpl; [now rewrite app_nil_r|].
  assert (H : om_has m (recKey r) = false).
  { rewrite om_has_keys. destruct (existsb _ _) eqn:E; [|reflexivity].
    apply existsb_exists in E. destruct E as [k [Hk E]].
    apply String.eqb_eq in E. subst k. exfalso.
    apply NoDup_remove_2 in ND. apply ND. apply in_or_app. now left. }
  unfold mergeStep at 2. rewrite H. cbn [negb].
  rewrite (om_set_new _ _ _ H). unfold push. rewrite IH.
  - now rewrite <- app_assoc.
  - rewrite map_app, <- app_assoc. exact ND.
Qed.

Lemma sort_of_sorted l :
  Forall finiteScore l -> StronglySorted scoreGe l ->
  sort byScoreDesc l = l.
Proof.
  intros F S. induction S as [|x l S IH Hx]; [reflexivity|].
  inversion F as [|? ? Fx Fl]; subst. cbn [sort fold_right].
  change (fold_right (sort_insert byScoreDesc) [] l)
    with (sort byScoreDesc l).
  rewrite (IH Fl). destruct l as [|y ys]; [reflexivity|].
  cbn [sort_insert]. inversion Fl as [|? ? Fy _]; subst.
  inversion Hx as [|? ? Hy _]; subst.
  destruct (gt (byScoreDesc x y) (Fin 0)) eqn:G; [|reflexivity].
  apply (byScoreDesc_gt x y Fx Fy) in G. exfalso.
  apply (Qlt_not_le _ _ G Hy).
Qed.

Lemma StronglySorted_firstn {A : Type} (R : A -> A -> Prop) (n : nat)
  (l : list A) :
  StronglySorted R l -> StronglySorted R (firstn n l).
Proof.
  intros S. revert n. induction S as [|x l S IH Hx]; intros [|n]; simpl;
    try constructor.
  - apply IH.
  - now apply Forall_firstn_of.
Qed.

(** X2: merging again a list the hybrid merge has returned changes
    nothing: the keys are already distinct, so no score is averaged and no
    record relabelled, the order is already descending and at most 50
    entries are there. *)
Theorem hybrid_merge_idempotent (allRecommendations : list Rec.t) :
  Forall finiteScore allRecommendations ->
  hybridMerge (hybridMerge allRecommendations)
  = hybridMerge allRecommendations.
Proof.
  intros F.
  pose proof (hybridMerge_NoDup allRecommendations) as ND.
  pose proof (hybridMerge_length allRecommendations) as Len.
  set (L := hybridMerge allRecommendations) in *.
  assert (FL : Forall finiteScore L).
  { unfold L, hybridMerge. apply Forall_firstn_of, sort_finite.
    now apply mergeAll_finite. }
  assert (SL : StronglySorted scoreGe L).
  { unfold L, hybridMerge. apply StronglySorted_firstn, sort_sorted.
    now apply mergeAll_finite. }
  unfold hybridMerge at 1. unfold mergeAll.
  rewrite mergeAll_distinct by exact ND. cbn [app].
  rewrite map_map. cbn [snd]. rewrite map_id.
  rewrite (sort_of_sorted L FL SL). apply firstn_all2. exact Len.
Qed.

Lemma hybrid_merge_idempotent_witness :
  hybridMerge (hybridMerge ([Sample.e1Rule] ++ [Sample.e1Collab]))
  = hybridMerge ([Sample.e1Rule] ++ [Sample.e1Collab]).
Proof.
  apply (hybrid_merge_idempotent ([Sample.e1Rule] ++ [Sample.e1Collab])).
  repeat constructor.
Defined.

Lemma merged_three r1 r2 r3 :
  merged [r1; r2; r3] = Some (average (average r1 r2) r3).
Proof. reflexivity. Qed.

(** X3: the averaging is pairwise, in the order of arrival: an offering
    that occurs three times in the input, with scores a, b and c, is
    stored with the score a/4 + b/4 + c/2, the reasons of the three
    records in that order, and the algorithm hybrid. *)
Theorem hybrid_merge_three_sources
  (allRecommendations : list Rec.t) (k : string) (r1 r2 r3 : Rec.t)
  (a b c : Q) :
  occurrences k allRecommendations = [r1; r2; r3] ->
  Rec.score r1 = Fin a ->
  Rec.score r2 = Fin b ->
  Rec.score r3 = Fin c ->
  exists r m,
    om_get (mergeAll allRecommendations) k = Some r
    /\ Rec.score r = Fin m
    /\ m == a / 4 + b / 4 + c / 2
    /\ Rec.algorithm_used r = hybrid
    /\ Rec.recommendation_reasons r
       = Rec.recommendation_reasons r1 ++ Rec.recommendation_reasons r2
         ++ Rec.recommendation_reasons r3
    /\ Rec.entity_id r = Rec.entity_id r1.
Proof.
  intros O A B C. rewrite mergeAll_get, O, merged_three.
  destruct (average_score r1 r2 a b A B) as [m1 [E1 V1]].
  destruct (average_score (average r1 r2) r3 m1 c E1 C) as [m [E V]].
  exists (average (average r1 r2) r3), m.
  split; [reflexivity|]. split; [exact E|]. split.
  { rewrite V, V1. field. }
  split; [reflexivity|]. split; [|reflexivity].
  cbn [average Rec.recommendation_reasons]. now rewrite app_assoc.
Qed.

Lemma hybrid_merge_three_sources_witness :
  exists r m,
    om_get (mergeAll [Sample.e1Rule; Sample2.e1Content; Sample.e1Collab])
      "exam_E1" = Some r
    /\ Rec.score r = Fin m
    /\ m == (4 # 5) / 4 + 1 / 4 + (3 # 5) / 2
    /\ Rec.algorithm_used r = hybrid
    /\ Rec.recommendation_reasons r
       = Rec.recommendation_reasons Sample.e1Rule
         ++ Rec.recommendation_reasons Sample2.e1Content
         ++ Rec.recommendation_reasons Sample.e1Collab
    /\ Rec.entity_id r = Rec.entity_id Sample.e1Rule.
Proof.
  apply (hybrid_merge_three_sources
           [Sample.e1Rule; Sample2.e1Content; Sample.e1Collab] "exam_E1"
           Sample.e1Rule Sample2.e1Content Sample.e1Collab);
    reflexivity.
Defined.

(** ** What every generator keeps *)

Lemma hybridMerge_Forall (P : Rec.t -> Prop) l :
  (forall existing rec, P existing -> P rec -> P (average existing rec)) ->
  Forall P l -> Forall P (hybridMerge l).
Proof.
  intros Havg F. unfold hybridMerge. apply Forall_firstn_of.
  eapply Permutation_Forall; [symmetry; apply sort_perm|].
  unfold mergeAll.
  assert (G : forall m, Forall P (map snd m) ->
                        Forall P (map snd (fold_left mergeStep l m))).
  { induction F as [|r l Fr Fl IH]; intros m Fm; simpl; [exact Fm|].
    apply IH. unfold mergeStep.
    destruct (om_has m (recKey r)) eqn:H; cbn [negb].
    - apply om_modify_Forall; [|exact Fm]. intros v Fv. now apply Havg.
    - rewrite (om_set_new _ _ _ H). unfold push. rewrite map_app.
      apply Forall_app. split; [exact Fm|].
      simpl. constructor; [exact Fr|constructor]. }
  apply G. constructor.
Qed.

Lemma flat_map_length_le {A B : Type} (f : A -> list B) (l : list A) :
  (forall a, (List.length (f a) <= 1)%nat) ->
  (List.length (flat_map f l) <= List.length l)%nat.
Proof.
  intros H. induction l as [|a l IH]; simpl; [lia|].
  rewrite length_app. specialize (H a). lia.
Qed.

Lemma rule_based_madeFor db now user :
  Forall (fun r => madeFor user r /\ Rec.algorithm_used r = rule_based)
    (RuleBased.generateRuleBasedRecommendations db now user).
Proof.
  unfold RuleBased.generateRuleBasedRecommendations, madeFor.
  destruct (User.role user) eqn:R;
    (apply fold_left_push_Forall; [|constructor]); intros acc x F.
  - unfold RuleBased.examStep. destruct (gt _ _); [|exact F].
    apply Forall_push; [exact F|]. unfold RuleBased.examRec.
    destruct (RuleBased.examScore user x). repeat split.
  - unfold RuleBased.oppStep. destruct (gt _ _); [|exact F].
    apply Forall_push; [exact F|]. unfold RuleBased.oppRec.
    destruct (RuleBased.oppScore user x). repeat split.
Qed.

Lemma content_based_madeFor db now user :
  Forall (fun r => madeFor user r /\ Rec.algorithm_used r = content_based)
    (ContentBased.generateContentBasedRecommendations db now user).
Proof.
  unfold ContentBased.generateContentBasedRecommendations, madeFor.
  destruct (User.role user) eqn:R; cbn [Role_eqb andb].
  - destruct (nonempty (User.saved_exams user)); [|constructor].
    apply fold_left_push_Forall; [|constructor]. intros acc x F.
    unfold ContentBased.examStep. destruct (gt _ _); [|exact F].
    apply Forall_push; [exact F|]. repeat split.
  - destruct (nonempty _); [|constructor].
    apply fold_left_push_Forall; [|constructor]. intros acc x F.
    unfold ContentBased.oppStep. destruct (gt _ _); [|exact F].
    apply Forall_push; [exact F|]. repeat split.
Qed.

Lemma collaborative_madeFor plainIncludes db user :
  Forall (fun r =>
            madeFor user r
            /\ Rec.algorithm_used r = collaborative_filtering)
    (generateCollaborativeFilteringRecommendations plainIncludes db user).
Proof.
  unfold generateCollaborativeFilteringRecommendations, madeFor.
  destruct (_ =? _)%nat; [constructor|].
  destruct (User.role user) eqn:R;
    (apply fold_left_push_Forall; [|constructor]);
    intros acc [k [c x]] F.
  - unfold collabExamStep. destruct (_ && _); [|exact F].
    apply Forall_push; [exact F|]. repeat split.
  - unfold collabOppStep. destruct (_ && _); [|exact F].
    apply Forall_push; [exact F|]. repeat split.
Qed.

Lemma hybrid_madeFor plainIncludes db now user :
  Forall (madeFor user)
    (generateHybridRecommendations plainIncludes db now user).
Proof.
  unfold generateHybridRecommendations. apply hybridMerge_Forall.
  - intros existing rec E _. exact E.
  - repeat (apply Forall_app; split).
    + eapply Forall_impl; [|apply rule_based_madeFor].
      intros r [H _]. exact H.
    + eapply Forall_impl; [|apply content_based_madeFor].
      intros r [H _]. exact H.
    + eapply Forall_impl; [|apply collaborative_madeFor].
      intros r [H _]. exact H.
Qed.

(** X4: every record of the four generators carries the learner's id and
    the model name of its entity type, and is an exam for a school
    learner, an opportunity for a university learner; the three single
    generators tag it with their own algorithm. *)
Theorem generators_address_the_learner
  (plainIncludes : list ObjectId -> ObjectId -> bool)
  (db : DB) (now : Z) (user : User.t) :
  Forall (fun r => madeFor user r /\ Rec.algorithm_used r = rule_based)
    (RuleBased.generateRuleBasedRecommendations db now user)
  /\ Forall (fun r => madeFor user r /\ Rec.algorithm_used r = content_based)
       (ContentBased.generateContentBasedRecommendations db now user)
  /\ Forall (fun r =>
               madeFor user r
               /\ Rec.algorithm_used r = collaborative_filtering)
       (generateCollaborativeFilteringRecommendations plainIncludes db user)
  /\ Forall (madeFor user)
       (generateHybridRecommendations plainIncludes db now user).
Proof.
  split; [apply rule_based_madeFor|].
  split; [apply content_based_madeFor|].
  split; [apply collaborative_madeFor|].
  apply hybrid_madeFor.
Qed.

(** ** What the catalogue generators can return *)

Lemma In_flat_map_step {A : Type} (step : list Rec.t -> A -> list Rec.t)
  (pool : list A) (r : Rec.t) :
  (forall acc a, step acc a = acc ++ step [] a) ->
  In r (fold_left step pool []) ->
  exists a, In a pool /\ In r (step [] a).
Proof.
  intros H. rewrite (fold_left_push_flat_map _ _ H). simpl.
  apply in_flat_map.
Qed.

Lemma fold_step_length {A : Type} (step : list Rec.t -> A -> list Rec.t)
  (pool : list A) :
  (forall acc a, step acc a = acc ++ step [] a) ->
  (forall a, (List.length (step [] a) <= 1)%nat) ->
  (List.length (fold_left step pool []) <= List.length pool)%nat.
Proof.
  intros H L. rewrite (fold_left_push_flat_map _ _ H). simpl.
  now apply flat_map_length_le.
Qed.

Lemma content_examStep_one user prefs e :
  (List.length (ContentBased.examStep user prefs [] e) <= 1)%nat.
Proof. unfold ContentBased.examStep. destruct (gt _ _); simpl; lia. Qed.

Lemma content_oppStep_one user prefs o :
  (List.length (ContentBased.oppStep user prefs [] o) <= 1)%nat.
Proof. unfold ContentBased.oppStep. destruct (gt _ _); simpl; lia. Qed.

Lemma rule_examStep_one user e :
  (List.length (RuleBased.examStep user [] e) <= 1)%nat.
Proof. unfold RuleBased.examStep. destruct (gt _ _); simpl; lia. Qed.

Lemma rule_oppStep_one user o :
  (List.length (RuleBased.oppStep user [] o) <= 1)%nat.
Proof. unfold RuleBased.oppStep. destruct (gt _ _); simpl; lia. Qed.

Lemma oid_includes_false ids x : oid_includes ids x = false -> ~ In x ids.
Proof.
  intros H Hin. apply oid_includes_In in Hin. congruence.
Qed.

(** X5: the content-based generator never recommends an offering the
    learner has saved: each of its records is for an active, still open
    offering of the catalogue that is not in the learner's saved list, with
    a similarity strictly above 0.7 and at most 1; it returns at most 20
    exams, or at most 30 opportunities. *)
Theorem content_based_skips_saved (db : DB) (now : Z) (user : User.t) :
  (List.length
     (ContentBased.generateContentBasedRecommendations db now user)
   <= match User.role user with school => 20 | university => 30 end)%nat
  /\ (forall r,
        In r (ContentBased.generateContentBasedRecommendations db now user) ->
        ~ In (Rec.entity_id r) (savedOfferings user)
        /\ openInCatalogue db now (User.role user) (Rec.entity_id r)
        /\ exists q, Rec.score r = Fin q /\ 7 # 10 < q /\ q <= 1).
Proof.
  unfold ContentBased.generateContentBasedRecommendations, savedOfferings,
    openInCatalogue.
  destruct (User.role user); cbn [Role_eqb andb].
  - destruct (nonempty (User.saved_exams user));
      [|split; [simpl; lia|intros r []]].
    set (prefs := ContentBased.analyzeUserPreferences db user).
    split.
    + unfold ContentBased.scoreExams.
      etransitivity;
        [apply (fold_step_length _ _
                  (content_examStep_push user prefs)
                  (content_examStep_one user prefs))|].
      unfold ContentBased.findSimilarExams. apply firstn_le_length.
    + intros r Hr. unfold ContentBased.scoreExams in Hr.
      apply (In_flat_map_step _ _ _ (content_examStep_push user prefs))
        in Hr.
      destruct Hr as [e [He Hr]]. unfold ContentBased.examStep in Hr.
      destruct (gt _ _) eqn:G; [|contradiction].
      destruct Hr as [<-|[]]. cbn [Rec.entity_id Rec.score
                                    ContentBased.examRec].
      unfold ContentBased.findSimilarExams in He. apply firstn_In in He.
      apply filter_In in He. destruct He as [He Hq].
      apply andb_true_iff in Hq. destruct Hq as [Hq _].
      apply andb_true_iff in Hq. destruct Hq as [Hq _].
      apply andb_true_iff in Hq. destruct Hq as [Hup Hns].
      apply negb_true_iff in Hns. split; [now apply oid_includes_false|].
      split; [exists e; auto|]. now apply content_similarity_above.
  - destruct (nonempty _); [|split; [simpl; lia|intros r []]].
    set (prefs := ContentBased.analyzeUserPreferences db user).
    split.
    + unfold ContentBased.scoreOpportunities.
      etransitivity;
        [apply (fold_step_length _ _
                  (content_oppStep_push user prefs)
                  (content_oppStep_one user prefs))|].
      unfold ContentBased.findSimilarOpportunities. apply firstn_le_length.
    + intros r Hr. unfold ContentBased.scoreOpportunities in Hr.
      apply (In_flat_map_step _ _ _ (content_oppStep_push user prefs))
        in Hr.
      destruct Hr as [o [Ho Hr]]. unfold ContentBased.oppStep in Hr.
      destruct (gt _ _) eqn:G; [|contradiction].
      destruct Hr as [<-|[]]. cbn [Rec.entity_id Rec.score
                                    ContentBased.oppRec].
      unfold ContentBased.findSimilarOpportunities in Ho.
      apply firstn_In in Ho.
      apply filter_In in Ho. destruct Ho as [Ho Hq].
      apply andb_true_iff in Hq. destruct Hq as [Hq _].
      apply andb_true_iff in Hq. destruct Hq as [Hq _].
      apply andb_true_iff in Hq. destruct Hq as [Hup Hns].
      apply negb_true_iff in Hns. split; [now apply oid_includes_false|].
      split; [exists o; auto|]. now apply content_similarity_above.
Qed.

Lemma content_based_skips_saved_witness :
  let r := ContentBased.oppRec Sample.dev Sample.goPrefs Sample.sprint in
  ~ In (Rec.entity_id r) (savedOfferings Sample.dev)
  /\ openInCatalogue Sample.market 0 (User.role Sample.dev)
       (Rec.entity_id r)
  /\ exists q, Rec.score r = Fin q /\ 7 # 10 < q /\ q <= 1.
Proof.
  apply (proj2 (content_based_skips_saved Sample.market 0 Sample.dev)).
  vm_compute. left. reflexivity.
Defined.

Lemma rule_examRec_id user e :
  Rec.entity_id (RuleBased.examRec user e) = Exam._id e.
Proof.
  unfold RuleBased.examRec. now destruct (RuleBased.examScore user e).
Qed.

Lemma rule_oppRec_id user o :
  Rec.entity_id (RuleBased.oppRec user o) = Opportunity._id o.
Proof.
  unfold RuleBased.oppRec. now destruct (RuleBased.oppScore user o).
Qed.

(** X6: the rule-based generator returns at most 50 exams for a school
    learner and at most 100 opportunities otherwise; every record is for an
    active, still open offering of the catalogue, and when the ids of the
    catalogue are distinct no offering is recommended twice. *)
Theorem rule_based_draws_from_catalogue
  (db : DB) (now : Z) (user : User.t) :
  (List.length (RuleBased.generateRuleBasedRecommendations db now user)
   <= match User.role user with school => 50 | university => 100 end)%nat
  /\ (forall r,
        In r (RuleBased.generateRuleBasedRecommendations db now user) ->
        openInCatalogue db now (User.role user) (Rec.entity_id r))
  /\ (NoDup (map Exam._id (exams db)) ->
      NoDup (map Opportunity._id (opportunities db)) ->
      NoDup (map Rec.entity_id
               (RuleBased.generateRuleBasedRecommendations db now user))).
Proof.
  unfold RuleBased.generateRuleBasedRecommendations, openInCatalogue.
  destruct (User.role user).
  - split; [|split].
    + unfold RuleBased.scoreExams.
      etransitivity;
        [apply (fold_step_length _ _ (rule_examStep_push user)
                  (rule_examStep_one user))|].
      apply firstn_le_length.
    + intros r Hr. unfold RuleBased.scoreExams in Hr.
      apply (In_flat_map_step _ _ _ (rule_examStep_push user)) in Hr.
      destruct Hr as [e [He Hr]]. unfold RuleBased.examStep in Hr.
      destruct (gt _ _); [|contradiction]. destruct Hr as [<-|[]].
      apply firstn_In in He. apply filter_In in He. destruct He as [He Hq].
      exists e. rewrite rule_examRec_id. auto.
    + intros NE _. rewrite rule_scoreExams_flat_map.
      apply (NoDup_emitted Exam._id _ Rec.entity_id (fun id => id)).
      * intros e. unfold RuleBased.examStep. destruct (gt _ _); [|now left].
        right. eexists. split; [reflexivity|apply rule_examRec_id].
      * auto.
      * now apply NoDup_map_firstn, NoDup_map_filter.
  - split; [|split].
    + unfold RuleBased.scoreOpportunities.
      etransitivity;
        [apply (fold_step_length _ _ (rule_oppStep_push user)
                  (rule_oppStep_one user))|].
      apply firstn_le_length.
    + intros r Hr. unfold RuleBased.scoreOpportunities in Hr.
      apply (In_flat_map_step _ _ _ (rule_oppStep_push user)) in Hr.
      destruct Hr as [o [Ho Hr]]. unfold RuleBased.oppStep in Hr.
      destruct (gt _ _); [|contradiction]. destruct Hr as [<-|[]].
      apply firstn_In in Ho. apply filter_In in Ho. destruct Ho as [Ho Hq].
      exists o. rewrite rule_oppRec_id. auto.
    + intros _ NO. rewrite rule_scoreOpportunities_flat_map.
      apply (NoDup_emitted Opportunity._id _ Rec.entity_id (fun id => id)).
      * intros o. unfold RuleBased.oppStep. destruct (gt _ _); [|now left].
        right. eexists. split; [reflexivity|apply rule_oppRec_id].
      * auto.
      * now apply NoDup_map_firstn, NoDup_map_filter.
Qed.

Lemma catalog_exam_ids_distinct :
  NoDup (map Exam._id (exams Sample.catalog)).
Proof. vm_compute. repeat constructor; simpl; intuition discriminate. Qed.

Lemma catalog_opp_ids_distinct :
  NoDup (map Opportunity._id (opportunities Sample.catalog)).
Proof. vm_compute. repeat constructor; simpl; intuition discriminate. Qed.

Lemma rule_based_draws_from_catalogue_witness :
  NoDup (map Rec.entity_id
           (RuleBased.generateRuleBasedRecommendations Sample.catalog 0
              Sample.scienceUser)).
Proof.
  apply (rule_based_draws_from_catalogue Sample.catalog 0
           Sample.scienceUser).
  - exact catalog_exam_ids_distinct.
  - exact catalog_opp_ids_distinct.
Defined.

(** ** The reasons of a rule-based record *)

Lemma sumWeights_push reasons why :
  sumWeights (push reasons why) == sumWeights reasons + weight why.
Proof.
  unfold sumWeights, sumQ, push. induction reasons as [|r rs IH]; simpl.
  - ring.
  - rewrite IH. ring.
Qed.

Lemma push_not_nil {A : Type} (l : list A) (x : A) : push l x <> [].
Proof. unfold push. destruct l; discriminate. Qed.

Lemma bonus_reasoned n c w why st :
  0 <= w -> w <= weight why ->
  reasoned n st -> reasoned (S n) (RuleBased.bonus c (Fin w) why st).
Proof.
  intros W0 W [q [E [L [Z N]]]]. unfold RuleBased.bonus.
  destruct st as [sc rs]. cbn [fst snd] in *. subst sc. unfold reasoned.
  destruct c.
  - cbn [fst snd add]. eexists. split; [reflexivity|].
    split; [|split].
    + rewrite Qred_correct, sumWeights_push. lra.
    + intros H. exfalso. exact (push_not_nil _ _ H).
    + unfold push. rewrite length_app. simpl. lia.
  - exists q. repeat split; auto.
Qed.

Lemma interestBonus_reasoned n interests matching w why st :
  (List.length matching <= List.length interests)%nat ->
  0 <= w -> w <= weight why ->
  reasoned n st ->
  reasoned (S n) (RuleBased.interestBonus interests matching w why st).
Proof.
  intros Lm W0 W [q [E [L [Z N]]]]. unfold RuleBased.interestBonus.
  destruct st as [sc rs]. cbn [fst snd] in *. subst sc. unfold reasoned.
  destruct (nonempty interests) eqn:NI; [|exists q; repeat split; auto].
  apply nonempty_true in NI. unfold RuleBased.bonus.
  destruct (nonempty matching); [|exists q; repeat split; auto].
  cbn [fst snd]. rewrite (div_of_nat _ _ NI). cbn [mul add].
  eexists. split; [reflexivity|]. split; [|split].
  - destruct (ratio_bounds _ _ Lm NI) as [R0 R1].
    set (r := inject_Z _ / inject_Z _) in *.
    rewrite !Qred_correct, sumWeights_push.
    assert (r * w <= 1 * w) by (apply Qmult_le_compat_r; assumption).
    lra.
  - intros H. exfalso. exact (push_not_nil _ _ H).
  - unfold push. rewrite length_app. simpl. lia.
Qed.

Lemma reasoned_start : reasoned 0 (Fin (1 # 2), []).
Proof.
  exists (1 # 2). cbn. repeat split; try reflexivity; try lia.
  unfold sumWeights, sumQ. simpl. lra.
Qed.

Lemma reasoned_weaken n m st : (n <= m)%nat -> reasoned n st -> reasoned m st.
Proof.
  intros H [q [E [L [Z N]]]]. exists q. repeat split; auto. lia.
Qed.

Lemma examScore_reasoned user e : reasoned 3 (RuleBased.examScore user e).
Proof.
  unfold RuleBased.examScore.
  apply bonus_reasoned; [lra|apply Qle_refl|].
  apply interestBonus_reasoned;
    [apply examMatching_le|lra|apply Qle_refl|].
  apply bonus_reasoned; [lra|apply Qle_refl|]. apply reasoned_start.
Qed.

Lemma oppScore_reasoned user o : reasoned 4 (RuleBased.oppScore user o).
Proof.
  unfold RuleBased.oppScore.
  apply bonus_reasoned; [lra|apply Qle_refl|].
  destruct (Opportunity.type o).
  - apply (reasoned_weaken 1); [lia|].
    apply interestBonus_reasoned;
      [apply oppMatching_le|lra|apply Qle_refl|]. apply reasoned_start.
  - do 2 (apply bonus_reasoned; [lra|apply Qle_refl|]).
    apply interestBonus_reasoned;
      [apply oppMatching_le|lra|apply Qle_refl|]. apply reasoned_start.
Qed.

Lemma kept_record_reasons n st :
  reasoned n st -> gt (fst st) (Fin (3 # 5)) = true ->
  snd st <> []
  /\ (List.length (snd st) <= n)%nat
  /\ exists q, min (fst st) (Fin 1) = Fin q
               /\ 3 # 5 < q
               /\ q <= (1 # 2) + sumWeights (snd st).
Proof.
  intros [q [E [L [Z N]]]] G. rewrite E in G. apply gt_Fin in G.
  split; [|split; [exact N|]].
  - intros H. specialize (Z H). lra.
  - rewrite E. destruct (min_one q) as [q' [Eq Vq]]. exists q'.
    split; [exact Eq|]. rewrite Vq.
    split.
    + apply Q.min_glb_lt; lra.
    + eapply Qle_trans; [apply Q.le_min_l|exact L].
Qed.

(** X7: every record of the rule-based generator gives at least one
    reason, at most three for an exam and four for an opportunity, and its
    score, which is above 0.6, is at most 0.5 plus the weights of the
    reasons it gives. *)
Theorem rule_based_records_give_reasons
  (db : DB) (now : Z) (user : User.t) :
  forall r,
    In r (RuleBased.generateRuleBasedRecommendations db now user) ->
    Rec.recommendation_reasons r <> []
    /\ (List.length (Rec.recommendation_reasons r)
        <= match User.role user with school => 3 | university => 4 end)%nat
    /\ exists q, Rec.score r = Fin q
                 /\ 3 # 5 < q
                 /\ q <= (1 # 2) + sumWeights (Rec.recommendation_reasons r).
Proof.
  intros r. unfold RuleBased.generateRuleBasedRecommendations.
  destruct (User.role user).
  - unfold RuleBased.scoreExams. intros Hr.
    apply (In_flat_map_step _ _ _ (rule_examStep_push user)) in Hr.
    destruct Hr as [e [_ Hr]]. unfold RuleBased.examStep in Hr.
    destruct (gt _ _) eqn:G; [|contradiction]. destruct Hr as [<-|[]].
    pose proof (kept_record_reasons 3 _ (examScore_reasoned user e) G)
      as K.
    unfold RuleBased.examRec.
    destruct (RuleBased.examScore user e) as [sc rs]. exact K.
  - unfold RuleBased.scoreOpportunities. intros Hr.
    apply (In_flat_map_step _ _ _ (rule_oppStep_push user)) in Hr.
    destruct Hr as [o [_ Hr]]. unfold RuleBased.oppStep in Hr.
    destruct (gt _ _) eqn:G; [|contradiction]. destruct Hr as [<-|[]].
    pose proof (kept_record_reasons 4 _ (oppScore_reasoned user o) G)
      as K.
    unfold RuleBased.oppRec.
    destruct (RuleBased.oppScore user o) as [sc rs]. exact K.
Qed.

Lemma rule_based_records_give_reasons_witness :
  exists r,
    In r (RuleBased.generateRuleBasedRecommendations Sample.catalog 0
            Sample.scienceUser)
    /\ Rec.recommendation_reasons r <> [].
Proof.
  eexists. split; [left; reflexivity|].
  apply (rule_based_records_give_reasons Sample.catalog 0
           Sample.scienceUser).
  left. reflexivity.
Defined.

(** ** The collaborative generator, continued *)

Lemma collaborative_output_refetched plainIncludes db user :
  let data := similarUsersDataOf db (similarUsersOf db user) in
  let n := List.length (similarUsersOf db user) in
  generateCollaborativeFilteringRecommendations plainIncludes db user
  = match User.role user with
    | school =>
        map (collabRec user exam "Exam" n (visitedExamIds db data))
          (filter (fun id =>
                     (2 <=? occ id (visitedExamIds db data))%nat
                     && negb (oid_includes (User.saved_exams user) id))
                  (firstSeen (visitedExamIds db data)))
    | university =>
        map (collabRec user opportunity "Opportunity" n
               (visitedOppIds db data))
          (filter (fun id =>
                     (2 <=? occ id (visitedOppIds db data))%nat
                     && negb (plainIncludes
                                (User.saved_hackathons user
                                 ++ User.saved_internships user) id))
                  (firstSeen (visitedOppIds db data)))
    end.
Proof.
  intros data n. unfold generateCollaborativeFilteringRecommendations.
  destruct (List.length (similarUsersOf db user) =? 0)%nat eqn:Z.
  - apply Nat.eqb_eq in Z. apply length_zero_iff_nil in Z.
    assert (D : data = []).
    { unfold data. rewrite Z. unfold similarUsersDataOf. simpl.
      apply filter_none. reflexivity. }
    rewrite D. destruct (User.role user); reflexivity.
  - fold data. fold n. destruct (User.role user).
    + unfold popularExamsOf.
      rewrite (fold_left_flat_map (tally Exam._id) (neighborExams db)).
      rewrite (collab_exam_output user _ _ _
                 (fold_tally_entries Exam._id _)).
      now rewrite fold_tally_keys.
    + unfold popularOpportunitiesOf.
      rewrite (fold_left_flat_map (tally Opportunity._id) (neighborOpps db)).
      rewrite (collab_opp_output plainIncludes user _ _ _
                 (fold_tally_entries Opportunity._id _)).
      now rewrite fold_tally_keys.
Qed.

Lemma findByInterests_none db : findByInterests db [] = [].
Proof.
  unfold findByInterests. apply filter_none. intros u _.
  assert (E : existsb (str_includes []) (User.interests u) = false).
  { induction (User.interests u) as [|i l IH]; [reflexivity|exact IH]. }
  now rewrite E.
Qed.

Lemma collabRec_ids user t ref n ids l :
  map Rec.entity_id (map (collabRec user t ref n ids) l) = l.
Proof. rewrite map_map. simpl. apply map_id. Qed.

(** X8: the collaborative generator returns nothing for a learner who
    declares no interest, whatever the other users have saved; it never
    returns two records for one offering; and it never returns to a school
    learner an exam of the learner's own saved list. *)
Theorem collaborative_edge_cases
  (plainIncludes : list ObjectId -> ObjectId -> bool)
  (db : DB) (user : User.t) :
  (User.interests user = [] ->
   generateCollaborativeFilteringRecommendations plainIncludes db user = [])
  /\ NoDup (map Rec.entity_id
              (generateCollaborativeFilteringRecommendations plainIncludes
                 db user))
  /\ (User.role user = school ->
      forall r,
        In r (generateCollaborativeFilteringRecommendations plainIncludes
                db user) ->
        ~ In (Rec.entity_id r) (User.saved_exams user)).
Proof.
  split; [|split].
  - intros I. unfold generateCollaborativeFilteringRecommendations,
      similarUsersOf. rewrite I, findByInterests_none. reflexivity.
  - rewrite collaborative_output_refetched.
    destruct (User.role user); rewrite collabRec_ids;
      apply NoDup_filter, firstSeen_NoDup.
  - intros R r. rewrite collaborative_output_refetched, R.
    rewrite in_map_iff. intros [id [<- Hid]]. cbn [collabRec Rec.entity_id].
    apply filter_In in Hid. destruct Hid as [_ Hid].
    apply andb_true_iff in Hid. destruct Hid as [_ Hid].
    apply negb_true_iff in Hid. now apply oid_includes_false.
Qed.

Lemma collaborative_edge_cases_witness :
  generateCollaborativeFilteringRecommendations oid_includes Sample.campus
    Sample.plainUser = [].
Proof.
  apply (collaborative_edge_cases oid_includes Sample.campus
           Sample.plainUser).
  reflexivity.
Defined.

(** ** The preferences read off the saved lists *)

Lemma fold_left_proj {A P B : Type} (step : P -> A -> P) (proj : P -> B)
  (g : B -> A -> B) :
  (forall p a, proj (step p a) = g (proj p) a) ->
  forall l p, proj (fold_left step l p) = fold_left g l (proj p).
Proof.
  intros H l. induction l as [|a l IH]; intros p; simpl; [reflexivity|].
  now rewrite IH, H.
Qed.

Lemma fold_left_kept {A B : Type} (l : list A) (b : B) :
  fold_left (fun acc _ => acc) l b = b.
Proof. induction l; simpl; auto. Qed.

Lemma set_add_spec s x :
  (NoDup s -> NoDup (ContentBased.set_add s x))
  /\ (forall y, In y (ContentBased.set_add s x) <-> In y s \/ y = x).
Proof.
  unfold ContentBased.set_add, push.
  destruct (str_includes s x) eqn:E.
  - split; [auto|]. intros y. split; [auto|].
    intros [H | ->]; [exact H|]. now apply str_includes_In.
  - split.
    + intros N. apply NoDup_app; [exact N|repeat constructor; intros []|].
      intros y Hy [<- | []].
      apply str_includes_In in Hy. congruence.
    + intros y. rewrite in_app_iff. simpl. intuition.
Qed.

Lemma fold_set_add_spec l : forall s,
  (NoDup s -> NoDup (fold_left ContentBased.set_add l s))
  /\ (forall y, In y (fold_left ContentBased.set_add l s)
                <-> In y s \/ In y l).
Proof.
  induction l as [|x l IH]; intros s; simpl.
  - split; [auto|]. intros y. intuition.
  - destruct (IH (ContentBased.set_add s x)) as [N M].
    destruct (set_add_spec s x) as [N' M']. split.
    + auto.
    + intros y. rewrite M, M'. intuition.
Qed.

Lemma collected_spec {A : Type} (facet : A -> list string) (docs : list A) :
  NoDup (fold_left ContentBased.set_add (flat_map facet docs) [])
  /\ (forall y,
        In y (fold_left ContentBased.set_add (flat_map facet docs) [])
        <-> exists d, In d docs /\ In y (facet d)).
Proof.
  destruct (fold_set_add_spec (flat_map facet docs) []) as [N M]. split.
  - apply N. constructor.
  - intros y. rewrite M, in_flat_map. simpl. intuition.
Qed.

Lemma nonempty_false {A : Type} (l : list A) : nonempty l = false -> l = [].
Proof. destruct l; [reflexivity|discriminate]. Qed.

Lemma analyzeUserPreferences_collects db user :
  ContentBased.analyzeUserPreferences db user
  = Preferences.mk
      (fold_left ContentBased.set_add
         (flat_map Exam.subjects (savedExamDocs db user)) [])
      (fold_left ContentBased.set_add
         (flat_map Opportunity.skills_required (savedOppDocs db user)) [])
      (fold_left ContentBased.set_add
         (flat_map (fun o => valuesOf (Opportunity.domain o))
                   (savedOppDocs db user)) [])
      (fold_left ContentBased.set_add
         (flat_map (fun e => [Exam.exam_type e]) (savedExamDocs db user)) [])
      (fold_left ContentBased.set_add
         (flat_map (fun o => nameOf (Opportunity.company o))
                   (savedOppDocs db user)) [])
      (fold_left ContentBased.set_add
         (flat_map (fun o => nameOf (Opportunity.organizer o))
                   (savedOppDocs db user)) []).
Proof.
  unfold ContentBased.analyzeUserPreferences.
  set (stepE := fun (p : Preferences.t) (e : Exam.t) => _).
  set (stepO := fun (p : Preferences.t) (o : Opportunity.t) => _).
  set (p0 := Preferences.mk [] [] [] [] [] []).
  fold (savedExamDocs db user). fold (savedOppDocs db user).
  assert (E : (if nonempty (User.saved_exams user)
               then fold_left stepE (savedExamDocs db user) p0 else p0)
              = fold_left stepE (savedExamDocs db user) p0).
  { destruct (nonempty (User.saved_exams user)) eqn:Z; [reflexivity|].
    apply nonempty_false in Z. unfold savedExamDocs. rewrite Z.
    rewrite filter_none; [reflexivity|]. reflexivity. }
  rewrite E. clear E.
  set (p1 := fold_left stepE (savedExamDocs db user) p0).
  assert (O : (if nonempty (User.saved_hackathons user
                            ++ User.saved_internships user)
               then fold_left stepO (savedOppDocs db user) p1 else p1)
              = fold_left stepO (savedOppDocs db user) p1).
  { destruct (nonempty _) eqn:Z; [reflexivity|].
    apply nonempty_false in Z. unfold savedOppDocs. rewrite Z.
    rewrite filter_none; [reflexivity|]. reflexivity. }
  rewrite O. clear O.
  assert (P1 : p1 = Preferences.mk
      (fold_left ContentBased.set_add
         (flat_map Exam.subjects (savedExamDocs db user)) [])
      [] []
      (fold_left ContentBased.set_add
         (flat_map (fun e => [Exam.exam_type e]) (savedExamDocs db user)) [])
      [] []).
  { transitivity (Preferences.mk (Preferences.subjects p1)
      (Preferences.skills p1) (Preferences.domains p1)
      (Preferences.examTypes p1) (Preferences.companies p1)
      (Preferences.organizers p1)); [now destruct p1|].
    unfold p1.
    rewrite (fold_left_proj stepE Preferences.subjects
               (fun acc e =>
                  fold_left ContentBased.set_add (Exam.subjects e) acc))
      by reflexivity.
    rewrite (fold_left_proj stepE Preferences.examTypes
               (fun acc e =>
                  fold_left ContentBased.set_add [Exam.exam_type e] acc))
      by reflexivity.
    rewrite (fold_left_proj stepE Preferences.skills (fun acc _ => acc))
      by reflexivity.
    rewrite (fold_left_proj stepE Preferences.domains (fun acc _ => acc))
      by reflexivity.
    rewrite (fold_left_proj stepE Preferences.companies (fun acc _ => acc))
      by reflexivity.
    rewrite (fold_left_proj stepE Preferences.organizers (fun acc _ => acc))
      by reflexivity.
    rewrite !fold_left_kept, !fold_left_flat_map. reflexivity. }
  set (p2 := fold_left stepO (savedOppDocs db user) p1).
  transitivity (Preferences.mk (Preferences.subjects p2)
      (Preferences.skills p2) (Preferences.domains p2)
      (Preferences.examTypes p2) (Preferences.companies p2)
      (Preferences.organizers p2)); [now destruct p2|].
  unfold p2.
  rewrite (fold_left_proj stepO Preferences.subjects (fun acc _ => acc))
    by reflexivity.
  rewrite (fold_left_proj stepO Preferences.examTypes (fun acc _ => acc))
    by reflexivity.
  rewrite (fold_left_proj stepO Preferences.skills
             (fun acc o =>
                fold_left ContentBased.set_add
                  (Opportunity.skills_required o) acc))
    by reflexivity.
  rewrite (fold_left_proj stepO Preferences.domains
             (fun acc o =>
                fold_left ContentBased.set_add
                  (valuesOf (Opportunity.domain o)) acc)).
  2:{ intros p o. unfold stepO. cbn [Preferences.domains].
      destruct (Opportunity.domain o); reflexivity. }
  rewrite (fold_left_proj stepO Preferences.companies
             (fun acc o =>
                fold_left ContentBased.set_add
                  (nameOf (Opportunity.company o)) acc)).
  2:{ intros p o. unfold stepO, nameOf. cbn [Preferences.companies].
      destruct (truthy_str (Opportunity.company o)); reflexivity. }
  rewrite (fold_left_proj stepO Preferences.organizers
             (fun acc o =>
                fold_left ContentBased.set_add
                  (nameOf (Opportunity.organizer o)) acc)).
  2:{ intros p o. unfold stepO, nameOf. cbn [Preferences.organizers].
      destruct (truthy_str (Opportunity.organizer o)); reflexivity. }
  rewrite !fold_left_kept, !fold_left_flat_map, P1. reflexivity.
Qed.

Lemma nameOf_In field y : In y (nameOf field) <-> truthy_str field = Some y.
Proof.
  unfold nameOf. destruct (truthy_str field); simpl.
  - split; [intros [-> | []]; reflexivity|intros [= ->]; now left].
  - split; [intros []|discriminate].
Qed.

(** X9: the preferences of a learner hold each value once, and hold
    exactly the values found on the stored offerings of the saved lists:
    subjects and exam types of the saved exams, skills, domains and the
    non-empty company and organizer names of the saved opportunities.  A
    saved id with no stored document contributes nothing. *)
Theorem preferences_collect_saved_facets (db : DB) (user : User.t) :
  let p := ContentBased.analyzeUserPreferences db user in
  (NoDup (Preferences.subjects p) /\ NoDup (Preferences.skills p)
   /\ NoDup (Preferences.domains p) /\ NoDup (Preferences.examTypes p)
   /\ NoDup (Preferences.companies p) /\ NoDup (Preferences.organizers p))
  /\ (forall s, In s (Preferences.subjects p)
                <-> exists e, In e (savedExamDocs db user)
                              /\ In s (Exam.subjects e))
  /\ (forall t, In t (Preferences.examTypes p)
                <-> exists e, In e (savedExamDocs db user)
                              /\ Exam.exam_type e = t)
  /\ (forall s, In s (Preferences.skills p)
                <-> exists o, In o (savedOppDocs db user)
                              /\ In s (Opportunity.skills_required o))
  /\ (forall d, In d (Preferences.domains p)
                <-> exists o ds, In o (savedOppDocs db user)
                                 /\ Opportunity.domain o = Some ds
                                 /\ In d ds)
  /\ (forall c, In c (Preferences.companies p)
                <-> exists o, In o (savedOppDocs db user)
                              /\ truthy_str (Opportunity.company o) = Some c)
  /\ (forall g, In g (Preferences.organizers p)
                <-> exists o, In o (savedOppDocs db user)
                              /\ truthy_str (Opportunity.organizer o)
                                 = Some g).
Proof.
  intros p. unfold p. rewrite analyzeUserPreferences_collects.
  cbn [Preferences.subjects Preferences.skills Preferences.domains
       Preferences.examTypes Preferences.companies Preferences.organizers].
  split; [repeat split; apply collected_spec|].
  split; [apply collected_spec|].
  split.
  { intros t. split.
    - intros H. apply collected_spec in H. destruct H as [e [I [E | []]]].
      eauto.
    - intros [e [I E]]. apply collected_spec. exists e. split; [exact I|].
      now left. }
  split; [apply collected_spec|].
  split.
  { intros d. split.
    - intros H. apply collected_spec in H. destruct H as [o [I D]].
      unfold valuesOf in D. destruct (Opportunity.domain o) as [ds|] eqn:E;
        [|destruct D]. eauto.
    - intros [o [ds [I [E D]]]]. apply collected_spec. exists o.
      split; [exact I|]. unfold valuesOf. now rewrite E. }
  split.
  - intros c. split.
    + intros H. apply collected_spec in H. destruct H as [o [I D]].
      apply nameOf_In in D. eauto.
    + intros [o [I D]]. apply collected_spec. exists o. split; [exact I|].
      now apply nameOf_In.
  - intros g. split.
    + intros H. apply collected_spec in H. destruct H as [o [I D]].
      apply nameOf_In in D. eauto.
    + intros [o [I D]]. apply collected_spec. exists o. split; [exact I|].
      now apply nameOf_In.
Qed.

(** ** The service entry point *)

Lemma docsOf_storedAs now : forall recs n,
  Forall2 storedAs recs (docsOf now n recs).
Proof.
  induction recs as [|r recs IH]; intros n; simpl; constructor.
  - repeat split.
  - apply IH.
Qed.

Lemma docsOf_live now userId : forall recs n,
  Forall (fun r => Rec.user_id r = userId) recs ->
  Forall (liveOf userId) (docsOf now n recs).
Proof.
  induction recs as [|r recs IH]; intros n F; simpl; constructor.
  - inversion F; subst. split; reflexivity.
  - apply IH. now inversion F.
Qed.

Lemma docsOf_length now : forall recs n,
  List.length (docsOf now n recs) = List.length recs.
Proof. induction recs as [|r recs IH]; intros n; simpl; auto. Qed.

Lemma store_if_nonempty db now recs :
  let db' := if nonempty recs then insertMany db now recs else db in
  sameCatalogue db db'
  /\ recommendations db' = recommendations db ++ docsOf now (oid_seq db) recs
  /\ oid_seq db' = (oid_seq db + List.length recs)%nat.
Proof.
  destruct recs as [|r recs]; simpl.
  - rewrite app_nil_r, Nat.add_0_r. repeat split.
  - repeat split.
Qed.

Lemma chosen_generator_owner plainIncludes db now user algorithm recs :
  (if String.eqb algorithm "rule_based" then
     Some (RuleBased.generateRuleBasedRecommendations db now user)
   else if String.eqb algorithm "content_based" then
     Some (ContentBased.generateContentBasedRecommendations db now user)
   else if String.eqb algorithm "collaborative_filtering" then
     Some (generateCollaborativeFilteringRecommendations plainIncludes
             db user)
   else if String.eqb algorithm "hybrid" then
     Some (generateHybridRecommendations plainIncludes db now user)
   else None) = Some recs ->
  In algorithm knownAlgorithms /\ Forall (madeFor user) recs.
Proof.
  unfold knownAlgorithms.
  destruct (String.eqb_spec algorithm "rule_based") as [-> |].
  { intros [= <-]. split; [simpl; auto|].
    eapply Forall_impl; [|apply rule_based_madeFor]. intros r [H _].
    exact H. }
  destruct (String.eqb_spec algorithm "content_based") as [-> |].
  { intros [= <-]. split; [simpl; auto|].
    eapply Forall_impl; [|apply content_based_madeFor]. intros r [H _].
    exact H. }
  destruct (String.eqb_spec algorithm "collaborative_filtering") as [-> |].
  { intros [= <-]. split; [simpl; auto|].
    eapply Forall_impl; [|apply collaborative_madeFor]. intros r [H _].
    exact H. }
  destruct (String.eqb_spec algorithm "hybrid") as [-> |].
  { intros [= <-]. split; [simpl; auto 6|]. apply hybrid_madeFor. }
  discriminate.
Qed.

(** X10: called with the string of an ObjectId (24 digits of 0-9a-f),
    the service entry point throws "User not found" when no user has the
    id, whatever the algorithm; for a stored user it throws
    "Invalid algorithm specified" for a name other than the four, and
    returns for each of the four.  A
    call that returns only appends: users, exams, opportunities and the
    stored recommendations are kept as they were, and one document per
    returned record is added after them, in the order returned, each with
    the fields of its record and the learner's id, active and without
    interaction. *)
Theorem service_generation_outcomes
  (plainIncludes : list ObjectId -> ObjectId -> bool)
  (db : DB) (now : Z) (userId : ObjectId) (algorithm : string) :
  (isObjectIdHex userId = true ->
   findUserById db userId = None ->
   generateRecommendations plainIncludes db now userId algorithm
   = Throws "User not found")
  /\ (findUserById db userId <> None ->
      ~ In algorithm knownAlgorithms ->
      generateRecommendations plainIncludes db now userId algorithm
      = Throws "Invalid algorithm specified")
  /\ (findUserById db userId <> None ->
      In algorithm knownAlgorithms ->
      returned (generateRecommendations plainIncludes db now userId
                  algorithm) = true)
  /\ (forall recs db',
        generateRecommendations plainIncludes db now userId algorithm
        = Returns (recs, db') ->
        sameCatalogue db db'
        /\ exists added,
             recommendations db' = recommendations db ++ added
             /\ Forall2 storedAs recs added
             /\ Forall (liveOf userId) added).
Proof.
  unfold generateRecommendations.
  destruct (findUserById db userId) as [user|] eqn:U.
  2:{ split; [reflexivity|]. split; [congruence|]. split; [congruence|].
      discriminate. }
  split; [discriminate|].
  split; [|split].
  - intros _ N. unfold knownAlgorithms in N. simpl in N.
    assert (E : forall s, In s knownAlgorithms ->
                          String.eqb algorithm s = false).
    { intros s I. apply String.eqb_neq. intros ->. unfold knownAlgorithms in I.
      simpl in I. tauto. }
    rewrite !E by (unfold knownAlgorithms; simpl; auto 6).
    reflexivity.
  - intros _ K. unfold knownAlgorithms in K. simpl in K.
    destruct K as [<- | [<- | [<- | [<- | []]]]]; reflexivity.
  - intros recs db'.
    destruct (if String.eqb algorithm "rule_based" then _ else _)
      as [chosen|] eqn:C; [|discriminate].
    intros [= -> <-].
    apply (chosen_generator_owner plainIncludes) in C.
    destruct C as [_ F].
    destruct (store_if_nonempty db now recs) as [S1 [S2 _]].
    split; [exact S1|].
    exists (docsOf now (oid_seq db) recs).
    split; [exact S2|]. split; [apply docsOf_storedAs|].
    apply docsOf_live. eapply Forall_impl; [|exact F].
    intros r [H _]. rewrite H. now apply findUserById_id in U.
Qed.

Lemma service_generation_outcomes_witness :
  generateRecommendations sameObjectIncludes Sample.catalog 0
    "64b7f0c2a1d3e4f5a6b7c8d9" "hybrid"
  = Throws "User not found"
  /\ generateRecommendations sameObjectIncludes Sample.catalog 0 "u1"
       "popular"
     = Throws "Invalid algorithm specified"
  /\ returned (generateRecommendations sameObjectIncludes Sample.catalog 0
                 "u1" "hybrid") = true.
Proof.
  split; [|split].
  - apply (service_generation_outcomes sameObjectIncludes Sample.catalog 0
             "64b7f0c2a1d3e4f5a6b7c8d9" "hybrid"); reflexivity.
  - apply (service_generation_outcomes sameObjectIncludes Sample.catalog 0
             "u1" "popular").
    + discriminate.
    + unfold knownAlgorithms. simpl.
      intros [H | [H | [H | [H | []]]]]; discriminate.
  - apply (service_generation_outcomes sameObjectIncludes Sample.catalog 0
             "u1" "hybrid").
    + discriminate.
    + unfold knownAlgorithms. simpl. auto 6.
Defined.

(** ** The handler that regenerates *)

Lemma filter_all {A : Type} (f : A -> bool) (l : list A) :
  Forall (fun a => f a = true) l -> filter f l = l.
Proof.
  induction 1 as [|a l H _ IH]; simpl; [reflexivity|].
  now rewrite H, IH.
Qed.

Lemma live_owner userId docs :
  Forall (liveOf userId) docs ->
  filter (fun d => String.eqb (Recommendation.user_id d) userId) docs = docs
  /\ filter (fun d => negb (String.eqb (Recommendation.user_id d) userId))
       docs = [].
Proof.
  intros F. split.
  - apply filter_all. eapply Forall_impl; [|exact F].
    intros d [H _]. rewrite H. apply String.eqb_refl.
  - apply filter_none. intros d I.
    rewrite Forall_forall in F. destruct (F d I) as [H _].
    rewrite H, String.eqb_refl. reflexivity.
Qed.

Lemma filter_negb_twice {A : Type} (f : A -> bool) (l : list A) :
  filter f (filter (fun a => negb (f a)) l) = []
  /\ filter (fun a => negb (f a)) (filter (fun a => negb (f a)) l)
     = filter (fun a => negb (f a)) l.
Proof.
  split.
  - apply filter_none. intros a I. apply filter_In in I.
    destruct I as [_ I]. now apply negb_true_iff in I.
  - apply filter_all. apply Forall_forall. intros a I.
    apply filter_In in I. tauto.
Qed.

Lemma controller_batch_catalogue db db' now user :
  sameCatalogue db db' ->
  Controller.newRecommendationsOf db' now user
  = Controller.newRecommendationsOf db now user.
Proof.
  intros [_ [E O]]. unfold Controller.newRecommendationsOf.
  now rewrite E, O.
Qed.

Lemma controller_generate_found db now userId user :
  findUserById db userId = Some user ->
  let batch := Controller.newRecommendationsOf db now user in
  let db' := snd (Controller.generateRecommendations db now userId) in
  fst (Controller.generateRecommendations db now userId)
  = mkResponse 200 "Recommendations generated successfully"
      (Generated (List.length batch))
  /\ sameCatalogue db db'
  /\ oid_seq db' = (oid_seq db + List.length batch)%nat
  /\ recommendations db'
     = docsOfOthers db userId ++ docsOf now (oid_seq db) batch.
Proof.
  intros U batch db'. unfold db', Controller.generateRecommendations.
  rewrite U.
  change (Controller.newRecommendationsOf (deleteMany db userId) now user)
    with batch.
  cbn [fst snd].
  destruct (store_if_nonempty (deleteMany db userId) now batch)
    as [[S1 [S2 S3]] [S4 S5]].
  split; [reflexivity|]. split; [|split].
  - repeat split; assumption.
  - exact S5.
  - exact S4.
Qed.

Lemma handler_store_parts db now userId user :
  findUserById db userId = Some user ->
  let batch := Controller.newRecommendationsOf db now user in
  let db' := snd (Controller.generateRecommendations db now userId) in
  docsOfOthers db' userId = docsOfOthers db userId
  /\ docsOfLearner db' userId = docsOf now (oid_seq db) batch
  /\ Forall (liveOf userId) (docsOf now (oid_seq db) batch).
Proof.
  intros U batch db'.
  destruct (controller_generate_found db now userId user U)
    as [_ [_ [_ D]]].
  fold db' in D. fold batch in D.
  assert (F : Forall (liveOf userId) (docsOf now (oid_seq db) batch)).
  { apply docsOf_live. eapply Forall_impl; [|apply controller_batch_owner].
    intros r H. rewrite H. now apply findUserById_id in U. }
  destruct (live_owner _ _ F) as [Own Oth].
  destruct (filter_negb_twice
              (fun d => String.eqb (Recommendation.user_id d) userId)
              (recommendations db)) as [N1 N2].
  split; [|split].
  - unfold docsOfOthers at 1. rewrite D, filter_app. unfold docsOfOthers.
    rewrite N2, Oth. apply app_nil_r.
  - unfold docsOfLearner. rewrite D, filter_app. unfold docsOfOthers.
    rewrite N1, Own. reflexivity.
  - exact F.
Qed.

(** X11: the handler that regenerates answers 404 and changes nothing when
    no user has the id.  Otherwise it answers 200 with the size of its
    batch; users, exams and opportunities are kept; the records of every
    other learner are kept, in their order; the records of this learner are
    replaced by the batch: they are exactly one document per record of the
    batch, in its order, each with the fields of its record, active and
    without interaction, and their number is the
    [recommendations_generated] of the answer. *)
Theorem handler_replaces_learner_records
  (db : DB) (now : Z) (userId : ObjectId) :
  let db' := snd (Controller.generateRecommendations db now userId) in
  match findUserById db userId with
  | None =>
      Controller.generateRecommendations db now userId
      = (mkResponse 404 "User not found" NoData, db)
  | Some user =>
      let batch := Controller.newRecommendationsOf db now user in
      fst (Controller.generateRecommendations db now userId)
      = mkResponse 200 "Recommendations generated successfully"
          (Generated (List.length (docsOfLearner db' userId)))
      /\ sameCatalogue db db'
      /\ docsOfOthers db' userId = docsOfOthers db userId
      /\ Forall2 storedAs batch (docsOfLearner db' userId)
      /\ map triple (docsOfLearner db' userId) = map recTriple batch
      /\ map Recommendation.score (docsOfLearner db' userId)
         = map Rec.score batch
  end.
Proof.
  intros db'. destruct (findUserById db userId) as [user|] eqn:U.
  2:{ unfold Controller.generateRecommendations. now rewrite U. }
  intros batch.
  destruct (controller_generate_found db now userId user U)
    as [R [S _]].
  destruct (handler_store_parts db now userId user U) as [O [L F]].
  fold db' in R, S, O, L. fold batch in R, L, F.
  split.
  { rewrite R, L, docsOf_length. reflexivity. }
  split; [exact S|]. split; [exact O|]. rewrite L.
  split; [apply docsOf_storedAs|].
  split; [apply docsOf_triples|apply docsOf_scores].
Qed.

(** X12: a second run of the handler leaves nothing of the first: after
    it the store holds the records the other learners had before the first
    run, followed by the batch a single run at the time of the second would
    have stored (under later ids), and the handler answers as that single
    run would. *)
Theorem handler_rerun_forgets_first_run
  (db : DB) (now1 now2 : Z) (userId : ObjectId) :
  let db1 := snd (Controller.generateRecommendations db now1 userId) in
  let db2 := snd (Controller.generateRecommendations db1 now2 userId) in
  fst (Controller.generateRecommendations db1 now2 userId)
  = fst (Controller.generateRecommendations db now2 userId)
  /\ match findUserById db userId with
     | None => db2 = db
     | Some user =>
         recommendations db2
         = docsOfOthers db userId
           ++ docsOf now2 (oid_seq db1)
                (Controller.newRecommendationsOf db now2 user)
         /\ map triple (docsOfLearner db2 userId)
            = map triple
                (docsOfLearner
                   (snd (Controller.generateRecommendations db now2 userId))
                   userId)
     end.
Proof.
  intros db1 db2. destruct (findUserById db userId) as [user|] eqn:U.
  2:{ unfold db2, db1, Controller.generateRecommendations.
      rewrite U. cbn [snd]. rewrite U. split; reflexivity. }
  destruct (controller_generate_found db now1 userId user U)
    as [_ [S1 _]].
  fold db1 in S1.
  assert (U1 : findUserById db1 userId = Some user).
  { unfold findUserById. destruct S1 as [-> _]. exact U. }
  destruct (controller_generate_found db1 now2 userId user U1)
    as [R2 [_ [_ D2]]].
  fold db2 in D2.
  destruct (controller_generate_found db now2 userId user U)
    as [R [_ _]].
  rewrite (controller_batch_catalogue db db1 now2 user S1) in R2, D2.
  destruct (handler_store_parts db now1 userId user U) as [O1 _].
  fold db1 in O1.
  destruct (handler_store_parts db1 now2 userId user U1) as [_ [L2 _]].
  fold db2 in L2.
  destruct (handler_store_parts db now2 userId user U) as [_ [L _]].
  split; [now rewrite R, R2|].
  split.
  - rewrite D2, O1. reflexivity.
  - rewrite L2, L, (controller_batch_catalogue db db1 now2 user S1).
    now rewrite !docsOf_triples.
Qed.

(** ** Interactions, one after another *)

Lemma findByIdAndUpdate_cons id update d rest :
  snd (findByIdAndUpdate id update (d :: rest))
  = if String.eqb (Recommendation._id d) id then update d :: rest
    else d :: snd (findByIdAndUpdate id update rest).
Proof.
  simpl. destruct (String.eqb (Recommendation._id d) id); [reflexivity|].
  now destruct (findByIdAndUpdate id update rest).
Qed.





Lemma updateInteraction_store db now id kind :
  snd (updateInteraction db now id kind)
  = mkDB (users db) (exams db) (opportunities db)
      (snd (findByIdAndUpdate id (touched kind now) (recommendations db)))
      (oid_seq db).
Proof.
  unfold updateInteraction, touched.
  now destruct (findByIdAndUpdate _ _ _).
Qed.




(** ** The queries of the model *)

Lemma rankLeb_total a b : rankLeb a b = true \/ rankLeb b a = true.
Proof.
  destruct a as [x| | |], b as [y| | |]; simpl; auto.
  destruct (Qle_bool x y) eqn:E; [now left|right].
  apply Qle_bool_iff. apply Qlt_le_weak. apply Qnot_le_lt.
  intros H. apply Qle_bool_iff in H. congruence.
Qed.

Lemma rankLeb_trans a b c :
  rankLeb a b = true -> rankLeb b c = true -> rankLeb a c = true.
Proof.
  destruct a as [x| | |], b as [y| | |], c as [z| | |]; simpl; auto;
    try discriminate.
  rewrite !Qle_bool_iff. apply Qle_trans.
Qed.

Lemma servedBefore_trans a b c :
  servedBefore a b -> servedBefore b c -> servedBefore a c.
Proof.
  unfold servedBefore. intros H1 H2. eapply rankLeb_trans; eassumption.
Qed.

Lemma insertByScore_perm d l : Permutation (insertByScore d l) (d :: l).
Proof.
  induction l as [|x l IH]; simpl; [reflexivity|].
  destruct (rankLeb _ _); [|reflexivity].
  rewrite IH. apply perm_swap.
Qed.

Lemma sortByScoreDesc_perm l : Permutation (sortByScoreDesc l) l.
Proof.
  induction l as [|d l IH]; simpl; [constructor|].
  rewrite insertByScore_perm. now constructor.
Qed.

Lemma insertByScore_sorted d l :
  StronglySorted servedBefore l ->
  StronglySorted servedBefore (insertByScore d l).
Proof.
  induction 1 as [|x l S IH F]; simpl.
  - repeat constructor.
  - destruct (rankLeb (Recommendation.score d) (Recommendation.score x))
      eqn:E.
    + constructor; [exact IH|].
      apply Forall_forall. intros y Hy.
      apply (Permutation_in _ (insertByScore_perm d l)) in Hy.
      destruct Hy as [<- | Hy]; [exact E|].
      rewrite Forall_forall in F. now apply F.
    + assert (B : servedBefore d x).
      { unfold servedBefore.
        destruct (rankLeb_total (Recommendation.score d)
                    (Recommendation.score x)); congruence. }
      constructor; [now constructor|].
      constructor; [exact B|].
      eapply Forall_impl; [|exact F]. intros y. now apply servedBefore_trans.
Qed.

Lemma sortByScoreDesc_sorted l :
  StronglySorted servedBefore (sortByScoreDesc l).
Proof.
  induction l as [|d l IH]; simpl; [constructor|].
  now apply insertByScore_sorted.
Qed.

Lemma StronglySorted_app_parts {A : Type} (R : A -> A -> Prop) (a b : list A) :
  StronglySorted R (a ++ b) ->
  StronglySorted R a /\ forall x y, In x a -> In y b -> R x y.
Proof.
  induction a as [|x a IH]; simpl; intros S.
  - split; [constructor|intros ? ? []].
  - inversion S as [|? ? S' F]; subst. destruct (IH S') as [Sa Rab].
    rewrite Forall_forall in F. split.
    + constructor; [exact Sa|]. apply Forall_forall. intros y Hy.
      apply F. apply in_or_app. now left.
    + intros u v [<- | Hu] Hv.
      * apply F. apply in_or_app. now right.
      * now apply Rab.
Qed.

Lemma applyLimit_split {A : Type} (limit : nat) (l : list A) :
  exists rest,
    l = applyLimit limit l ++ rest
    /\ List.length (applyLimit limit l)
       = (if (limit =? 0)%nat then List.length l
          else Nat.min limit (List.length l)).
Proof.
  unfold applyLimit. destruct (limit =? 0)%nat.
  - exists []. now rewrite app_nil_r.
  - exists (skipn limit l). split.
    + symmetry. apply firstn_skipn.
    + apply length_firstn.
Qed.

Lemma populateEntity_entityOf db d e :
  populateEntity db d = Some e -> entityOf db d e.
Proof.
  unfold populateEntity.
  destruct (String.eqb_spec (Recommendation.entity_type_ref d) "Exam")
    as [R|R].
  - destruct (find _ (exams db)) as [x|] eqn:F; [|discriminate].
    intros [= <-]. apply find_some in F. destruct F as [I E].
    apply String.eqb_eq in E. simpl. auto.
  - destruct (String.eqb_spec (Recommendation.entity_type_ref d)
                "Opportunity") as [R'|R']; [|discriminate].
    destruct (find _ (opportunities db)) as [o|] eqn:F; [|discriminate].
    intros [= <-]. apply find_some in F. destruct F as [I E].
    apply String.eqb_eq in E. simpl. auto.
Qed.

Lemma served_spec sortByScore db limit q :
  (forall l, Permutation (sortByScore l) l) ->
  (forall l, StronglySorted servedBefore (sortByScore l)) ->
  servedSpec db limit q
    (map (fun d => (d, populateEntity db d))
       (applyLimit limit (sortByScore (filter q (recommendations db))))).
Proof.
  intros P S. unfold servedSpec.
  set (matched := filter q (recommendations db)).
  destruct (applyLimit_split limit (sortByScore matched)) as [rest [E L]].
  set (out := applyLimit limit (sortByScore matched)) in *.
  assert (M : map fst (map (fun d => (d, populateEntity db d)) out) = out).
  { rewrite map_map. simpl. apply map_id. }
  rewrite M, length_map.
  pose proof (S matched) as So. rewrite E in So.
  apply StronglySorted_app_parts in So. destruct So as [So Top].
  split; [|split; [|split]].
  - apply Forall_forall. intros p Hp. apply in_map_iff in Hp.
    destruct Hp as [d [<- Hd]]. cbn [fst snd].
    assert (I : In d matched).
    { apply (Permutation_in _ (P matched)). rewrite E.
      apply in_or_app. now left. }
    apply filter_In in I. destruct I as [I Q].
    split; [exact I|]. split; [exact Q|].
    intros e. apply populateEntity_entityOf.
  - rewrite L. now rewrite (Permutation_length (P matched)).
  - exact So.
  - exists rest. split; [|exact Top]. rewrite <- E. apply P.
Qed.

Lemma forUserQuery_true now userId entityType d :
  forUserQuery now userId entityType d = true
  <-> Recommendation.user_id d = userId
      /\ Recommendation.is_active d = true
      /\ (now < Recommendation.expires_at d)%Z
      /\ forall t, truthy_str entityType = Some t ->
                   EntityType_str (Recommendation.entity_type d) = t.
Proof.
  unfold forUserQuery, servable.
  rewrite !andb_true_iff, String.eqb_eq, Z.ltb_lt.
  destruct (truthy_str entityType) as [t|].
  - rewrite String.eqb_eq. split.
    + intros [[[A B] C] D]. repeat split; auto. now intros ? [= <-].
    + intros [A [B [C D]]]. repeat split; auto.
  - split.
    + intros [[[A B] C] _]. repeat split; auto. discriminate.
    + intros [A [B [C _]]]. repeat split; auto.
Qed.

Lemma topQuery_true now userId d :
  topQuery now userId d = true
  <-> Recommendation.user_id d = userId
      /\ Recommendation.is_active d = true
      /\ (now < Recommendation.expires_at d)%Z
      /\ viewed (Recommendation.user_interaction d) = false.
Proof.
  unfold topQuery, servable.
  rewrite !andb_true_iff, String.eqb_eq, Z.ltb_lt, negb_true_iff. tauto.
Qed.

(** X14: whatever descending order by score the server returns (a
    permutation of the matched documents, sorted), [findForUser] and
    [findTopRecommendations] return stored records only, each of the
    learner, active and not yet expired at the time of the call, of the
    requested entity type (when one is given) respectively not yet viewed,
    each with the stored offering its reference names or with none; the
    results are by descending score, as many as match or as the limit
    allows (0 is no limit), and what is left out ranks no higher than what
    is returned.  An entity type that is neither empty nor one of the two
    names of the model yields nothing. *)
Theorem queries_serve_best_live_records
  (sortByScore : list Recommendation.t -> list Recommendation.t)
  (db : DB) (now : Z) (userId : ObjectId) (entityType : option string)
  (limit : nat) :
  (forall l, Permutation (sortByScore l) l) ->
  (forall l, StronglySorted servedBefore (sortByScore l)) ->
  servedSpec db limit (forUserQuery now userId entityType)
    (findForUser sortByScore db now userId entityType limit)
  /\ servedSpec db limit (topQuery now userId)
       (findTopRecommendations sortByScore db now userId limit)
  /\ (forall d,
        forUserQuery now userId entityType d = true
        <-> Recommendation.user_id d = userId
            /\ Recommendation.is_active d = true
            /\ (now < Recommendation.expires_at d)%Z
            /\ forall t, truthy_str entityType = Some t ->
                         EntityType_str (Recommendation.entity_type d) = t)
  /\ (forall d,
        topQuery now userId d = true
        <-> Recommendation.user_id d = userId
            /\ Recommendation.is_active d = true
            /\ (now < Recommendation.expires_at d)%Z
            /\ viewed (Recommendation.user_interaction d) = false)
  /\ (forall t,
        entityType = Some t ->
        t <> ""%string -> t <> "exam"%string -> t <> "opportunity"%string ->
        findForUser sortByScore db now userId entityType limit = []).
Proof.
  intros P S.
  split; [apply served_spec; assumption|].
  split; [apply served_spec; assumption|].
  split; [intros d; apply forUserQuery_true|].
  split; [intros d; apply topQuery_true|].
  intros t -> N0 N1 N2. unfold findForUser.
  rewrite filter_none.
  - pose proof (P []) as Pn. apply Permutation_sym, Permutation_nil in Pn.
    rewrite Pn. unfold applyLimit. destruct (limit =? 0)%nat; [reflexivity|].
    now rewrite firstn_nil.
  - intros d _. unfold forUserQuery.
    assert (T : truthy_str (Some t) = Some t).
    { destruct t; [congruence|reflexivity]. }
    rewrite T. apply andb_false_iff. right. apply String.eqb_neq.
    destruct (Recommendation.entity_type d); simpl; congruence.
Qed.

Lemma queries_serve_best_live_records_witness :
  servedSpec (Sample.store true) 20 (forUserQuery 0 "u1" None)
    (findForUser sortByScoreDesc (Sample.store true) 0 "u1" None 20).
Proof.
  apply (queries_serve_best_live_records sortByScoreDesc (Sample.store true)
           0 "u1" None 20).
  - apply sortByScoreDesc_perm.
  - apply sortByScoreDesc_sorted.
Defined.

(** ** Interactions and the queries *)

Lemma updated_docs_with_id id update : forall docs d,
  NoDup (map Recommendation._id docs) ->
  (forall x, Recommendation._id (update x) = Recommendation._id x) ->
  In d (snd (findByIdAndUpdate id update docs)) ->
  (Recommendation._id d = id /\ exists d0, In d0 docs /\ d = update d0)
  \/ (Recommendation._id d <> id /\ In d docs).
Proof.
  induction docs as [|x rest IH]; intros d N U I; [destruct I|].
  rewrite findByIdAndUpdate_cons in I. simpl in N.
  inversion N as [|? ? Nx Nrest]; subst.
  destruct (String.eqb_spec (Recommendation._id x) id) as [E|E].
  - destruct I as [<- | I].
    + left. rewrite U. split; [exact E|]. exists x. split; [now left|].
      reflexivity.
    + right. split; [|now right]. intros E'. apply Nx.
      rewrite E, <- E'. now apply in_map.
  - destruct I as [<- | I].
    + right. split; [exact E|now left].
    + destruct (IH d Nrest U I) as [[A [d0 [B C]]] | [A B]].
      * left. split; [exact A|]. exists d0. split; [now right|exact C].
      * right. split; [exact A|now right].
Qed.

Lemma served_In sortByScore db limit q p :
  (forall l, Permutation (sortByScore l) l) ->
  In p (map (fun d => (d, populateEntity db d))
          (applyLimit limit (sortByScore (filter q (recommendations db))))) ->
  In (fst p) (recommendations db) /\ q (fst p) = true.
Proof.
  intros P I. apply in_map_iff in I. destruct I as [d [<- I]]. cbn [fst].
  assert (I' : In d (sortByScore (filter q (recommendations db)))).
  { unfold applyLimit in I. destruct (limit =? 0)%nat; [exact I|].
    now apply firstn_In in I. }
  apply (Permutation_in _ (P _)) in I'. now apply filter_In in I'.
Qed.

(** X15: once a record is marked viewed, [findTopRecommendations] no
    longer returns it, for any learner, time and limit (the ids of the
    stored records being distinct); marking it saved or applied does not
    change whether it matches that query, and no interaction changes
    whether a record matches the query of [findForUser]. *)
Theorem viewed_record_leaves_top
  (sortByScore : list Recommendation.t -> list Recommendation.t)
  (db : DB) (t : Z) (id : ObjectId) :
  (forall l, Permutation (sortByScore l) l) ->
  NoDup (map Recommendation._id (recommendations db)) ->
  (forall now userId limit p,
     In p (findTopRecommendations sortByScore
             (snd (updateInteraction db t id on_viewed)) now userId limit) ->
     Recommendation._id (fst p) <> id)
  /\ (forall kind now userId d,
        kind <> on_viewed ->
        topQuery now userId (touched kind t d) = topQuery now userId d)
  /\ (forall kind now userId entityType d,
        forUserQuery now userId entityType (touched kind t d)
        = forUserQuery now userId entityType d).
Proof.
  intros P N. split; [|split].
  - intros now userId limit p I E.
    apply (served_In sortByScore _ limit (topQuery now userId) p P) in I.
    destruct I as [I Q]. rewrite updateInteraction_store in I.
    cbn [recommendations] in I.
    apply updated_docs_with_id in I; [|exact N|intros x; apply touched_id].
    destruct I as [[_ [d0 [_ D]]] | [A _]]; [|contradiction].
    rewrite D in Q. unfold topQuery in Q.
    apply andb_true_iff in Q. destruct Q as [_ Q]. discriminate.
  - intros kind now userId d K. destruct kind; [congruence| |]; reflexivity.
  - intros kind now userId entityType d. destruct kind; reflexivity.
Qed.

Lemma viewed_record_leaves_top_witness :
  findTopRecommendations sortByScoreDesc
    (snd (updateInteraction (Sample.store true) 1000 "r0" on_viewed))
    0 "u1" 10 = []
  /\ List.length
       (findTopRecommendations sortByScoreDesc (Sample.store true) 0 "u1"
          10) = 1%nat.
Proof.
  split; [|reflexivity].
  pose proof (viewed_record_leaves_top sortByScoreDesc (Sample.store true)
                1000 "r0" sortByScoreDesc_perm) as H.
  destruct H as [H _]; [repeat constructor; intros []|].
  destruct (findTopRecommendations sortByScoreDesc
              (snd (updateInteraction (Sample.store true) 1000 "r0"
                      on_viewed)) 0 "u1" 10) as [|p l] eqn:E;
    [reflexivity|].
  exfalso. apply (H 0%Z "u1"%string 10%nat p).
  - rewrite E. now left.
  - vm_compute in E. discriminate.
Defined.

(** ** The ids of the stored records *)

Lemma oid_of_nat_inj n m : oid_of_nat n = oid_of_nat m -> n = m.
Proof.
  unfold oid_of_nat. simpl. intros [= H].
  apply Unsigned.to_uint_inj.
  pose proof (NilEmpty.usu (Nat.to_uint n)) as A.
  pose proof (NilEmpty.usu (Nat.to_uint m)) as B.
  rewrite H in A. congruence.
Qed.

Lemma docsOf_ids now : forall recs n,
  map Recommendation._id (docsOf now n recs)
  = map oid_of_nat (seq n (List.length recs)).
Proof.
  induction recs as [|r recs IH]; intros n; simpl; [reflexivity|].
  now rewrite IH.
Qed.

Lemma insertMany_ids db now recs :
  idsInSequence db -> idsInSequence (insertMany db now recs).
Proof.
  intros [N B]. unfold idsInSequence, insertMany.
  cbn [recommendations oid_seq]. rewrite map_app, docsOf_ids. split.
  - apply NoDup_app.
    + exact N.
    + apply Finite.Injective_map_NoDup; [|apply seq_NoDup].
      intros a b. apply oid_of_nat_inj.
    + intros i Hi Hj. rewrite Forall_forall in B.
      destruct (B i Hi) as [k [Lt ->]].
      apply in_map_iff in Hj. destruct Hj as [j [E Hj]].
      apply oid_of_nat_inj in E. subst j. apply in_seq in Hj. lia.
  - apply Forall_app. split.
    + eapply Forall_impl; [|exact B]. intros i [k [Lt ->]].
      exists k. split; [lia|reflexivity].
    + apply Forall_forall. intros i Hi. apply in_map_iff in Hi.
      destruct Hi as [j [<- Hj]]. apply in_seq in Hj.
      exists j. split; [lia|reflexivity].
Qed.

Lemma deleteMany_ids db userId :
  idsInSequence db -> idsInSequence (deleteMany db userId).
Proof.
  intros [N B]. unfold idsInSequence, deleteMany.
  cbn [recommendations oid_seq]. split.
  - now apply NoDup_map_filter.
  - rewrite Forall_forall in *. intros i Hi. apply B.
    apply in_map_iff in Hi. destruct Hi as [d [<- Hd]].
    apply filter_In in Hd. apply in_map. tauto.
Qed.

Lemma update_keeps_ids id update :
  (forall x, Recommendation._id (update x) = Recommendation._id x) ->
  forall docs,
    map Recommendation._id (snd (findByIdAndUpdate id update docs))
    = map Recommendation._id docs.
Proof.
  intros U. induction docs as [|d rest IH]; [reflexivity|].
  rewrite findByIdAndUpdate_cons.
  destruct (String.eqb (Recommendation._id d) id); simpl.
  - now rewrite U.
  - now rewrite IH.
Qed.

(** X16: the ids of the stored recommendations stay pairwise distinct:
    a run of the service (whether it returns or throws), a run of the
    handler that regenerates and an interaction each keep them so, every
    stored id being one the driver has issued before. *)
Theorem store_ids_stay_distinct
  (plainIncludes : list ObjectId -> ObjectId -> bool)
  (db : DB) (now : Z) (userId : ObjectId) (algorithm : string)
  (id : ObjectId) (kind : InteractionType) :
  idsInSequence db ->
  idsInSequence
    (storeAfter
       (generateRecommendations plainIncludes db now userId algorithm) db)
  /\ idsInSequence (snd (Controller.generateRecommendations db now userId))
  /\ idsInSequence (snd (updateInteraction db now id kind)).
Proof.
  intros I. split; [|split].
  - unfold generateRecommendations.
    destruct (findUserById db userId); [|exact I].
    destruct (if String.eqb algorithm "rule_based" then _ else _)
      as [recs|]; [|exact I].
    cbn [storeAfter]. destruct (nonempty recs); [|exact I].
    now apply insertMany_ids.
  - unfold Controller.generateRecommendations.
    destruct (findUserById db userId) as [user|]; [|exact I].
    cbn [snd]. destruct (nonempty _).
    + apply insertMany_ids. now apply deleteMany_ids.
    + now apply deleteMany_ids.
  - rewrite updateInteraction_store. unfold idsInSequence.
    cbn [recommendations oid_seq].
    rewrite update_keeps_ids by (intros x; apply touched_id). exact I.
Qed.

Lemma store_ids_stay_distinct_witness :
  idsInSequence
    (snd (Controller.generateRecommendations (Sample.store true) 0 "u1")).
Proof.
  apply (store_ids_stay_distinct oid_includes (Sample.store true) 0 "u1"
           "hybrid" "r0" on_viewed).
  split.
  - repeat constructor. intros [].
  - repeat constructor. exists 0%nat. split; [simpl; lia|reflexivity].
Defined.

(** ** The virtuals [age_days] and [freshness] *)

Lemma age_days_value now c :
  age_days now (Some c) = of_Z ((now - c) / msPerDay).
Proof.
  unfold age_days, sub, of_Z, add, neg, div, js_floor.
  assert (Z : Qeq_bool (inject_Z msPerDay) 0 = false) by reflexivity.
  rewrite Z. f_equal. f_equal.
  transitivity (Qfloor ((now - c) # 86400000)); [|reflexivity].
  apply Qfloor_comp. rewrite !Qred_correct.
  change msPerDay with 86400000%Z.
  unfold Qeq, Qdiv, Qmult, Qinv, Qplus, Qopp, inject_Z. simpl. lia.
Qed.

Lemma js_le_of_Z k n : js_le (of_Z k) (of_Z n) = (k <=? n)%Z.
Proof.
  unfold js_le, of_Z. apply eq_true_iff_eq.
  rewrite Qle_bool_iff, Z.leb_le, <- Zle_Qle. reflexivity.
Qed.

(** X17: the age of a record is the whole number of days (of 86 400 000
    ms) between [created_at] and now, rounded down, and its freshness is
    fresh below 2 days (also for a date in the future), recent from 2 to
    below 8 days, stale from 8 to below 31 days and expired from 31 days.
    Read on a document that has no [created_at] path, the age is NaN and
    the freshness is expired at every time. *)
Theorem freshness_thresholds (now c : Z) :
  age_days now None = NaN
  /\ freshness now None = "expired"%string
  /\ age_days now (Some c) = of_Z ((now - c) / msPerDay)
  /\ (freshness now (Some c) = "fresh"%string
      <-> (now - c < 2 * msPerDay)%Z)
  /\ (freshness now (Some c) = "recent"%string
      <-> (2 * msPerDay <= now - c < 8 * msPerDay)%Z)
  /\ (freshness now (Some c) = "stale"%string
      <-> (8 * msPerDay <= now - c < 31 * msPerDay)%Z)
  /\ (freshness now (Some c) = "expired"%string
      <-> (31 * msPerDay <= now - c)%Z).
Proof.
  split; [reflexivity|]. split; [reflexivity|].
  split; [apply age_days_value|].
  unfold freshness. rewrite age_days_value.
  change (Fin 1) with (of_Z 1). change (Fin 7) with (of_Z 7).
  change (Fin 30) with (of_Z 30). rewrite !js_le_of_Z.
  change msPerDay with 86400000%Z.
  pose proof (Z.div_mod (now - c) 86400000 ltac:(lia)) as D.
  pose proof (Z.mod_pos_bound (now - c) 86400000 ltac:(lia)) as B.
  set (k := ((now - c) / 86400000)%Z) in *.
  destruct (Z.leb_spec k 1); [|destruct (Z.leb_spec k 7);
                                [|destruct (Z.leb_spec k 30)]];
    repeat split; intros; try discriminate; try reflexivity; try lia.
Qed.

(** ** From generation to expiry *)

Lemma live_docs_servable t userId docs :
  Forall (liveOf userId) docs ->
  filter (forUserQuery t userId None) docs
  = filter (fun d => (t <? Recommendation.expires_at d)%Z) docs.
Proof.
  intros F. apply filter_ext_in. intros d I. rewrite Forall_forall in F.
  destruct (F d I) as [U A]. unfold forUserQuery, servable.
  cbn [truthy_str]. rewrite U, A, String.eqb_refl, andb_true_r.
  reflexivity.
Qed.

Lemma others_not_servable t userId entityType docs :
  filter (forUserQuery t userId entityType)
    (filter (fun d => negb (String.eqb (Recommendation.user_id d) userId))
            docs) = [].
Proof.
  apply filter_none. intros d I. apply filter_In in I. destruct I as [_ N].
  apply negb_true_iff in N. unfold forUserQuery, servable. now rewrite N.
Qed.

(** X18: after the regenerating handler has run for a learner, the
    learner's stored records are one document per record of the batch, and
    [findForUser] (no entity type, no limit) returns at a time [t], in
    some order, exactly those of them whose own [expires_at] is after [t]:
    each is served until the expiry date it was stored with and no longer,
    and nothing of what was stored for the learner before the run is
    served. *)
Theorem generated_batch_served_until_expiry
  (sortByScore : list Recommendation.t -> list Recommendation.t)
  (db : DB) (now t : Z) (userId : ObjectId) (user : User.t) :
  (forall l, Permutation (sortByScore l) l) ->
  findUserById db userId = Some user ->
  let db' := snd (Controller.generateRecommendations db now userId) in
  let served := map fst (findForUser sortByScore db' t userId None 0) in
  Forall2 storedAs (Controller.newRecommendationsOf db now user)
    (docsOfLearner db' userId)
  /\ Permutation served
       (filter (fun d => (t <? Recommendation.expires_at d)%Z)
               (docsOfLearner db' userId))
  /\ (forall d, In d served ->
                In d (docsOfLearner db' userId)
                /\ (t < Recommendation.expires_at d)%Z)
  /\ (forall d, In d (docsOfLearner db' userId) ->
                (t < Recommendation.expires_at d)%Z -> In d served).
Proof.
  intros P U db' served.
  destruct (controller_generate_found db now userId user U)
    as [_ [_ [_ D]]].
  destruct (handler_store_parts db now userId user U) as [_ [L F]].
  fold db' in D, L.
  assert (M : filter (forUserQuery t userId None) (recommendations db')
              = filter (fun d => (t <? Recommendation.expires_at d)%Z)
                       (docsOfLearner db' userId)).
  { rewrite D, filter_app. unfold docsOfOthers at 1.
    rewrite others_not_servable, L. simpl.
    now apply live_docs_servable. }
  assert (S : served
              = sortByScore
                  (filter (forUserQuery t userId None)
                          (recommendations db'))).
  { unfold served, findForUser, applyLimit. simpl.
    rewrite map_map. simpl. apply map_id. }
  assert (Q : Permutation served
                (filter (fun d => (t <? Recommendation.expires_at d)%Z)
                        (docsOfLearner db' userId))).
  { rewrite S, M. apply P. }
  split; [rewrite L; apply docsOf_storedAs|].
  split; [exact Q|]. split.
  - intros d I. apply (Permutation_in _ Q) in I. apply filter_In in I.
    destruct I as [I E]. split; [exact I|now apply Z.ltb_lt].
  - intros d I E. apply (Permutation_in _ (Permutation_sym Q)).
    apply filter_In. split; [exact I|now apply Z.ltb_lt].
Qed.

Lemma generated_batch_served_until_expiry_witness :
  let db' := snd (Controller.generateRecommendations Sample.catalog 0 "u1")
  in
  Permutation
    (map fst (findForUser sortByScoreDesc db' 1000 "u1" None 0))
    (filter (fun d => (1000 <? Recommendation.expires_at d)%Z)
            (docsOfLearner db' "u1")).
Proof.
  apply (generated_batch_served_until_expiry sortByScoreDesc Sample.catalog
           0 1000 "u1" Sample.scienceUser).
  - apply sortByScoreDesc_perm.
  - reflexivity.
Defined.

(** ** The aggregations *)

Section GroupBy.

Variable keyOf : Recommendation.t -> string.

Lemma groupStep_keys (m : omap Stats) d :
  map fst (groupStep keyOf m d)
  = if om_has m (keyOf d) then map fst m else map fst m ++ [keyOf d].
Proof.
  unfold groupStep. rewrite om_modify_keys.
  destruct (om_has m (keyOf d)) eqn:H; simpl; [reflexivity|].
  rewrite (om_set_new _ _ _ H). unfold push. now rewrite map_app.
Qed.

Lemma groupStep_get (m : omap Stats) d k :
  om_get (groupStep keyOf m d) k
  = if String.eqb (keyOf d) k
    then Some (accumulate d match om_get m k with
                            | Some s => s
                            | None => noStats
                            end)
    else om_get m k.
Proof.
  unfold groupStep. rewrite om_get_modify.
  destruct (om_has m (keyOf d)) eqn:H; simpl.
  - rewrite om_has_get in H.
    destruct (String.eqb_spec (keyOf d) k) as [<-|N]; [|reflexivity].
    destruct (om_get m (keyOf d)); [reflexivity|discriminate].
  - rewrite (om_set_new _ _ _ H), om_get_push. rewrite om_has_get in H.
    destruct (String.eqb_spec (keyOf d) k) as [<-|N].
    + destruct (om_get m (keyOf d)); [discriminate|reflexivity].
    + destruct (om_get m k); reflexivity.
Qed.

Lemma groupBy_keys docs :
  map fst (groupBy keyOf docs) = firstSeen (map keyOf docs).
Proof.
  unfold groupBy. rewrite (fold_step_keys _ _ groupStep_keys). simpl.
  apply unseen_nil.
Qed.

Lemma fold_group_get docs : forall (m : omap Stats) k,
  om_get (fold_left (groupStep keyOf) docs m) k
  = let sel := filter (fun d => String.eqb (keyOf d) k) docs in
    match om_get m k, sel with
    | None, [] => None
    | None, _ => Some (fold_left (fun s d => accumulate d s) sel noStats)
    | Some s0, _ => Some (fold_left (fun s d => accumulate d s) sel s0)
    end.
Proof.
  induction docs as [|d docs IH]; intros m k; simpl.
  - now destruct (om_get m k).
  - rewrite IH, groupStep_get. simpl.
    destruct (String.eqb (keyOf d) k); simpl.
    + now destruct (om_get m k).
    + reflexivity.
Qed.

Lemma groupBy_get docs k :
  om_get (groupBy keyOf docs) k
  = match filter (fun d => String.eqb (keyOf d) k) docs with
    | [] => None
    | sel => Some (statsOf sel)
    end.
Proof.
  unfold groupBy. rewrite fold_group_get. simpl.
  now destruct (filter _ docs).
Qed.

Lemma modify_total (m : omap Stats) k f :
  (forall s, total (f s) = S (total s)) ->
  om_has m k = true ->
  sumTotals (om_modify m k f) = S (sumTotals m).
Proof.
  intros F. induction m as [|[k0 s] m IH]; simpl; [discriminate|].
  destruct (String.eqb k0 k); simpl.
  - intros _. now rewrite F.
  - intros H. rewrite (IH H). lia.
Qed.

Lemma sumTotals_push (m : omap Stats) k s :
  sumTotals (push m (k, s)) = (sumTotals m + total s)%nat.
Proof.
  unfold push. induction m as [|[k0 s0] m IH]; simpl; [lia|].
  rewrite IH. lia.
Qed.

Lemma groupStep_total (m : omap Stats) d :
  sumTotals (groupStep keyOf m d) = S (sumTotals m).
Proof.
  unfold groupStep. destruct (om_has m (keyOf d)) eqn:H; simpl.
  - now apply modify_total.
  - rewrite (om_set_new _ _ _ H).
    rewrite modify_total; [| reflexivity |].
    + rewrite sumTotals_push. simpl. lia.
    + rewrite om_has_keys. unfold push. rewrite map_app, existsb_app.
      simpl. rewrite String.eqb_refl. apply orb_true_r.
Qed.

Lemma groupBy_total docs :
  sumTotals (groupBy keyOf docs) = List.length docs.
Proof.
  unfold groupBy.
  assert (G : forall l m,
             sumTotals (fold_left (groupStep keyOf) l m)
             = (sumTotals m + List.length l)%nat).
  { induction l as [|d l IH]; intros m; simpl; [lia|].
    rewrite IH, groupStep_total. lia. }
  now rewrite G.
Qed.

End GroupBy.

Lemma fold_accumulate_counts sel : forall s0,
  let s := fold_left (fun s d => accumulate d s) sel s0 in
  total s = (total s0 + List.length sel)%nat
  /\ viewed_count s
     = (viewed_count s0
        + List.length
            (filter (fun d => viewed (Recommendation.user_interaction d))
                    sel))%nat
  /\ saved_count s
     = (saved_count s0
        + List.length
            (filter (fun d => saved (Recommendation.user_interaction d))
                    sel))%nat
  /\ applied_count s
     = (applied_count s0
        + List.length
            (filter (fun d => applied (Recommendation.user_interaction d))
                    sel))%nat.
Proof.
  induction sel as [|d sel IH]; intros s0; simpl.
  - repeat split; lia.
  - destruct (IH (accumulate d s0)) as [A [B [C D]]].
    rewrite A, B, C, D. unfold accumulate, cond1. simpl.
    destruct (viewed _), (saved _), (applied _); simpl; repeat split; lia.
Qed.

Lemma groupBy_counts keyOf docs k s :
  In (k, s) (groupBy keyOf docs) ->
  groupCounts (filter (fun d => String.eqb (keyOf d) k) docs) s.
Proof.
  intros I. apply om_In_get in I.
  2:{ rewrite groupBy_keys. apply firstSeen_NoDup. }
  rewrite groupBy_get in I.
  destruct (filter _ docs) as [|d sel] eqn:F; [discriminate|].
  injection I as <-. unfold groupCounts, statsOf.
  destruct (fold_accumulate_counts (d :: sel) noStats) as [A [B [C D]]].
  split; [discriminate|]. now rewrite A, B, C, D.
Qed.

Lemma fold_accumulate_sum sel : forall s0 q0,
  Forall storedInRange sel ->
  score_sum s0 = Fin q0 ->
  0 <= q0 <= inject_Z (Z.of_nat (total s0)) ->
  let s := fold_left (fun s d => accumulate d s) sel s0 in
  exists q, score_sum s = Fin q
            /\ 0 <= q <= inject_Z (Z.of_nat (total s)).
Proof.
  induction sel as [|d sel IH]; intros s0 q0 F E B; simpl.
  - eauto.
  - inversion F as [|? ? R F']; subst.
    unfold storedInRange, between in R.
    destruct (Recommendation.score d) as [x| | |] eqn:X; try contradiction.
    apply (IH (accumulate d s0) (Qred (q0 + x)) F').
    + unfold accumulate. cbn [score_sum]. now rewrite E, X.
    + unfold accumulate. cbn [total]. rewrite Qred_correct.
      rewrite Nat2Z.inj_succ, <- Z.add_1_r, inject_Z_plus.
      change (inject_Z 1) with 1%Q. split; lra.
Qed.

Lemma group_average_in_range keyOf docs k s :
  Forall storedInRange docs ->
  In (k, s) (groupBy keyOf docs) ->
  between 0 1 (avg_score s).
Proof.
  intros R I. pose proof (groupBy_counts keyOf docs k s I) as [N [T _]].
  apply om_In_get in I.
  2:{ rewrite groupBy_keys. apply firstSeen_NoDup. }
  rewrite groupBy_get in I.
  destruct (filter (fun d => String.eqb (keyOf d) k) docs) as [|d sel] eqn:F;
    [discriminate|].
  injection I as I.
  assert (Rs : Forall storedInRange (d :: sel)).
  { rewrite <- F. apply Forall_forall. intros x Hx.
    apply filter_In in Hx. rewrite Forall_forall in R. now apply R. }
  destruct (fold_accumulate_sum (d :: sel) noStats 0 Rs eq_refl)
    as [q [E B]].
  { simpl. split; apply Qle_refl. }
  fold (statsOf (d :: sel)) in E, B. rewrite I in E, B.
  unfold avg_score. rewrite E. unfold of_nat.
  assert (P : 0 < inject_Z (Z.of_nat (total s))).
  { rewrite T. simpl List.length. rewrite Nat2Z.inj_succ.
    change 0 with (inject_Z 0). rewrite <- Zlt_Qlt. lia. }
  rewrite (div_Fin_pos _ _ P). unfold between. rewrite Qred_correct.
  split.
  - apply Qle_shift_div_l; [exact P|]. lra.
  - apply Qle_shift_div_r; [exact P|]. lra.
Qed.

(** X19: [getRecommendationMetrics], of the service and of the
    controller, counts stored records: it has one group per algorithm with
    a record, each once; a group never is empty, its total is the number
    of its records and its viewed, saved and applied counts are the
    numbers of its records with that flag; the totals of the groups add
    up to [total_recommendations]; [active_recommendations] is at most
    [total_recommendations]; when the stored scores are between 0 and 1,
    so is the average score of every group. *)
Theorem metrics_count_stored_records (db : DB) (now : Z) :
  let m := getRecommendationMetrics db now in
  NoDup (map fst (by_algorithm m))
  /\ (forall k s,
        In (k, s) (by_algorithm m) ->
        groupCounts
          (filter (fun d =>
                     String.eqb
                       (Algorithm_str (Recommendation.algorithm_used d)) k)
                  (recommendations db)) s)
  /\ sumTotals (by_algorithm m) = total_recommendations m
  /\ total_recommendations m = List.length (recommendations db)
  /\ (active_recommendations m <= total_recommendations m)%nat
  /\ (Forall storedInRange (recommendations db) ->
      forall k s, In (k, s) (by_algorithm m) -> between 0 1 (avg_score s)).
Proof.
  intros m. unfold m, getRecommendationMetrics.
  cbn [by_algorithm total_recommendations active_recommendations].
  split; [rewrite groupBy_keys; apply firstSeen_NoDup|].
  split; [intros k s; apply groupBy_counts|].
  split; [apply groupBy_total|].
  split; [reflexivity|].
  split; [apply filter_length_le|].
  intros R k s. now apply group_average_in_range.
Qed.

Lemma metrics_count_stored_records_witness :
  between 0 1 (avg_score (statsOf [Sample.rec0 true])).
Proof.
  destruct (metrics_count_stored_records (Sample.store true) 0)
    as [_ [_ [_ [_ [_ H]]]]].
  apply (H ltac:(repeat constructor; vm_compute; discriminate)
           "rule_based"%string).
  left. reflexivity.
Defined.

(** X20: [getAnalytics] builds its pipeline with a call of ObjectId
    without [new].  When that call throws, the analytics throw the same
    error, whatever is stored; where ObjectId is a class this is so for
    every learner.  When the call returns an id, the result counts the
    records of that id: it has one group per entity type the learner has
    a record of, at most the two types, each once; a group never is
    empty, its total is the number of the learner's records of the type
    and its viewed, saved and applied counts are the numbers of those
    with that flag; the totals of the groups add up to the number of the
    learner's records, expired and inactive ones included; a learner
    without records has no group; when the stored scores are between 0
    and 1, so is the average score of every group. *)
Theorem analytics_count_learner_records
  (objectIdCall : string -> Outcome ObjectId) (db : DB) (userId : string) :
  (forall message,
     objectIdCall userId = Throws message ->
     getAnalytics objectIdCall db userId = Throws message)
  /\ returned (getAnalytics classObjectId db userId) = false
  /\ (forall oid,
        objectIdCall userId = Returns oid ->
        exists groups,
          getAnalytics objectIdCall db userId = Returns groups
          /\ NoDup (map fst groups)
          /\ (forall k, In k (map fst groups)
                        -> k = "exam"%string \/ k = "opportunity"%string)
          /\ (forall k s,
                In (k, s) groups ->
                groupCounts
                  (filter (fun d =>
                             String.eqb
                               (EntityType_str
                                  (Recommendation.entity_type d)) k)
                          (docsOfLearner db oid)) s)
          /\ sumTotals groups = List.length (docsOfLearner db oid)
          /\ (docsOfLearner db oid = [] -> groups = [])
          /\ (Forall storedInRange (recommendations db) ->
              forall k s, In (k, s) groups -> between 0 1 (avg_score s))).
Proof.
  split; [|split].
  - intros message E. unfold getAnalytics. now rewrite E.
  - reflexivity.
  - intros oid E. unfold getAnalytics. rewrite E.
    eexists. split; [reflexivity|].
    fold (docsOfLearner db oid).
    split; [rewrite groupBy_keys; apply firstSeen_NoDup|].
    split.
    { intros k. rewrite groupBy_keys, firstSeen_In, in_map_iff.
      intros [d [<- _]]. destruct (Recommendation.entity_type d); auto. }
    split; [intros k s; apply groupBy_counts|].
    split; [apply groupBy_total|].
    split; [now intros ->|].
    intros R k s. apply group_average_in_range.
    apply Forall_forall. intros d I. apply filter_In in I.
    rewrite Forall_forall in R. now apply R.
Qed.

Lemma analytics_count_learner_records_witness :
  exists groups,
    getAnalytics (fun id => Returns id) (Sample.store false) "u1"
    = Returns groups
    /\ sumTotals groups
       = List.length (docsOfLearner (Sample.store false) "u1").
Proof.
  destruct (analytics_count_learner_records (fun id => Returns id)
              (Sample.store false) "u1") as [_ [_ H]].
  destruct (H "u1"%string eq_refl) as [groups [E [_ [_ [_ [T _]]]]]].
  exists groups. split; [exact E|exact T].
Defined.

(** ** The saved lists *)

Lemma find_replaceUser user k : forall l,
  find (fun u => String.eqb (User._id u) k)
       (UserController.replaceUser user l)
  = if String.eqb (User._id user) k
    then option_map (fun _ => user)
           (find (fun u => String.eqb (User._id u) k) l)
    else find (fun u => String.eqb (User._id u) k) l.
Proof.
  induction l as [|u l IH]; simpl.
  - now destruct (String.eqb (User._id user) k).
  - destruct (String.eqb_spec (User._id u) (User._id user)) as [E|E]; simpl.
    + rewrite E. now destruct (String.eqb (User._id user) k).
    + rewrite IH.
      destruct (String.eqb_spec (User._id u) k) as [E'|E'];
        [|reflexivity].
      destruct (String.eqb_spec (User._id user) k); [congruence|reflexivity].
Qed.

Lemma replaceUser_length user : forall l,
  List.length (UserController.replaceUser user l) = List.length l.
Proof.
  induction l as [|u l IH]; simpl; [reflexivity|].
  destruct (String.eqb _ _); simpl; auto.
Qed.

Lemma replaceUser_twice user user' : forall l,
  User._id user' = User._id user ->
  UserController.replaceUser user' (UserController.replaceUser user l)
  = UserController.replaceUser user' l.
Proof.
  intros l E. induction l as [|u l IH]; simpl; [reflexivity|].
  rewrite E.
  destruct (String.eqb_spec (User._id u) (User._id user)) as [E'|E']; simpl.
  - now rewrite E, String.eqb_refl.
  - rewrite E. destruct (String.eqb_spec (User._id u) (User._id user));
      [congruence|]. now rewrite IH.
Qed.

Lemma saveUser_spec db id user user' :
  findUserById db id = Some user ->
  User._id user' = id ->
  findUserById (UserController.saveUser db user') id = Some user'
  /\ othersKept db (UserController.saveUser db user') id
  /\ sameOfferings db (UserController.saveUser db user').
Proof.
  intros U E.
  unfold othersKept, sameOfferings, findUserById,
    UserController.saveUser in *.
  cbn [users]. split; [|split].
  - rewrite find_replaceUser, E, String.eqb_refl, U. reflexivity.
  - split; [apply replaceUser_length|]. intros id' N.
    rewrite find_replaceUser, E.
    destruct (String.eqb_spec id id'); [congruence|reflexivity].
  - repeat split.
Qed.

Lemma oid_includes_true ids x : oid_includes ids x = true <-> In x ids.
Proof. apply oid_includes_In. Qed.

Lemma snoc_NoDup {A : Type} (l : list A) (h : A) :
  ~ In h l -> NoDup l -> NoDup (l ++ [h]).
Proof.
  intros N D. apply NoDup_app; [exact D|repeat constructor; intros []|].
  intros x Hx [<- | []]. contradiction.
Qed.

(** X21: [saveHackathon] and [saveInternship] answer 404 when no user has
    the id, 400 for a user who is no university student and 400 for a
    university student who has the id in the list concerned, and in these
    cases they change nothing.  For a university student who has not the
    id in the list, and an id that is the string of an ObjectId, they
    answer 200 and the id is appended to that list of that user; the
    user's id, role, degree, year, stream, interests and activity and the
    user's other saved lists are as before, and so are the other users,
    exams, opportunities and recommendations; a list without repetition
    stays so, and the same call again answers 400 and changes nothing.
    The two lists are independent: an id saved as a hackathon can still
    be saved as an internship. *)
Theorem save_handlers_append_once (db : DB) (id h : ObjectId) :
  let r := UserController.saveHackathon db id h in
  let r' := UserController.saveInternship db id h in
  (findUserById db id = None ->
   r = (mkResponse 404 "User not found" NoData, db)
   /\ r' = (mkResponse 404 "User not found" NoData, db))
  /\ (forall user,
        findUserById db id = Some user ->
        User.role user <> university ->
        r = (mkResponse 400 "Only university students can save hackathons"
               NoData, db)
        /\ r' = (mkResponse 400
                   "Only university students can save internships"
                   NoData, db))
  /\ (forall user,
        findUserById db id = Some user ->
        User.role user = university ->
        (In h (User.saved_hackathons user) ->
         r = (mkResponse 400 "Hackathon already saved" NoData, db))
        /\ (In h (User.saved_internships user) ->
            r' = (mkResponse 400 "Internship already saved" NoData, db)))
  /\ (isObjectIdHex h = true ->
      forall user,
        findUserById db id = Some user ->
        User.role user = university ->
        ~ In h (User.saved_hackathons user) ->
        fst r = mkResponse 200 "Hackathon saved successfully" NoData
        /\ exists user',
             findUserById (snd r) id = Some user'
             /\ sameProfile user user'
             /\ User.saved_hackathons user'
                = User.saved_hackathons user ++ [h]
             /\ User.saved_exams user' = User.saved_exams user
             /\ User.saved_internships user' = User.saved_internships user
             /\ (NoDup (User.saved_hackathons user) ->
                 NoDup (User.saved_hackathons user'))
             /\ othersKept db (snd r) id
             /\ sameOfferings db (snd r)
             /\ UserController.saveHackathon (snd r) id h
                = (mkResponse 400 "Hackathon already saved" NoData, snd r)
             /\ (status (fst (UserController.saveInternship (snd r) id h))
                 = 200%nat
                 <-> ~ In h (User.saved_internships user)))
  /\ (isObjectIdHex h = true ->
      forall user,
        findUserById db id = Some user ->
        User.role user = university ->
        ~ In h (User.saved_internships user) ->
        fst r' = mkResponse 200 "Internship saved successfully" NoData
        /\ exists user',
             findUserById (snd r') id = Some user'
             /\ sameProfile user user'
             /\ User.saved_internships user'
                = User.saved_internships user ++ [h]
             /\ User.saved_exams user' = User.saved_exams user
             /\ User.saved_hackathons user' = User.saved_hackathons user
             /\ (NoDup (User.saved_internships user) ->
                 NoDup (User.saved_internships user'))
             /\ othersKept db (snd r') id
             /\ sameOfferings db (snd r')
             /\ UserController.saveInternship (snd r') id h
                = (mkResponse 400 "Internship already saved" NoData,
                   snd r')).
Proof.
  intros r r'. unfold r, r', UserController.saveHackathon,
    UserController.saveInternship.
  split; [|split; [|split; [|split]]].
  - intros U. rewrite U. split; reflexivity.
  - intros user U R. rewrite U.
    destruct (User.role user); [|congruence]. split; reflexivity.
  - intros user U R. rewrite U, R. cbn [Role_eqb negb]. split; intros I;
      apply oid_includes_true in I; now rewrite I.
  - intros _ user U R N. rewrite U, R. cbn [Role_eqb negb].
    pose proof (findUserById_id _ _ _ U) as Eid.
    destruct (oid_includes (User.saved_hackathons user) h) eqn:I;
      [apply oid_includes_true in I; contradiction|].
    cbn [fst snd]. split; [reflexivity|].
    set (user' := UserController.withSavedHackathons user
                    (push (User.saved_hackathons user) h)).
    destruct (saveUser_spec db id user user' U Eid) as [F [O S]].
    exists user'. split; [exact F|].
    split; [repeat split|]. split; [reflexivity|].
    split; [reflexivity|]. split; [reflexivity|].
    split; [now apply snoc_NoDup|].
    split; [exact O|]. split; [exact S|].
    rewrite F.
    cbn [user' UserController.withSavedHackathons User.role
         User.saved_hackathons User.saved_internships].
    rewrite R. cbn [Role_eqb negb]. split.
    + assert (T : oid_includes (push (User.saved_hackathons user) h) h
                  = true).
      { apply oid_includes_true. unfold push. apply in_or_app. right.
        now left. }
      now rewrite T.
    + destruct (oid_includes (User.saved_internships user) h) eqn:I2;
        cbn [fst snd status].
      * split; [discriminate|]. intros N2. apply oid_includes_true in I2.
        contradiction.
      * split; [|reflexivity]. intros _. now apply oid_includes_false.
  - intros _ user U R N. rewrite U, R. cbn [Role_eqb negb].
    pose proof (findUserById_id _ _ _ U) as Eid.
    destruct (oid_includes (User.saved_internships user) h) eqn:I;
      [apply oid_includes_true in I; contradiction|].
    cbn [fst snd]. split; [reflexivity|].
    set (user' := UserController.withSavedInternships user
                    (push (User.saved_internships user) h)).
    destruct (saveUser_spec db id user user' U Eid) as [F [O S]].
    exists user'. split; [exact F|].
    split; [repeat split|]. split; [reflexivity|].
    split; [reflexivity|]. split; [reflexivity|].
    split; [now apply snoc_NoDup|].
    split; [exact O|]. split; [exact S|].
    rewrite F.
    cbn [user' UserController.withSavedInternships User.role
         User.saved_internships].
    rewrite R. cbn [Role_eqb negb].
    assert (T : oid_includes (push (User.saved_internships user) h) h
                = true).
    { apply oid_includes_true. unfold push. apply in_or_app. right.
      now left. }
    now rewrite T.
Qed.

Lemma save_handlers_append_once_witness :
  fst (UserController.saveHackathon Sample.catalog "u4"
         "64b7f0c2a1d3e4f5a6b7c8d9")
  = mkResponse 200 "Hackathon saved successfully" NoData.
Proof.
  apply (save_handlers_append_once Sample.catalog "u4"
           "64b7f0c2a1d3e4f5a6b7c8d9") with (user := Sample.plainUser).
  - reflexivity.
  - reflexivity.
  - reflexivity.
  - intros [].
Defined.

Lemma filter_twice {A : Type} (f : A -> bool) (l : list A) :
  filter f (filter f l) = filter f l.
Proof.
  apply filter_all. apply Forall_forall. intros a I.
  now apply filter_In in I.
Qed.

(** X22: [unsaveExam] answers 404 and changes nothing when no user has
    the id; otherwise it answers 200, whether or not the exam was saved,
    and the user's saved exams are the earlier ones without those equal
    to [examId], in their order: the exam is no longer saved and every
    other saved exam still is.  The user's id, role, degree, year,
    stream, interests, activity and saved hackathons and internships are
    as before, and so are the other users, exams, opportunities and
    recommendations.  After a second call the saved exams are as after
    the first. *)
Theorem unsave_exam_removes_only_it (db : DB) (id examId : ObjectId) :
  let r := UserController.unsaveExam db id examId in
  match findUserById db id with
  | None => r = (mkResponse 404 "User not found" NoData, db)
  | Some user =>
      fst r = mkResponse 200 "Exam removed from saved list" NoData
      /\ exists user',
           findUserById (snd r) id = Some user'
           /\ sameProfile user user'
           /\ User.saved_exams user'
              = filter (fun e => negb (String.eqb e examId))
                       (User.saved_exams user)
           /\ User.saved_hackathons user' = User.saved_hackathons user
           /\ User.saved_internships user' = User.saved_internships user
           /\ ~ In examId (User.saved_exams user')
           /\ (forall e, e <> examId ->
                         (In e (User.saved_exams user')
                          <-> In e (User.saved_exams user)))
           /\ (~ In examId (User.saved_exams user) ->
               User.saved_exams user' = User.saved_exams user)
           /\ (NoDup (User.saved_exams user) ->
               NoDup (User.saved_exams user'))
           /\ othersKept db (snd r) id
           /\ sameOfferings db (snd r)
           /\ exists user'',
                findUserById
                  (snd (UserController.unsaveExam (snd r) id examId)) id
                = Some user''
                /\ User.saved_exams user'' = User.saved_exams user'
  end.
Proof.
  intros r. unfold r, UserController.unsaveExam.
  destruct (findUserById db id) as [user|] eqn:U; [|reflexivity].
  pose proof (findUserById_id _ _ _ U) as Eid.
  cbn [fst snd]. split; [reflexivity|].
  set (kept := filter (fun e => negb (String.eqb e examId))
                 (User.saved_exams user)).
  set (user' := UserController.withSavedExams user kept).
  destruct (saveUser_spec db id user user' U Eid) as [F [O S]].
  exists user'. split; [exact F|]. split; [repeat split|].
  cbn [user' UserController.withSavedExams User.saved_exams
       User.saved_hackathons User.saved_internships].
  split; [reflexivity|]. split; [reflexivity|]. split; [reflexivity|].
  split.
  { unfold kept. intros I. apply filter_In in I. destruct I as [_ I].
    now rewrite String.eqb_refl in I. }
  split.
  { intros e N. unfold kept. rewrite filter_In. split; [tauto|].
    intros I. split; [exact I|]. apply negb_true_iff.
    now apply String.eqb_neq. }
  split.
  { intros N. unfold kept. apply filter_all. apply Forall_forall.
    intros e I. apply negb_true_iff. apply String.eqb_neq. congruence. }
  split; [apply NoDup_filter|].
  split; [exact O|]. split; [exact S|].
  rewrite F. cbn [snd].
  set (user'' := UserController.withSavedExams user'
                   (filter (fun e => negb (String.eqb e examId))
                           (User.saved_exams user'))).
  destruct (saveUser_spec (UserController.saveUser db user') id user' user''
              F Eid) as [F' _].
  exists user''. split; [exact F'|].
  cbn [user'' user' UserController.withSavedExams User.saved_exams].
  unfold kept. apply filter_twice.
Qed.

(** ** The handler's batch and the rule-based generator *)

Lemma interest_product m n w :
  (0 < n)%nat ->
  exists x, mul (div (of_nat m) (of_nat n)) (Fin w) = Fin x
            /\ x == inject_Z (Z.of_nat m) / inject_Z (Z.of_nat n) * w.
Proof.
  intros P. rewrite (div_of_nat m n P). unfold mul.
  eexists. split; [reflexivity|]. now rewrite !Qred_correct.
Qed.

Lemma rule_interest_exact interests matching w why st q :
  fst st = Fin q ->
  exists q',
    fst (RuleBased.interestBonus interests matching w why st) = Fin q'
    /\ q' == q + interestTerm interests matching w.
Proof.
  intros E. unfold RuleBased.interestBonus, interestTerm.
  destruct (nonempty interests) eqn:N.
  - apply nonempty_true in N.
    destruct (interest_product (List.length matching)
                (List.length interests) w N) as [x [X Xv]].
    rewrite X. unfold RuleBased.bonus.
    destruct (nonempty matching) eqn:M.
    + cbn [fst]. rewrite E. unfold add. eexists. split; [reflexivity|].
      now rewrite Qred_correct, Xv.
    + exists q. split; [exact E|].
      apply nonempty_false in M. rewrite M. simpl List.length.
      change (inject_Z (Z.of_nat 0)) with 0. unfold Qdiv. ring.
  - exists q. split; [exact E|]. ring.
Qed.

Lemma rule_examScore_exact user e :
  exists q,
    fst (RuleBased.examScore user e) = Fin q
    /\ q == (1 # 2)
            + (if RuleBased.scienceMatch user e then 3 # 10 else 0)
            + interestTerm (User.interests user)
                (RuleBased.examMatchingInterests user e) (1 # 5)
            + examPopularity e.
Proof.
  unfold RuleBased.examScore, examPopularity.
  destruct (bonus_value (RuleBased.scienceMatch user e) (3 # 10)
              (mkReason "Matches your Science stream" (3 # 10))
              (Fin (1 # 2), []) (1 # 2) eq_refl) as [q1 [E1 V1]].
  destruct (rule_interest_exact (User.interests user)
              (RuleBased.examMatchingInterests user e) (1 # 5)
              (mkReason "Aligns with your interests" (1 # 5)) _ q1 E1)
    as [q2 [E2 V2]].
  destruct (bonus_value (opt_gt (Exam.application_count e) 100) (1 # 10)
              (mkReason "Popular among students" (1 # 10)) _ q2 E2)
    as [q3 [E3 V3]].
  exists q3. split; [exact E3|]. now rewrite V3, V2, V1.
Qed.

Lemma rule_oppScore_exact user o :
  exists q,
    fst (RuleBased.oppScore user o) = Fin q
    /\ q == (1 # 2)
            + interestTerm (User.interests user)
                (RuleBased.oppMatchingInterests user o) (3 # 10)
            + internshipBonuses user o
            + oppPopularity o.
Proof.
  unfold RuleBased.oppScore, oppPopularity, internshipBonuses.
  destruct (rule_interest_exact (User.interests user)
              (RuleBased.oppMatchingInterests user o) (3 # 10)
              (mkReason "Matches your interests" (3 # 10))
              (Fin (1 # 2), []) (1 # 2) eq_refl) as [q1 [E1 V1]].
  destruct (Opportunity.type o).
  - destruct (bonus_value (50 <? Opportunity.application_count o)%Z
                (1 # 10) (mkReason "Popular opportunity" (1 # 10)) _ q1 E1)
      as [q2 [E2 V2]].
    exists q2. split; [exact E2|]. rewrite V2, V1. ring.
  - destruct (bonus_value (RuleBased.degreeMatch user o) (1 # 5)
                (mkReason "Suitable for your degree" (1 # 5)) _ q1 E1)
      as [q2 [E2 V2]].
    destruct (bonus_value (RuleBased.yearMatch user o) (1 # 5)
                (mkReason "Perfect for your year" (1 # 5)) _ q2 E2)
      as [q3 [E3 V3]].
    destruct (bonus_value (50 <? Opportunity.application_count o)%Z
                (1 # 10) (mkReason "Popular opportunity" (1 # 10)) _ q3 E3)
      as [q4 [E4 V4]].
    exists q4. split; [exact E4|]. rewrite V4, V3, V2, V1. ring.
Qed.

Lemma handler_interest_exact interests matching w q :
  exists q',
    (if nonempty interests then
       add (Fin q)
         (mul (div (of_nat (List.length matching))
                   (of_nat (List.length interests)))
              (Fin w))
     else Fin q) = Fin q'
    /\ q' == q + interestTerm interests matching w.
Proof.
  unfold interestTerm. destruct (nonempty interests) eqn:N.
  - apply nonempty_true in N.
    destruct (interest_product (List.length matching)
                (List.length interests) w N) as [x [X Xv]].
    rewrite X. unfold add. eexists. split; [reflexivity|].
    now rewrite Qred_correct, Xv.
  - exists q. split; [reflexivity|]. ring.
Qed.

Lemma handler_examScore_exact user e :
  exists q,
    Controller.examScore user e = Fin q
    /\ q == (1 # 2)
            + (if handlerScienceMatch user e then 3 # 10 else 0)
            + interestTerm (User.interests user)
                (RuleBased.examMatchingInterests user e) (1 # 5).
Proof.
  unfold Controller.examScore, handlerScienceMatch.
  set (sci := match User.stream user with
              | Some s => _
              | None => false
              end).
  assert (S : exists q1,
             match User.stream user with
             | Some s =>
                 if String.eqb s "Science"
                    && (str_includes (Exam.subjects e) "Physics"
                        || str_includes (Exam.subjects e) "Chemistry"
                        || str_includes (Exam.subjects e) "Maths")
                 then add (Fin (1 # 2)) (Fin (3 # 10))
                 else Fin (1 # 2)
             | None => Fin (1 # 2)
             end = Fin q1
             /\ q1 == (1 # 2) + (if sci then 3 # 10 else 0)).
  { unfold sci. destruct (User.stream user) as [s|].
    - destruct (String.eqb s "Science" && _).
      + unfold add. eexists. split; [reflexivity|]. apply Qred_correct.
      + exists (1 # 2). split; [reflexivity|]. ring.
    - exists (1 # 2). split; [reflexivity|]. ring. }
  destruct S as [q1 [E1 V1]]. rewrite E1.
  destruct (handler_interest_exact (User.interests user)
              (RuleBased.examMatchingInterests user e) (1 # 5) q1)
    as [q2 [E2 V2]].
  exists q2. split; [exact E2|]. now rewrite V2, V1.
Qed.

Lemma handler_oppScore_exact user o :
  exists q,
    Controller.oppScore user o = Fin q
    /\ q == (1 # 2)
            + interestTerm (User.interests user)
                (RuleBased.oppMatchingInterests user o) (3 # 10)
            + internshipBonuses user o.
Proof.
  unfold Controller.oppScore, internshipBonuses.
  destruct (handler_interest_exact (User.interests user)
              (RuleBased.oppMatchingInterests user o) (3 # 10) (1 # 2))
    as [q1 [E1 V1]].
  rewrite E1. fold (RuleBased.degreeMatch user o).
  fold (RuleBased.yearMatch user o).
  destruct (Opportunity.type o).
  - exists q1. split; [reflexivity|]. rewrite V1. ring.
  - destruct (RuleBased.degreeMatch user o), (RuleBased.yearMatch user o);
      unfold add; eexists; (split; [reflexivity|]);
      rewrite ?Qred_correct, V1; ring.
Qed.

Lemma filter_nonempty {A : Type} (f : A -> bool) (l : list A) (x : A) :
  In x l -> f x = true -> nonempty (filter f l) = true.
Proof.
  intros I F. assert (I' : In x (filter f l)) by (apply filter_In; auto).
  destruct (filter f l); [destruct I'|reflexivity].
Qed.

Lemma handler_science_implies user e :
  handlerScienceMatch user e = true -> RuleBased.scienceMatch user e = true.
Proof.
  unfold handlerScienceMatch, RuleBased.scienceMatch.
  destruct (User.stream user) as [s|]; [|discriminate].
  rewrite !andb_true_iff, !orb_true_iff. intros [S I]. split; [exact S|].
  destruct I as [[I | I] | I]; apply str_includes_In in I;
    apply (filter_nonempty _ _ _ I); reflexivity.
Qed.

Lemma firstn_more_In {A : Type} (x : A) (n m : nat) : forall l,
  (n <= m)%nat -> In x (firstn n l) -> In x (firstn m l).
Proof.
  revert m. induction n as [|n IH]; intros m l L I; [destruct I|].
  destruct m as [|m]; [lia|]. destruct l as [|a l]; [destruct I|].
  simpl in *. destruct I as [-> | I]; [now left|right].
  apply IH; [lia|exact I].
Qed.

Lemma min_one_mono q q' :
  q <= q' ->
  exists a b, min (Fin q) (Fin 1) = Fin a /\ min (Fin q') (Fin 1) = Fin b
              /\ a <= b.
Proof.
  intros L. destruct (min_one q) as [a [A Av]].
  destruct (min_one q') as [b [B Bv]].
  exists a, b. split; [exact A|]. split; [exact B|].
  rewrite Av, Bv. now apply Q.min_le_compat_r.
Qed.

Lemma handler_exam_within user e r :
  In r (Controller.examStep user [] e) ->
  exists r', In r' (RuleBased.examStep user [] e)
             /\ recTriple r' = recTriple r
             /\ exists q q', Rec.score r = Fin q /\ Rec.score r' = Fin q'
                             /\ q <= q'.
Proof.
  unfold Controller.examStep.
  destruct (handler_examScore_exact user e) as [qh [Eh Vh]].
  destruct (rule_examScore_exact user e) as [qs [Es Vs]].
  rewrite Eh.
  destruct (gt (Fin qh) (Fin (3 # 5))) eqn:G; [|intros []].
  apply gt_Fin in G. intros [<- | []].
  assert (L : qh <= qs).
  { rewrite Vh, Vs. unfold examPopularity.
    pose proof (handler_science_implies user e) as Imp.
    destruct (handlerScienceMatch user e).
    - rewrite (Imp eq_refl).
      destruct (opt_gt (Exam.application_count e) 100); lra.
    - destruct (RuleBased.scienceMatch user e),
        (opt_gt (Exam.application_count e) 100); lra. }
  destruct (rule_examStep_decides user e qs Es) as [[_ Keep] _].
  rewrite Keep by lra.
  exists (RuleBased.examRec user e). split; [now left|].
  unfold RuleBased.examRec.
  destruct (RuleBased.examScore user e) as [sc rs]. cbn [fst] in Es.
  subst sc. split; [reflexivity|].
  destruct (min_one_mono qh qs L) as [a [b [A [B AB]]]].
  exists a, b. cbn [Rec.score]. auto.
Qed.

Lemma handler_opp_within user o r :
  In r (Controller.oppStep user [] o) ->
  exists r', In r' (RuleBased.oppStep user [] o)
             /\ recTriple r' = recTriple r
             /\ exists q q', Rec.score r = Fin q /\ Rec.score r' = Fin q'
                             /\ q <= q'.
Proof.
  unfold Controller.oppStep.
  destruct (handler_oppScore_exact user o) as [qh [Eh Vh]].
  destruct (rule_oppScore_exact user o) as [qs [Es Vs]].
  rewrite Eh.
  destruct (gt (Fin qh) (Fin (3 # 5))) eqn:G; [|intros []].
  apply gt_Fin in G. intros [<- | []].
  assert (L : qh <= qs).
  { rewrite Vh, Vs. unfold oppPopularity.
    destruct (50 <? Opportunity.application_count o)%Z; lra. }
  destruct (rule_oppStep_decides user o qs Es) as [[_ Keep] _].
  rewrite Keep by lra.
  exists (RuleBased.oppRec user o). split; [now left|].
  unfold RuleBased.oppRec.
  destruct (RuleBased.oppScore user o) as [sc rs]. cbn [fst] in Es.
  subst sc. split; [reflexivity|].
  destruct (min_one_mono qh qs L) as [a [b [A [B AB]]]].
  exists a, b. cbn [Rec.score]. auto.
Qed.

(** X23: whatever the regenerating handler recommends to a learner, the
    rule-based generator of the service recommends as well, with a score
    that is at least the handler's: the handler reads the first 20 exams
    (30 opportunities) of the query of which the generator reads the
    first 50 (100), its stream test is the stricter one, its other terms
    are the generator's, and it has no popularity bonus. *)
Theorem handler_batch_within_rule_based
  (db : DB) (now : Z) (user : User.t) (r : Rec.t) :
  In r (Controller.newRecommendationsOf db now user) ->
  exists r',
    In r' (RuleBased.generateRuleBasedRecommendations db now user)
    /\ recTriple r' = recTriple r
    /\ exists q q', Rec.score r = Fin q /\ Rec.score r' = Fin q'
                    /\ q <= q'.
Proof.
  unfold Controller.newRecommendationsOf,
    RuleBased.generateRuleBasedRecommendations.
  destruct (User.role user).
  - rewrite (fold_left_push_flat_map (Controller.examStep user)
               (Controller.examStep user [])
               (controller_examStep_push user)).
    rewrite rule_scoreExams_flat_map. simpl app.
    intros I. apply in_flat_map in I. destruct I as [e [Ie Ir]].
    destruct (handler_exam_within user e r Ir) as [r' [I' P]].
    exists r'. split; [|exact P]. apply in_flat_map. exists e.
    split; [|exact I']. apply (firstn_more_In e 20 50); [lia|exact Ie].
  - rewrite (fold_left_push_flat_map (Controller.oppStep user)
               (Controller.oppStep user [])
               (controller_oppStep_push user)).
    rewrite rule_scoreOpportunities_flat_map. simpl app.
    intros I. apply in_flat_map in I. destruct I as [o [Io Ir]].
    destruct (handler_opp_within user o r Ir) as [r' [I' P]].
    exists r'. split; [|exact P]. apply in_flat_map. exists o.
    split; [|exact I']. apply (firstn_more_In o 30 100); [lia|exact Io].
Qed.

Lemma handler_batch_within_rule_based_witness :
  exists r',
    In r' (RuleBased.generateRuleBasedRecommendations Sample.catalog 0
             Sample.scienceUser)
    /\ recTriple r'
       = recTriple
           (Rec.mk "u1" exam "e1" "Exam" (Fin (4 # 5)) rule_based
              Controller.examReasons)
    /\ exists q q',
         Rec.score
           (Rec.mk "u1" exam "e1" "Exam" (Fin (4 # 5)) rule_based
              Controller.examReasons) = Fin q
         /\ Rec.score r' = Fin q' /\ q <= q'.
Proof.
  apply (handler_batch_within_rule_based Sample.catalog 0
           Sample.scienceUser).
  left. vm_compute. reflexivity.
Defined.

(** ** What the content-based generator follows *)

Lemma exam_similarity_is_overlap e preferences :
  matchedSimilarity (ContentBased.itemOfExam e) preferences
  == overlapRatio (Exam.subjects e) (Preferences.subjects preferences).
Proof.
  unfold matchedSimilarity, weightedAverage, listParts,
    ContentBased.itemOfExam, listPart, namePartMatched.
  cbn [Item.subjects Item.skills_required Item.domain Item.company
       Item.organizer truthy_str app map fst snd sumQ fold_right].
  set (r := overlapRatio _ _).
  assert (D : Qle_bool ((2 # 5) + (0 + (0 + (0 + (0 + 0))))) 0 = false)
    by reflexivity.
  rewrite D. field.
Qed.

Lemma no_preference_no_similarity item :
  matchedSimilarity item (Preferences.mk [] [] [] [] [] []) == 0.
Proof.
  assert (R : forall xs, overlapRatio xs [] == 0).
  { intros xs. unfold overlapRatio.
    rewrite filter_none by reflexivity. simpl List.length.
    change (inject_Z (Z.of_nat 0)) with 0. unfold Qdiv. ring. }
  assert (N : forall name, namePartMatched name [] = (0, 0)).
  { intros name. unfold namePartMatched.
    now destruct (truthy_str name). }
  unfold matchedSimilarity, weightedAverage, listParts.
  cbn [Preferences.subjects Preferences.skills Preferences.domains
       Preferences.companies Preferences.organizers].
  rewrite !N.
  assert (Z : sumQ (map fst
                      ([listPart (Item.subjects item) [] (2 # 5);
                        listPart (Item.skills_required item) [] (3 # 10);
                        listPart (Item.domain item) [] (1 # 5)]
                       ++ [(0, 0); (0, 0)])) == 0).
  { unfold listPart. cbn [app map fst sumQ fold_right].
    destruct (Item.subjects item), (Item.skills_required item),
      (Item.domain item); cbn [fst]; rewrite ?R; ring. }
  destruct (Qle_bool _ 0); [reflexivity|].
  rewrite Z. unfold Qdiv. ring.
Qed.

Lemma nothing_stored_no_preference db user :
  savedExamDocs db user = [] ->
  savedOppDocs db user = [] ->
  ContentBased.analyzeUserPreferences db user
  = Preferences.mk [] [] [] [] [] [].
Proof.
  intros E O. rewrite analyzeUserPreferences_collects, E, O. reflexivity.
Qed.

Lemma empty_preferences_keep_nothing item :
  gt (ContentBased.calculateContentSimilarity item
        (Preferences.mk [] [] [] [] [] [])) (Fin (7 # 10)) = false.
Proof.
  rewrite similarity_gt_iff. unfold aboveThreshold.
  apply andb_false_iff. right. apply negb_false_iff.
  apply Qle_bool_iff. rewrite no_preference_no_similarity. discriminate.
Qed.

Lemma school_has_no_saved_opportunity_docs db user :
  User.saved_hackathons user ++ User.saved_internships user = [] ->
  savedOppDocs db user = [].
Proof.
  intros E. unfold savedOppDocs. rewrite E. now apply filter_none.
Qed.

Lemma flat_map_nil {A B : Type} (f : A -> list B) (l : list A) :
  (forall a, f a = []) -> flat_map f l = [].
Proof.
  intros H. induction l as [|a l IH]; simpl; [reflexivity|].
  now rewrite H, IH.
Qed.

(** X24: the content-based generator follows what the learner has saved
    and is still stored.  For a learner none of whose saved ids has a
    stored document it returns nothing.  An exam it recommends to a
    school learner is a stored exam with at least one subject, at least
    seven in ten of its subjects are subjects of the learner's saved
    exams, its exam type is that of one of the saved exams, and its score
    is a number above 0.7 and at most 1 that is the share of those
    subjects up to the rounding of the arithmetic. *)
Theorem content_based_follows_saved (db : DB) (now : Z) (user : User.t) :
  (savedExamDocs db user = [] ->
   savedOppDocs db user = [] ->
   ContentBased.generateContentBasedRecommendations db now user = [])
  /\ (User.role user = school ->
      forall r,
        In r (ContentBased.generateContentBasedRecommendations db now user)
        -> exists e,
             In e (exams db)
             /\ Exam._id e = Rec.entity_id r
             /\ Exam.subjects e <> []
             /\ (exists s, In s (savedExamDocs db user)
                           /\ Exam.exam_type s = Exam.exam_type e)
             /\ 7 # 10 <= overlapRatio (Exam.subjects e)
                            (savedSubjects db user)
             /\ exists q,
                  Rec.score r = Fin q
                  /\ 7 # 10 < q /\ q <= 1
                  /\ overlapRatio (Exam.subjects e) (savedSubjects db user)
                     - roundingMargin <= q
                  /\ q <= overlapRatio (Exam.subjects e)
                            (savedSubjects db user)
                          + roundingMargin).
Proof.
  split.
  - intros E O.
    unfold ContentBased.generateContentBasedRecommendations.
    rewrite (nothing_stored_no_preference db user E O).
    destruct (Role_eqb (User.role user) school && _).
    + rewrite content_scoreExams_flat_map. apply flat_map_nil.
      intros e. unfold ContentBased.examStep.
      now rewrite empty_preferences_keep_nothing.
    + destruct (Role_eqb (User.role user) university && _); [|reflexivity].
      rewrite content_scoreOpportunities_flat_map.
      apply flat_map_nil.
      intros o. unfold ContentBased.oppStep.
      now rewrite empty_preferences_keep_nothing.
  - intros R r.
    unfold ContentBased.generateContentBasedRecommendations, savedSubjects.
    rewrite R. cbn [Role_eqb andb].
    destruct (nonempty (User.saved_exams user)); [|intros []].
    set (prefs := ContentBased.analyzeUserPreferences db user).
    intros Hr. unfold ContentBased.scoreExams in Hr.
    apply (In_flat_map_step _ _ _ (content_examStep_push user prefs)) in Hr.
    destruct Hr as [e [He Hr]]. unfold ContentBased.examStep in Hr.
    destruct (gt _ _) eqn:G; [|contradiction].
    destruct Hr as [<-|[]].
    cbn [Rec.entity_id Rec.score ContentBased.examRec].
    unfold ContentBased.findSimilarExams in He. apply firstn_In in He.
    apply filter_In in He. destruct He as [He Hq].
    apply andb_true_iff in Hq. destruct Hq as [_ Hty].
    exists e. split; [exact He|]. split; [reflexivity|].
    assert (NE : hasEmptyFacet (ContentBased.itemOfExam e) = false).
    { destruct (hasEmptyFacet (ContentBased.itemOfExam e)) eqn:H;
        [|reflexivity].
      rewrite (calculateContentSimilarity_nan _ prefs H) in G.
      discriminate. }
    assert (NS : Exam.subjects e <> []).
    { intros Z. unfold hasEmptyFacet, ContentBased.itemOfExam in NE.
      cbn [Item.subjects] in NE. rewrite Z in NE. discriminate. }
    split; [exact NS|].
    destruct (calculateContentSimilarity_value _ prefs NE) as [q [Eq Vq]].
    rewrite exam_similarity_is_overlap in Vq.
    destruct (content_similarity_above _ _ G) as [q' [Eq' [Glo Ghi]]].
    assert (Q : q' = q) by congruence. subst q'.
    assert (SavedOne : exists s, In s (savedExamDocs db user)).
    { destruct (filter (fun x => str_includes (Preferences.subjects prefs) x)
                  (Exam.subjects e)) as [|x xs] eqn:F.
      - exfalso. rewrite Vq in Glo. unfold overlapRatio in Glo.
        rewrite F in Glo. simpl List.length in Glo.
        change (inject_Z (Z.of_nat 0)) with 0 in Glo.
        unfold Qdiv in Glo. rewrite Qmult_0_l in Glo. discriminate.
      - assert (Ix : In x (Preferences.subjects prefs)).
        { assert (I : In x (x :: xs)) by now left.
          rewrite <- F in I. apply filter_In in I.
          now apply str_includes_In. }
        unfold prefs in Ix. rewrite analyzeUserPreferences_collects in Ix.
        cbn [Preferences.subjects] in Ix.
        apply collected_spec in Ix. destruct Ix as [s [Is _]]. eauto. }
    split.
    + destruct SavedOne as [s0 Is0].
      assert (T : In (Exam.exam_type s0) (Preferences.examTypes prefs)).
      { unfold prefs. rewrite analyzeUserPreferences_collects.
        cbn [Preferences.examTypes]. apply collected_spec.
        exists s0. split; [exact Is0|now left]. }
      assert (NT : nonempty (Preferences.examTypes prefs) = true).
      { destruct (Preferences.examTypes prefs); [destruct T|reflexivity]. }
      rewrite NT in Hty. apply str_includes_In in Hty.
      unfold prefs in Hty. rewrite analyzeUserPreferences_collects in Hty.
      cbn [Preferences.examTypes] in Hty.
      apply collected_spec in Hty. destruct Hty as [s [Is [Es | []]]].
      exists s. auto.
    + assert (M : 0 <= roundingMargin) by discriminate.
      split; [rewrite <- Vq; now apply Qlt_le_weak|].
      exists q. split; [exact Eq|]. split; [exact Glo|].
      split; [exact Ghi|]. rewrite <- Vq. split; lra.
Qed.

Lemma content_based_follows_saved_witness :
  let r := Sample2.nextBoardRec in
  exists e,
    In e (exams Sample2.classroom)
    /\ Exam._id e = Rec.entity_id r
    /\ Exam.subjects e <> []
    /\ (exists s, In s (savedExamDocs Sample2.classroom Sample2.pupil)
                  /\ Exam.exam_type s = Exam.exam_type e)
    /\ 7 # 10 <= overlapRatio (Exam.subjects e)
                   (savedSubjects Sample2.classroom Sample2.pupil)
    /\ exists q,
         Rec.score r = Fin q
         /\ 7 # 10 < q /\ q <= 1
         /\ overlapRatio (Exam.subjects e)
              (savedSubjects Sample2.classroom Sample2.pupil)
            - roundingMargin <= q
         /\ q <= overlapRatio (Exam.subjects e)
                   (savedSubjects Sample2.classroom Sample2.pupil)
                 + roundingMargin.
Proof.
  apply (proj2 (content_based_follows_saved Sample2.classroom 0
                  Sample2.pupil)).
  - reflexivity.
  - vm_compute. left. reflexivity.
Defined.

(** ** The similar users shown to a learner *)

Lemma neighbour_found db user u :
  In u (users db) ->
  User.is_active u = true ->
  User._id u <> User._id user ->
  sharesInterest user u ->
  In u (filter (fun u => negb (String.eqb (User._id u) (User._id user)))
               (findByInterests db (User.interests user))).
Proof.
  intros I A N [i [Iu Iv]]. apply filter_In. split.
  - unfold findByInterests. apply filter_In. split; [exact I|].
    rewrite A, andb_true_r. apply existsb_exists. exists i.
    split; [exact Iv|]. now apply str_includes_In.
  - apply negb_true_iff. now apply String.eqb_neq.
Qed.

(** X25: [getSimilarUsers] answers 404 when no user has the id.  For a
    stored learner it answers 200 with an empty list when no other active
    stored user declares one of the learner's interests, as for a learner
    without interests; as soon as there is such a user the call throws,
    on reading the length of a saved list the query has not selected.
    So the handler never returns a list that holds a user. *)
Theorem similar_users_answer (db : DB) (userId : ObjectId) :
  match findUserById db userId with
  | None => getSimilarUsers db userId = Returns None
  | Some user =>
      ((exists u,
          In u (users db)
          /\ User.is_active u = true
          /\ User._id u <> userId
          /\ sharesInterest user u) ->
       returned (getSimilarUsers db userId) = false)
      /\ (~ (exists u,
               In u (users db)
               /\ User.is_active u = true
               /\ User._id u <> userId
               /\ sharesInterest user u) ->
          getSimilarUsers db userId = Returns (Some []))
      /\ (User.interests user = [] ->
          getSimilarUsers db userId = Returns (Some []))
  end
  /\ (forall l, getSimilarUsers db userId = Returns (Some l) -> l = []).
Proof.
  unfold getSimilarUsers.
  destruct (findUserById db userId) as [user|] eqn:U.
  2:{ split; [reflexivity|]. discriminate. }
  pose proof (findUserById_id _ _ _ U) as Eid.
  set (found := filter (fun u =>
                          negb (String.eqb (User._id u) (User._id user)))
                       (findByInterests db (User.interests user))).
  cbv zeta. split; [split; [|split]|].
  - intros [u [I [A [N S]]]].
    assert (F : In u found).
    { apply neighbour_found; auto. now rewrite Eid. }
    destruct found as [|v rest]; [destruct F|reflexivity].
  - intros N. destruct found as [|v rest] eqn:F; [reflexivity|].
    exfalso. apply N. exists v.
    assert (Iv : In v (firstn 20 found)).
    { rewrite F. now left. }
    unfold found in Iv. fold (similarUsersOf db user) in Iv.
    apply similarUsersOf_In in Iv. now rewrite <- Eid.
  - intros I. unfold found. rewrite I, findByInterests_none. reflexivity.
  - intros l. destruct found as [|v rest]; simpl.
    + now intros [= <-].
    + discriminate.
Qed.

Lemma similar_users_answer_witness :
  returned (getSimilarUsers Sample.campus "u6") = false.
Proof.
  generalize (similar_users_answer Sample.campus "u6").
  change (findUserById Sample.campus "u6") with (Some Sample.ada).
  intros [[H _] _]. apply H. exists Sample.bob.
  split; [right; left; reflexivity|]. split; [reflexivity|].
  split; [discriminate|]. exists "AI"%string.
  split; left; reflexivity.
Defined.

(** ** What the hybrid merge leaves alone *)

Lemma fold_average_hybrid rest : forall x,
  Rec.algorithm_used x = hybrid ->
  Rec.algorithm_used (fold_left average rest x) = hybrid.
Proof.
  induction rest as [|y rest IH]; intros x H; simpl; [exact H|].
  apply IH. reflexivity.
Qed.

Lemma hybridMerge_entry l r :
  In r (hybridMerge l) -> om_get (mergeAll l) (recKey r) = Some r.
Proof.
  intros I. unfold hybridMerge in I. apply firstn_In in I.
  apply (Permutation_in _ (sort_perm _ _)) in I.
  apply in_map_iff in I. destruct I as [[k r'] [E I]]. simpl in E. subst r'.
  pose proof (mergeAll_keyed l) as K. rewrite Forall_forall in K.
  pose proof (K _ I) as Ek. simpl in Ek. subst k.
  apply om_In_get; [|exact I].
  rewrite mergeAll_keys. apply firstSeen_NoDup.
Qed.

(** X26: every record the hybrid merge returns is the merge of all the
    input records of its key: an offering that one generator only has
    recommended is returned as that generator produced it, with its score,
    reasons and algorithm; an offering recommended more than once is
    returned with the algorithm hybrid. *)
Theorem hybrid_keeps_single_source_records
  (allRecommendations : list Rec.t) (r : Rec.t) :
  In r (hybridMerge allRecommendations) ->
  merged (occurrences (recKey r) allRecommendations) = Some r
  /\ (forall x, occurrences (recKey r) allRecommendations = [x] -> r = x)
  /\ ((2 <= List.length (occurrences (recKey r) allRecommendations))%nat ->
      Rec.algorithm_used r = hybrid).
Proof.
  intros I. apply hybridMerge_entry in I. rewrite mergeAll_get in I.
  split; [exact I|]. split.
  - intros x E. rewrite E in I. simpl in I. congruence.
  - intros L.
    destruct (occurrences (recKey r) allRecommendations)
      as [|a [|b rest]]; simpl in L; try lia.
    simpl in I. injection I as <-. now apply fold_average_hybrid.
Qed.

Lemma hybrid_keeps_single_source_records_witness :
  let l := [Sample.e1Rule] ++ [Sample.e1Collab] in
  let r := average Sample.e1Rule Sample.e1Collab in
  Rec.algorithm_used r = hybrid.
Proof.
  apply (hybrid_keeps_single_source_records
           ([Sample.e1Rule] ++ [Sample.e1Collab])
           (average Sample.e1Rule Sample.e1Collab)).
  - vm_compute. left. reflexivity.
  - vm_compute. lia.
Defined.

Lemma rule_based_keys_distinct db now user :
  NoDup (map Exam._id (exams db)) ->
  NoDup (map Opportunity._id (opportunities db)) ->
  NoDup (map recKey (RuleBased.generateRuleBasedRecommendations db now user)).
Proof.
  intros NE NO. unfold RuleBased.generateRuleBasedRecommendations.
  destruct (User.role user).
  - rewrite rule_scoreExams_flat_map.
    apply (NoDup_emitted Exam._id _ recKey
             (fun id => String.append "exam_" id)).
    + intros e. unfold RuleBased.examStep. destruct (gt _ _); [|now left].
      right. eexists. split; [reflexivity|].
      unfold recKey, RuleBased.examRec.
      now destruct (RuleBased.examScore user e).
    + intros x y H. simpl in H. now injection H.
    + now apply NoDup_map_firstn, NoDup_map_filter.
  - rewrite rule_scoreOpportunities_flat_map.
    apply (NoDup_emitted Opportunity._id _ recKey
             (fun id => String.append "opportunity_" id)).
    + intros o. unfold RuleBased.oppStep. destruct (gt _ _); [|now left].
      right. eexists. split; [reflexivity|].
      unfold recKey, RuleBased.oppRec.
      now destruct (RuleBased.oppScore user o).
    + intros x y H. simpl in H. now injection H.
    + now apply NoDup_map_firstn, NoDup_map_filter.
Qed.

(** X27: for a learner with no interests and nothing saved, on a
    catalogue with distinct ids, the hybrid generator returns the records
    of the rule-based generator, by descending score (records of equal
    score in their order) and cut to the first 50: nothing is averaged,
    and every record keeps the algorithm rule_based. *)
Theorem hybrid_for_empty_profile
  (plainIncludes : list ObjectId -> ObjectId -> bool)
  (db : DB) (now : Z) (user : User.t) :
  User.interests user = [] ->
  User.saved_exams user = [] ->
  User.saved_hackathons user = [] ->
  User.saved_internships user = [] ->
  NoDup (map Exam._id (exams db)) ->
  NoDup (map Opportunity._id (opportunities db)) ->
  generateHybridRecommendations plainIncludes db now user
  = firstn 50
      (sort byScoreDesc
         (RuleBased.generateRuleBasedRecommendations db now user))
  /\ Forall (fun r => Rec.algorithm_used r = rule_based)
       (generateHybridRecommendations plainIncludes db now user).
Proof.
  intros I S1 S2 S3 NE NO.
  assert (E : generateHybridRecommendations plainIncludes db now user
              = firstn 50
                  (sort byScoreDesc
                     (RuleBased.generateRuleBasedRecommendations db now
                        user))).
  { unfold generateHybridRecommendations.
    rewrite (content_based_nothing_saved db now user S1 S2 S3).
    assert (C : generateCollaborativeFilteringRecommendations plainIncludes
                  db user = []).
    { unfold generateCollaborativeFilteringRecommendations, similarUsersOf.
      rewrite I, findByInterests_none. reflexivity. }
    rewrite C, !app_nil_r. unfold hybridMerge, mergeAll.
    rewrite mergeAll_distinct.
    - simpl app. rewrite map_map. simpl. now rewrite map_id.
    - simpl. now apply rule_based_keys_distinct. }
  split; [exact E|]. rewrite E.
  apply Forall_forall. intros r Hr. apply firstn_In in Hr.
  apply (Permutation_in _ (sort_perm _ _)) in Hr.
  pose proof (rule_based_madeFor db now user) as F.
  rewrite Forall_forall in F. now apply F.
Qed.

Lemma hybrid_for_empty_profile_witness :
  Forall (fun r => Rec.algorithm_used r = rule_based)
    (generateHybridRecommendations oid_includes Sample.catalog 0
       Sample.scienceUser).
Proof.
  apply (hybrid_for_empty_profile oid_includes Sample.catalog 0
           Sample.scienceUser); try reflexivity.
  - exact catalog_exam_ids_distinct.
  - exact catalog_opp_ids_distinct.
Defined.
